(** * PlanningCenter YouTube integration: a shallow embedding of [src/index.js]

    The userscript is a set of small classes that delegate to host globals
    (the userscript key-value store, [Date], [fetch], [prompt], the Google
    identity popup, the DOM).  Each class becomes a module; methods keep
    their names.  Host state is threaded explicitly through a small
    state-and-exception monad.  What the user answers (prompt input, popup
    callbacks) is a finite script carried by the state; what the network
    answers is a finite script handed to [executeRequest], one answer per
    [fetch].  When a script runs out the awaited promise stays pending.

    Conventions.
    - JavaScript primitive values are [JSValue]; numbers are the integral
      doubles and NaN (every number the script computes is an epoch
      timestamp, a seconds count or a length).  Objects and arrays are not
      values of [JSValue]: a token response whose fields are objects is
      outside the embedding.
    - A [string] holds the UTF-8 encoding of the JavaScript string, so a
      code point above 255 shows as a byte of 196 or more.
    - The engine's string-to-number conversion and the host's time zone
      are the two fields of the [Host] class and are never inspected.
    - [console.debug], [console.info] and [console.log] have no effect on
      any value and are left out; [console.error] is recorded. *)

From Stdlib Require Import ZArith Lia Ascii String List Bool.
From stdpp Require Import gmap strings list fin_maps pretty.

Local Open Scope string_scope.
Local Open Scope Z_scope.

Set Warnings "-register-all".

(** ** JavaScript primitive values *)

Inductive number : Type :=
| NaN
| Num (z : Z).

Inductive JSValue : Type :=
| JSUndefined
| JSNull
| JSBoolean (b : bool)
| JSNumber (n : number)
| JSString (s : string).

(** What a [throw] or a promise rejection carries: an [Error] object (with
    its class name) or, for [reject(`...`)], a plain string. *)
Inductive Thrown : Type :=
| ErrorObject (name message : string)
| ThrownString (s : string).

Definition Error (message : string) : Thrown := ErrorObject "Error" message.
Definition TypeError (message : string) : Thrown := ErrorObject "TypeError" message.

(** The host engine: [StringToNumber] is ECMAScript's conversion of a
    string to a number, [LocalTZA t isUTC] the local time zone adjustment
    in milliseconds at time value [t] (a UTC time value when [isUTC], a
    local one otherwise). *)
Class Host : Type := {
  StringToNumber : string -> number;
  LocalTZA : Z -> bool -> Z
}.

Module JS.

(** ToBoolean *)
Definition truthy (v : JSValue) : bool :=
  match v with
  | JSUndefined | JSNull => false
  | JSBoolean b => b
  | JSNumber NaN => false
  | JSNumber (Num z) => negb (z =? 0)
  | JSString s => negb (String.eqb s "")
  end.

(** [!v] *)
Definition not (v : JSValue) : bool := negb (truthy v).

(** [a && b] and [a || b] return one of their operands. *)
Definition and (a b : JSValue) : JSValue := if truthy a then b else a.
Definition or (a b : JSValue) : JSValue := if truthy a then a else b.

(** Number::toString for NaN and for integers, in plain decimal; it is
    the engine's below 10^21 in magnitude, where the engine switches to
    exponent notation. *)
Definition NumberToString (n : number) : string :=
  match n with
  | NaN => "NaN"
  | Num z => pretty z
  end.

(** ToString, as applied by template literals and by [+] on a string. *)
Definition ToString (v : JSValue) : string :=
  match v with
  | JSUndefined => "undefined"
  | JSNull => "null"
  | JSBoolean true => "true"
  | JSBoolean false => "false"
  | JSNumber n => NumberToString n
  | JSString s => s
  end.

Definition ThrownToString (e : Thrown) : string :=
  match e with
  | ErrorObject name message => name +:+ ": " +:+ message
  | ThrownString s => s
  end.

Section WithHost.
Context `{Host}.

Definition ToNumber (v : JSValue) : number :=
  match v with
  | JSUndefined => NaN
  | JSNull => Num 0
  | JSBoolean true => Num 1
  | JSBoolean false => Num 0
  | JSNumber n => n
  | JSString s => StringToNumber s
  end.

(** [a > b] when at least one operand is not a string: both sides go
    through ToNumber and a NaN on either side gives [false].  Every
    comparison of the script has a number on one side. *)
Definition gt (a b : JSValue) : bool :=
  match ToNumber a, ToNumber b with
  | Num x, Num y => y <? x
  | _, _ => false
  end.

(** [n + v] with a number on the left: concatenation when [v] is a
    string, numeric addition otherwise. *)
Definition add_number (n : number) (v : JSValue) : JSValue :=
  match v with
  | JSString s => JSString (NumberToString n +:+ s)
  | _ => match n, ToNumber v with
         | Num x, Num y => JSNumber (Num (x + y))
         | _, _ => JSNumber NaN
         end
  end.
End WithHost.

(** [v.length] of a primitive: defined on strings only.  The count is of
    bytes; it is zero exactly for the empty string, which is all the
    script asks of it. *)
Definition length (v : JSValue) : JSValue :=
  match v with
  | JSString s => JSNumber (Num (Z.of_nat (String.length s)))
  | _ => JSUndefined
  end.

(** [a === b] against a string constant. *)
Definition strict_eq_string (v : JSValue) (s : string) : bool :=
  match v with
  | JSString s' => String.eqb s' s
  | _ => false
  end.

End JS.

(** ** [Date]: time values per ECMAScript, section "Date Objects" *)

Module Date.

Definition msPerSecond : Z := 1000.
Definition msPerMinute : Z := 60000.
Definition msPerHour : Z := 3600000.
Definition msPerDay : Z := 86400000.
Definition maxTimeValue : Z := 8640000000000000.

Definition Day (t : Z) : Z := t / msPerDay.
Definition HourFromTime (t : Z) : Z := (t / msPerHour) mod 24.
Definition MinFromTime (t : Z) : Z := (t / msPerMinute) mod 60.
Definition SecFromTime (t : Z) : Z := (t / msPerSecond) mod 60.
Definition msFromTime (t : Z) : Z := t mod msPerSecond.

Definition MakeTime (hour min sec ms : Z) : Z :=
  hour * msPerHour + min * msPerMinute + sec * msPerSecond + ms.
Definition MakeDate (day time : Z) : Z := day * msPerDay + time.

Definition TimeClip (t : Z) : number :=
  if Z.abs t <=? maxTimeValue then Num t else NaN.

(** Calendar fields of a day number (days since 1970-01-01, proleptic
    Gregorian calendar): [(YearFromTime, MonthFromTime + 1, DateFromTime)]. *)
Definition civil (day : Z) : Z * Z * Z :=
  let z := day + 719468 in
  let era := z / 146097 in
  let doe := z - era * 146097 in
  let yoe := (doe - doe / 1460 + doe / 36524 - doe / 146096) / 365 in
  let doy := doe - (365 * yoe + yoe / 4 - yoe / 100) in
  let mp := (5 * doy + 2) / 153 in
  let d := doy - (153 * mp + 2) / 5 + 1 in
  let m := if mp <? 10 then mp + 3 else mp - 9 in
  let y := yoe + era * 400 + (if m <=? 2 then 1 else 0) in
  (y, m, d).

(** Decimal digits of a non-negative [n], left-padded with zeros. *)
Definition pad (width : nat) (n : Z) : string :=
  let digits := pretty n in
  String.concat "" (replicate (width - String.length digits) "0") +:+ digits.

Definition yearString (y : Z) : string :=
  if (0 <=? y) && (y <=? 9999) then pad 4 y
  else if y <? 0 then "-" +:+ pad 6 (- y)
  else "+" +:+ pad 6 y.

(** [d.toISOString()]: [YYYY-MM-DDTHH:mm:ss.sssZ] in UTC; a RangeError
    on an invalid date. *)
Definition toISOString (d : number) : Thrown + string :=
  match d with
  | NaN => inl (ErrorObject "RangeError" "Invalid time value")
  | Num t =>
      let '(y, m, dd) := civil (Day t) in
      inr (yearString y +:+ "-" +:+ pad 2 m +:+ "-" +:+ pad 2 dd +:+ "T" +:+
           pad 2 (HourFromTime t) +:+ ":" +:+ pad 2 (MinFromTime t) +:+ ":" +:+
           pad 2 (SecFromTime t) +:+ "." +:+ pad 3 (msFromTime t) +:+ "Z")
  end.

Section WithHost.
Context `{Host}.

Definition LocalTime (t : Z) : Z := t + LocalTZA t true.
Definition UTC (t : Z) : Z := t - LocalTZA t false.

(** [d.getSeconds()] on a date whose time value is [d]. *)
Definition getSeconds (d : number) : number :=
  match d with
  | NaN => NaN
  | Num t => Num (SecFromTime (LocalTime t))
  end.

(** [d.setSeconds(sec)]: the new time value of the date. *)
Definition setSeconds (d : number) (sec : JSValue) : number :=
  match d, JS.ToNumber sec with
  | Num t0, Num s =>
      let t := LocalTime t0 in
      let date :=
        MakeDate (Day t) (MakeTime (HourFromTime t) (MinFromTime t) s (msFromTime t)) in
      TimeClip (UTC date)
  | _, _ => NaN
  end.
End WithHost.

End Date.

(** ** Structured data: request payloads and parsed response bodies *)

Inductive JSONValue : Type :=
| JUndefined
| JNull
| JBool (b : bool)
| JNumber (n : number)
| JString (s : string)
| JArray (items : list JSONValue)
| JObject (fields : list (string * JSONValue)).

(** ** The host: storage, clock, page, user and network *)

(** [Headers]: a map from lower-cased header names to values.  The values
    the script sets (a content type, a bearer token as issued by the
    identity provider) are legal field values, so [set] does not check
    them. *)
Module Headers.

Definition lower_ascii (c : ascii) : ascii :=
  let n := nat_of_ascii c in
  if ((65 <=? n) && (n <=? 90))%nat then ascii_of_nat (n + 32) else c.

Fixpoint lower (s : string) : string :=
  match s with
  | EmptyString => EmptyString
  | String c s' => String (lower_ascii c) (lower s')
  end.

Definition t : Type := gmap string string.

Definition empty : t := ∅.

Fixpoint all (p : ascii -> bool) (s : string) : bool :=
  match s with
  | EmptyString => true
  | String c s' => p c && all p s'
  end.

(** Header names are HTTP tokens. *)
Definition isTokenChar (c : ascii) : bool :=
  let n := nat_of_ascii c in
  (((48 <=? n) && (n <=? 57)) || ((65 <=? n) && (n <=? 90)) ||
   ((94 <=? n) && (n <=? 122)) ||
   (n =? 33) || ((35 <=? n) && (n <=? 39)) || (n =? 42) || (n =? 43) ||
   (n =? 45) || (n =? 46) || (n =? 124) || (n =? 126))%nat.

Definition legalName (name : string) : bool :=
  negb (String.eqb name "") && all isTokenChar name.

(** The arguments are byte strings: a code point above 255 cannot be
    converted. *)
Definition isByte (c : ascii) : bool := (nat_of_ascii c <? 196)%nat.

Definition isByteString (value : string) : bool := all isByte value.

(** HTTP whitespace: tab, line feed, carriage return, space. *)
Definition isWhitespace (c : ascii) : bool :=
  let n := nat_of_ascii c in
  ((n =? 9) || (n =? 10) || (n =? 13) || (n =? 32))%nat.

Fixpoint stripLeading (s : string) : string :=
  match s with
  | EmptyString => EmptyString
  | String c s' => if isWhitespace c then stripLeading s' else s
  end.

Fixpoint stripTrailing (s : string) : string :=
  match s with
  | EmptyString => EmptyString
  | String c s' =>
      let rest := stripTrailing s' in
      if isWhitespace c && String.eqb rest "" then EmptyString else String c rest
  end.

(** A value is stored without its leading and trailing whitespace. *)
Definition normalize (value : string) : string :=
  stripTrailing (stripLeading value).

(** A normalized value holds no NUL, line feed or carriage return. *)
Definition isValueChar (c : ascii) : bool :=
  let n := nat_of_ascii c in
  negb ((n =? 0) || (n =? 10) || (n =? 13))%nat.

Definition legalValue (value : string) : bool :=
  isByteString value && all isValueChar (normalize value).

(** The entry of the header list for [name] becomes [value]. *)
Definition put (name value : string) (h : t) : t := <[lower name := value]> h.

(** [headers.set(name, value)]: a [TypeError] for a name or value that is
    not legal (the message is Chromium's), and the headers with the
    normalized value otherwise. *)
Definition set (name value : string) (h : t) : Thrown + t :=
  if negb (isByteString name && isByteString value) then
    inl (TypeError
           "Failed to execute 'set' on 'Headers': String contains non ISO-8859-1 code point.")
  else if negb (legalName name) then
    inl (TypeError "Failed to execute 'set' on 'Headers': Invalid name")
  else if negb (all isValueChar (normalize value)) then
    inl (TypeError "Failed to execute 'set' on 'Headers': Invalid value")
  else inr (put name (normalize value) h).

Definition get (name : string) (h : t) : option string := h !! lower name.

End Headers.

(** The options object handed to [fetch]; an absent property is [None].
    [headers], when present, is a [Headers] object, as in every call the
    script makes. *)
Record RequestInit : Type := {
  method : option string;
  headers : option Headers.t;
  body : option string
}.

Definition emptyOptions : RequestInit :=
  {| method := None; headers := None; body := None |}.

Definition set_headers (h : Headers.t) (o : RequestInit) : RequestInit :=
  {| method := method o; headers := Some h; body := body o |}.

(** A [Response]: [ok] is derived from the status as the Fetch standard
    does; [json] is what [res.json()] parses, [None] for an empty body,
    on which it rejects. *)
Record Response : Type := {
  status : Z;
  json : option JSONValue
}.

Definition ok (res : Response) : bool := (200 <=? status res) && (status res <=? 299).

Inductive FetchOutcome : Type :=
| FetchRejects (e : Thrown)
| FetchResolves (res : Response).

(** The object the identity popup hands to the token callback. *)
Record TokenData : Type := {
  access_token : JSValue;
  expires_in : JSValue;
  token_type : JSValue
}.

(** What one [requestAccessToken()] leads to: the callback runs with some
    data ([None] for a missing object), the client library throws, or the
    callback never runs (popup closed or blocked). *)
Inductive PopupOutcome : Type :=
| TokenCallback (data : option TokenData)
| PopupThrows (e : Thrown)
| NoCallback.

Inductive Event : Type :=
| EvConsoleError (e : Thrown)
| EvFetch (url : string) (options : RequestInit)
| EvLogin
| EvPrompt (message : string)
| EvRequestAccessToken (client_id : JSValue) (scope : string)
| EvSetTimeout (ms : Z).

Record State : Type := {
  storage : gmap string JSValue;      (* GM_getValue / GM_setValue / GM_deleteValue *)
  clock : Z;                          (* Date.now(), epoch ms; timers advance it *)
  initialized : bool;                 (* AuthService.initialized *)
  head_scripts : list string;         (* src of the scripts appended to document.head *)
  script_loads : bool;                (* whether an injected script fires onload *)
  prompts : list (option string);     (* answers to prompt(), None for Cancel *)
  popups : list PopupOutcome;         (* outcomes of the identity popup *)
  trace : list Event                  (* observable actions, oldest first *)
}.

Definition with_storage (m : gmap string JSValue) (st : State) : State :=
  {| storage := m; clock := clock st; initialized := initialized st;
     head_scripts := head_scripts st; script_loads := script_loads st;
     prompts := prompts st; popups := popups st; trace := trace st |}.

Definition with_clock (t : Z) (st : State) : State :=
  {| storage := storage st; clock := t; initialized := initialized st;
     head_scripts := head_scripts st; script_loads := script_loads st;
     prompts := prompts st; popups := popups st; trace := trace st |}.

Definition with_initialized (b : bool) (st : State) : State :=
  {| storage := storage st; clock := clock st; initialized := b;
     head_scripts := head_scripts st; script_loads := script_loads st;
     prompts := prompts st; popups := popups st; trace := trace st |}.

Definition with_head_scripts (l : list string) (st : State) : State :=
  {| storage := storage st; clock := clock st; initialized := initialized st;
     head_scripts := l; script_loads := script_loads st;
     prompts := prompts st; popups := popups st; trace := trace st |}.

Definition with_prompts (l : list (option string)) (st : State) : State :=
  {| storage := storage st; clock := clock st; initialized := initialized st;
     head_scripts := head_scripts st; script_loads := script_loads st;
     prompts := l; popups := popups st; trace := trace st |}.

Definition with_popups (l : list PopupOutcome) (st : State) : State :=
  {| storage := storage st; clock := clock st; initialized := initialized st;
     head_scripts := head_scripts st; script_loads := script_loads st;
     prompts := prompts st; popups := l; trace := trace st |}.

Definition with_trace (l : list Event) (st : State) : State :=
  {| storage := storage st; clock := clock st; initialized := initialized st;
     head_scripts := head_scripts st; script_loads := script_loads st;
     prompts := prompts st; popups := popups st; trace := l |}.

(** ** The monad of the script: state, exceptions and pending promises *)

Inductive Outcome (A : Type) : Type :=
| Returned (a : A)      (* returned, or the promise resolved *)
| Threw (e : Thrown)    (* threw, or the promise rejected *)
| Pending.              (* the awaited promise never settles *)

Arguments Returned {A} a.
Arguments Threw {A} e.
Arguments Pending {A}.

Definition M (A : Type) : Type := State -> Outcome A * State.

Definition ret {A} (a : A) : M A := fun st => (Returned a, st).
Definition throw {A} (e : Thrown) : M A := fun st => (Threw e, st).
Definition pending {A} : M A := fun st => (Pending, st).

Definition bind {A B} (m : M A) (k : A -> M B) : M B :=
  fun st =>
    match m st with
    | (Returned a, st') => k a st'
    | (Threw e, st') => (Threw e, st')
    | (Pending, st') => (Pending, st')
    end.

(** [try { m } catch (e) { h e }] *)
Definition try_catch {A} (m : M A) (h : Thrown -> M A) : M A :=
  fun st =>
    match m st with
    | (Threw e, st') => h e st'
    | r => r
    end.

Definition gets {A} (f : State -> A) : M A := fun st => (Returned (f st), st).

(** A call that returns or throws without touching the state. *)
Definition completion {A} (r : Thrown + A) : M A :=
  match r with
  | inl e => throw e
  | inr a => ret a
  end.
Definition modify (f : State -> State) : M unit := fun st => (Returned tt, f st).
Definition emit (ev : Event) : M unit := modify (fun st => with_trace (trace st ++ [ev])%list st).

Notation "x <~ m ;; k" := (bind m (fun x => k))
  (at level 100, m at next level, right associativity).
Notation "m ;;; k" := (bind m (fun _ => k))
  (at level 100, right associativity).

(** ** SettingsStorage *)

Module SettingsStorage.

Definition load (key : string) (st : State) : JSValue :=
  default JSUndefined (storage st !! key).

Definition save (key : string) (value : JSValue) : M unit :=
  modify (fun st => with_storage (<[key := value]> (storage st)) st).

Definition delete (key : string) : M unit :=
  modify (fun st => with_storage (base.delete key (storage st)) st).

End SettingsStorage.

(** ** AuthToken and AuthTokenValidator *)

(** The static field [AuthToken.EXPECTED_TOKEN_TYPE], which the validator
    reads. *)
Definition EXPECTED_TOKEN_TYPE : string := "Bearer".

Module AuthTokenValidator.
Section WithHost.
Context `{Host}.

(** [token && token.length > 0]; [JS.length] is only looked at when
    [token] is truthy, as [&&] short-circuits. *)
Definition isValidAccessToken (token : JSValue) : JSValue :=
  JS.and token (JSBoolean (JS.gt (JS.length token) (JSNumber (Num 0)))).

Definition validateAccessToken (token : JSValue) : M unit :=
  if JS.not (isValidAccessToken token)
  then throw (Error "Invalid access token.")
  else ret tt.

Definition isValidExpiresIn (expiresIn : JSValue) : JSValue :=
  JS.and expiresIn (JSBoolean (JS.gt expiresIn (JSNumber (Num 0)))).

Definition validateExpiresIn (expiresIn : JSValue) : M unit :=
  if JS.not (isValidExpiresIn expiresIn)
  then throw (Error "Invalid expiration time.")
  else ret tt.

Definition isValidTokenType (tokenType : JSValue) : JSValue :=
  JS.and tokenType (JSBoolean (JS.strict_eq_string tokenType EXPECTED_TOKEN_TYPE)).

Definition validateTokenType (data : TokenData) : M unit :=
  if JS.not (isValidTokenType (token_type data))
  then throw (Error "Invalid token type.")
  else ret tt.

Definition validate (data : option TokenData) : M unit :=
  match data with
  | None => throw (Error "No data provided.")
  | Some d =>
      try_catch
        (validateAccessToken (access_token d) ;;;
         validateExpiresIn (expires_in d) ;;;
         validateTokenType d)
        (fun e => throw (Error ("Invalid data: " +:+ JS.ThrownToString e)))
  end.
End WithHost.
End AuthTokenValidator.

Module AuthToken.

Record t : Type := new {
  accessToken : JSValue;
  expiresIn : JSValue;
  tokenType : JSValue
}.

Section WithHost.
Context `{Host}.

Definition deserialize (data : option TokenData) : M t :=
  try_catch
    (AuthTokenValidator.validate data)
    (fun e => throw (Error ("Failed to validate auth token: " +:+ JS.ThrownToString e))) ;;;
  match data with
  | Some d =>
      ret (new (access_token d) (expires_in d) (token_type d))
  | None =>
      (* reading a property of a missing object; not reached, [validate] threw *)
      throw (TypeError "Cannot read properties of undefined")
  end.

(** [const now = new Date(); now.setSeconds(now.getSeconds() + this.expiresIn);
    return now.getTime()] *)
Definition calculateExpirationTimestamp (this : t) : M JSValue :=
  gets (fun st =>
    let now := Num (clock st) in
    let newSeconds := JS.add_number (Date.getSeconds now) (expiresIn this) in
    JSNumber (Date.setSeconds now newSeconds)).

Definition getAccessToken (this : t) : JSValue := accessToken this.
End WithHost.
End AuthToken.

(** ** AuthClient *)

Module AuthClient.

Record t : Type := {
  clientId : JSValue;
  scope : string
}.

Section WithHost.
Context `{Host}.

Definition SCOPES : list string := ["https://www.googleapis.com/auth/youtube"].

(** [this.SCOPES.join(this.SCOPE_SEPARATOR)]: the separator is not a
    field of this class, so [join] falls back to a comma. *)
Fixpoint join (sep : string) (l : list string) : string :=
  match l with
  | [] => ""
  | [x] => x
  | x :: rest => x +:+ sep +:+ join sep rest
  end.

Definition getScope : string := join "," SCOPES.

Definition new (clientId : JSValue) : t :=
  {| clientId := clientId; scope := getScope |}.

Definition processTokenResponse (data : option TokenData) : M AuthToken.t :=
  try_catch
    (AuthToken.deserialize data)
    (fun e => throw (ThrownString ("Could not deserialize response: " +:+ JS.ThrownToString e))).

(** The promise around [googleClient.requestAccessToken()]: it settles
    when the token callback runs. *)
Definition fetchAuthToken (this : t) : M AuthToken.t :=
  emit (EvRequestAccessToken (clientId this) (scope this)) ;;;
  fun st =>
    match popups st with
    | [] => (Pending, st)
    | TokenCallback data :: rest => processTokenResponse data (with_popups rest st)
    | PopupThrows e :: rest => (Threw e, with_popups rest st)
    | NoCallback :: rest => (Pending, with_popups rest st)
    end.
End WithHost.
End AuthClient.

(** ** TokenService *)

Module TokenService.
Section WithHost.
Context `{Host}.

Definition ACCESS_TOKEN_KEY : string := "ACCESS_TOKEN".
Definition EXPIRATION_TIMESTAMP_KEY : string := "EXPIRY_TIME".

Definition saveAuthToken (authToken : AuthToken.t) : M unit :=
  let accessToken := AuthToken.getAccessToken authToken in
  expirationTimestamp <~ AuthToken.calculateExpirationTimestamp authToken ;;
  SettingsStorage.save ACCESS_TOKEN_KEY accessToken ;;;
  SettingsStorage.save EXPIRATION_TIMESTAMP_KEY expirationTimestamp.

Definition getAccessToken (st : State) : JSValue :=
  SettingsStorage.load ACCESS_TOKEN_KEY st.

(** [!expiryTime || Date.now() > expiryTime] *)
Definition hasTokenExpired (st : State) : bool :=
  let expiryTime := SettingsStorage.load EXPIRATION_TIMESTAMP_KEY st in
  JS.not expiryTime || JS.gt (JSNumber (Num (clock st))) expiryTime.

(** [this.getAccessToken() && !this.hasTokenExpired()] *)
Definition isUserAuthenticated (st : State) : JSValue :=
  JS.and (getAccessToken st) (JSBoolean (negb (hasTokenExpired st))).

Definition reset : M unit :=
  SettingsStorage.delete ACCESS_TOKEN_KEY ;;;
  SettingsStorage.delete EXPIRATION_TIMESTAMP_KEY.
End WithHost.
End TokenService.

(** ** ClientIdService *)

Module ClientIdService.

Definition CLIENT_ID_KEY : string := "CLIENT_ID".

Definition prompt (message : string) : M (option string) :=
  emit (EvPrompt message) ;;;
  fun st =>
    match prompts st with
    | [] => (Pending, st)
    | answer :: rest => (Returned answer, with_prompts rest st)
    end.

Definition showClientIdPrompt : M JSValue :=
  clientId <~ prompt "Please enter your Google OAuth client ID." ;;
  match clientId with
  | None | Some "" => throw (Error "No client ID provided.")
  | Some s =>
      SettingsStorage.save CLIENT_ID_KEY (JSString s) ;;;
      ret (JSString s)
  end.

Definition fetchClientId : M JSValue :=
  clientId <~ gets (SettingsStorage.load CLIENT_ID_KEY) ;;
  if JS.not clientId then showClientIdPrompt else ret clientId.

Definition reset : M unit := SettingsStorage.delete CLIENT_ID_KEY.

End ClientIdService.

(** ** AuthService *)

Module AuthService.
Section WithHost.
Context `{Host}.

Definition GSI_SCRIPT_URL : string := "https://accounts.google.com/gsi/client".

(** Appends the script element to [document.head], then awaits its
    [onload]. *)
Definition injectGSIScript : M unit :=
  modify (fun st => with_head_scripts (head_scripts st ++ [GSI_SCRIPT_URL])%list st) ;;;
  fun st => if script_loads st then (Returned tt, st) else (Pending, st).

Definition init : M unit :=
  isInitialized <~ gets initialized ;;
  if isInitialized then ret tt
  else
    modify (with_initialized true) ;;;
    injectGSIScript.

Definition createTokenClient : M AuthClient.t :=
  clientId <~ ClientIdService.fetchClientId ;;
  if JS.not clientId
  then throw (Error "OAuth client ID is missing or invalid.")
  else ret (AuthClient.new clientId).

Definition authenticate : M unit :=
  client <~ createTokenClient ;;
  try_catch
    (loginResponse <~ AuthClient.fetchAuthToken client ;;
     TokenService.saveAuthToken loginResponse)
    (fun e => throw (Error ("Failed to fetch access token: " +:+ JS.ThrownToString e))).

(** [EvLogin] marks the call. *)
Definition login : M unit :=
  emit EvLogin ;;;
  authenticated <~ gets TokenService.isUserAuthenticated ;;
  if JS.truthy authenticated then ret tt else authenticate.

Definition logout : M unit := TokenService.reset.

Definition getAccessToken (st : State) : JSValue := TokenService.getAccessToken st.

Definition reset : M unit :=
  TokenService.reset ;;;
  ClientIdService.reset ;;;
  modify (with_initialized false).
End WithHost.
End AuthService.

(** ** [JSON.stringify] on structured data *)

Module JSON.

Definition dquote : string := String "034"%char EmptyString.
Definition backslash : string := String "092"%char EmptyString.

Definition hexDigit (n : nat) : string :=
  match n with
  | 0%nat => "0" | 1%nat => "1" | 2%nat => "2" | 3%nat => "3"
  | 4%nat => "4" | 5%nat => "5" | 6%nat => "6" | 7%nat => "7"
  | 8%nat => "8" | 9%nat => "9" | 10%nat => "a" | 11%nat => "b"
  | 12%nat => "c" | 13%nat => "d" | 14%nat => "e" | _ => "f"
  end.

(** One character of QuoteJSONString. *)
Definition quoteChar (c : ascii) : string :=
  let n := nat_of_ascii c in
  if (n =? 34)%nat then backslash +:+ dquote
  else if (n =? 92)%nat then backslash +:+ backslash
  else if (n =? 8)%nat then backslash +:+ "b"
  else if (n =? 9)%nat then backslash +:+ "t"
  else if (n =? 10)%nat then backslash +:+ "n"
  else if (n =? 12)%nat then backslash +:+ "f"
  else if (n =? 13)%nat then backslash +:+ "r"
  else if (n <? 32)%nat
       then backslash +:+ "u00" +:+ hexDigit (n / 16) +:+ hexDigit (n mod 16)
  else String c EmptyString.

Fixpoint quoteChars (s : string) : string :=
  match s with
  | EmptyString => EmptyString
  | String c s' => quoteChar c +:+ quoteChars s'
  end.

Definition quote (s : string) : string := dquote +:+ quoteChars s +:+ dquote.

(** SerializeJSONProperty: [None] is the [undefined] result, which drops
    a property from an object and turns into [null] inside an array. *)
Fixpoint serialize (v : JSONValue) : option string :=
  match v with
  | JUndefined => None
  | JNull => Some "null"
  | JBool true => Some "true"
  | JBool false => Some "false"
  | JNumber NaN => Some "null"
  | JNumber (Num z) => Some (pretty z)
  | JString s => Some (quote s)
  | JArray items =>
      Some ("[" +:+
            String.concat ","
              (map (fun item => default "null" (serialize item)) items) +:+
            "]")
  | JObject fields =>
      Some ("{" +:+
            String.concat ","
              (omap (fun '(key, value) =>
                       match serialize value with
                       | Some str => Some (quote key +:+ ":" +:+ str)
                       | None => None
                       end) fields) +:+
            "}")
  end.

Definition stringify (v : JSONValue) : option string := serialize v.

End JSON.

(** ** YouTubeApiService *)

Module YouTubeApiService.
Section WithHost.
Context `{Host}.

Definition HTTP_UNAUTHORIZED_CODE : Z := 401.
Definition HTTP_FORBIDDEN_CODE : Z := 403.
Definition RETRY_DELAY_MS : Z := 1000.
Definition YOUTUBE_API_BASE_URL : string := "https://www.googleapis.com/youtube/v3".
Definition AUTHORIZATION_HEADER_KEY : string := "Authorization".
Definition BEARER_TOKEN_PREFIX : string := "Bearer".

Definition buildUrl (endpoint : string) : string :=
  YOUTUBE_API_BASE_URL +:+ endpoint.

(** [new Promise(resolve => setTimeout(resolve, ms))]: the timer fires
    once [ms] milliseconds have passed. *)
Definition delay (ms : Z) : M unit :=
  emit (EvSetTimeout ms) ;;;
  modify (fun st => with_clock (clock st + ms) st).

Definition isUnauthorized (status : Z) : bool :=
  (status =? HTTP_UNAUTHORIZED_CODE) || (status =? HTTP_FORBIDDEN_CODE).

(** [`${this.BEARER_TOKEN_PREFIX} ${accessToken}`] *)
Definition getBearerToken (st : State) : string :=
  let accessToken := AuthService.getAccessToken st in
  BEARER_TOKEN_PREFIX +:+ " " +:+ JS.ToString accessToken.

Definition getRequestHeaders (st : State) : Thrown + Headers.t :=
  let headers := Headers.empty in
  let bearerToken := getBearerToken st in
  Headers.set AUTHORIZATION_HEADER_KEY bearerToken headers.

Definition getRequestOptions (st : State) : Thrown + RequestInit :=
  match getRequestHeaders st with
  | inl e => inl e
  | inr headers => inr {| method := None; headers := Some headers; body := None |}
  end.

(** [fetch(url, options)]: the request goes out; [answer] is what the
    network does with it, [None] when no answer ever arrives. *)
Definition settle (answer : option FetchOutcome) : M Response :=
  match answer with
  | None => pending
  | Some (FetchRejects e) => throw e
  | Some (FetchResolves res) => ret res
  end.

Definition fetch (answer : option FetchOutcome) (url : string) (options : RequestInit)
  : M Response :=
  emit (EvFetch url options) ;;;
  settle answer.

(** [res.json()]; the error for an empty body has V8's message. *)
Definition res_json (res : Response) : M JSONValue :=
  match json res with
  | Some data => ret data
  | None => throw (ErrorObject "SyntaxError" "Unexpected end of JSON input")
  end.

(** [handleResponse]; [executeRequest] stands for the method it calls
    back into. *)
Definition handleResponse (executeRequest : string -> RequestInit -> M JSONValue)
    (res : Response) (endpoint : string) (options : RequestInit) : M JSONValue :=
  if ok res then res_json res
  else if isUnauthorized (status res) then
    AuthService.login ;;;
    delay RETRY_DELAY_MS ;;;
    executeRequest endpoint options
  else throw (Error "Failed to fetch YouTube data.").

(** The statements inside [try] of [executeRequest]. *)
Definition fetchAndHandle (executeRequest : string -> RequestInit -> M JSONValue)
    (answer : option FetchOutcome) (url endpoint : string) (options : RequestInit)
  : M JSONValue :=
  res <~ fetch answer url options ;;
  handleResponse executeRequest res endpoint options.

(** [options.headers = options.headers || new Headers();
    options.headers.set(this.AUTHORIZATION_HEADER_KEY, bearerToken)]:
    the options object after the two statements, or what [set] throws. *)
Definition setAuthorization (bearerToken : string) (options : RequestInit)
  : Thrown + RequestInit :=
  match Headers.set AUTHORIZATION_HEADER_KEY bearerToken
          (default Headers.empty (headers options)) with
  | inl e => inl e
  | inr headers => inr (set_headers headers options)
  end.

(** The body of [executeRequest], given the network's answer to its
    [fetch] and the method to call for a retry.  The header is set before
    the [try] statement is entered. *)
Definition executeRequestBody (executeRequest : string -> RequestInit -> M JSONValue)
    (answer : option FetchOutcome) (endpoint : string) (options : RequestInit)
  : M JSONValue :=
  let url := buildUrl endpoint in
  bearerToken <~ gets getBearerToken ;;
  options <~ completion (setAuthorization bearerToken options) ;;
  try_catch
    (fetchAndHandle executeRequest answer url endpoint options)
    (fun err => emit (EvConsoleError err) ;;; ret JUndefined).

(** [executeRequest(endpoint, options)] against the network script
    [net]: each [fetch] consumes one answer, and a retry runs against
    the remaining answers. *)
Fixpoint executeRequest (net : list FetchOutcome) (endpoint : string)
    (options : RequestInit) : M JSONValue :=
  match net with
  | [] => executeRequestBody (fun _ _ => pending) None endpoint options
  | answer :: net' =>
      executeRequestBody (executeRequest net') (Some answer) endpoint options
  end.
End WithHost.
End YouTubeApiService.

(** ** YouTubeStream and YouTubeStreamService *)

Module YouTubeStream.

Definition PUBLIC_STREAM_VISIBILITY : string := "public".
Definition UNLISTED_STREAM_VISIBILITY : string := "unlisted".
Definition PRIVATE_STREAM_VISIBILITY : string := "private".

(** [description] is [None] until [setDescription] is called;
    [startTime] is the time value of the [Date]. *)
Record t : Type := {
  title : string;
  description : option string;
  startTime : number;
  visibility : string
}.

Definition new (title : string) (startTime : number) : t :=
  {| title := title; description := None; startTime := startTime;
     visibility := PRIVATE_STREAM_VISIBILITY |}.

Definition getTitle (this : t) : string := title this.
Definition getDescription (this : t) : option string := description this.
Definition getStartTime (this : t) : number := startTime this.
Definition getVisibility (this : t) : string := visibility this.

Definition setTitle (title : string) (this : t) : t :=
  {| title := title; description := description this;
     startTime := startTime this; visibility := visibility this |}.
Definition setDescription (description : string) (this : t) : t :=
  {| title := title this; description := Some description;
     startTime := startTime this; visibility := visibility this |}.
Definition setStartTime (startTime : number) (this : t) : t :=
  {| title := title this; description := description this;
     startTime := startTime; visibility := visibility this |}.
Definition setVisibility (visibility : string) (this : t) : t :=
  {| title := title this; description := description this;
     startTime := startTime this; visibility := visibility |}.

End YouTubeStream.

Module YouTubeStreamService.
Section WithHost.
Context `{Host}.

Definition DUMMY_ENDPOINT : string := "/channels?part=snippet&mine=true".
Definition CREATE_STREAM_ENDPOINT : string := "/liveBroadcasts?part=snippet,status".

Definition dummyApiRequest (net : list FetchOutcome) : M JSONValue :=
  YouTubeApiService.executeRequest net DUMMY_ENDPOINT emptyOptions.

(** The object literal [data] of [uploadStream]. *)
Definition streamData (stream : YouTubeStream.t) (scheduledStartTime : string)
  : JSONValue :=
  JObject
    [("snippet",
      JObject
        [("title", JString (YouTubeStream.getTitle stream));
         ("description",
          match YouTubeStream.getDescription stream with
          | Some d => JString d
          | None => JUndefined
          end);
         ("scheduledStartTime", JString scheduledStartTime)]);
     ("status",
      JObject [("privacyStatus", JString (YouTubeStream.getVisibility stream))])].

Definition uploadStream (net : list FetchOutcome) (stream : YouTubeStream.t) : M unit :=
  requestHeaders <~ gets YouTubeApiService.getRequestHeaders ;;
  headers <~ completion requestHeaders ;;
  headers <~ completion (Headers.set "Content-Type" "application/json" headers) ;;
  match Date.toISOString (YouTubeStream.getStartTime stream) with
  | inl e => throw e
  | inr scheduledStartTime =>
      let data := streamData stream scheduledStartTime in
      YouTubeApiService.executeRequest net CREATE_STREAM_ENDPOINT
        {| method := Some "POST";
           headers := Some headers;
           body := JSON.stringify data |} ;;;
      ret tt
  end.
End WithHost.
End YouTubeStreamService.

(** ** DomService: scraping the order of service *)

(** Page markup: text nodes and elements with a lower-case tag name. *)
Inductive Node : Type :=
| TextNode (data : string)
| Element (tagName : string) (attributes : list (string * string)) (childNodes : list Node).

Module Dom.

Definition hasTag (tag : string) (n : Node) : bool :=
  match n with
  | Element tagName _ _ => String.eqb tagName tag
  | TextNode _ => false
  end.

Definition getAttribute (name : string) (n : Node) : option string :=
  match n with
  | Element _ attributes _ =>
      snd <$> List.find (fun a => String.eqb (fst a) name) attributes
  | TextNode _ => None
  end.

(** [n.textContent] *)
Fixpoint textContent (n : Node) : string :=
  match n with
  | TextNode data => data
  | Element _ _ childNodes => String.concat "" (map textContent childNodes)
  end.

(** The elements below [n], in document order. *)
Fixpoint descendants (n : Node) : list Node :=
  match n with
  | TextNode _ => []
  | Element _ _ childNodes =>
      flat_map
        (fun c => match c with
                  | TextNode _ => []
                  | Element _ _ _ => c :: descendants c
                  end)
        childNodes
  end.

(** [n.querySelector(sel)] for a selector that looks at one element. *)
Definition querySelector (sel : Node -> bool) (n : Node) : option Node :=
  List.find sel (descendants n).

(** [document.querySelector(sel)]: the root element is a candidate too. *)
Definition document_querySelector (sel : Node -> bool) (documentElement : Node)
  : option Node :=
  List.find sel (documentElement :: descendants documentElement).

(** [n.querySelectorAll("p")], each paragraph paired with the result of
    its [closest("div")].  [above] is the nearest [div] that is [n] or
    an ancestor of [n]; walking down, an element that is a [div] becomes
    the nearest one for everything below it. *)
Fixpoint paragraphsWithClosestDiv (above : option Node) (n : Node)
  : list (Node * option Node) :=
  match n with
  | TextNode _ => []
  | Element _ _ childNodes =>
      let nearest := if hasTag "div" n then Some n else above in
      flat_map
        (fun c =>
           ((if hasTag "p" c then [(c, nearest)] else []) ++
            paragraphsWithClosestDiv nearest c)%list)
        childNodes
  end.

(** [element.setAttribute(name, value)] on the attribute list: the value
    of an existing attribute is replaced in place, a new attribute goes
    to the end. *)
Fixpoint setAttribute (name value : string) (attributes : list (string * string))
  : list (string * string) :=
  match attributes with
  | [] => [(name, value)]
  | (k, v) :: rest =>
      if String.eqb k name then (k, value) :: rest
      else (k, v) :: setAttribute name value rest
  end.

(** The elements counted by a selector search at and below a child. *)
Definition subtreeElements (c : Node) : list Node :=
  match c with
  | TextNode _ => []
  | Element _ _ _ => c :: descendants c
  end.

(** Where a scan of a list of children met the first element matching a
    selector: it is one of these children, or it lies inside one of them
    and the list has been rebuilt around the changed child. *)
Inductive Located : Type :=
| AmongThese
| Within (childNodes : list Node).

(** The scan of [prependAtParent] through the children of one element, in
    document order; [inside] is the search inside a child. *)
Fixpoint scanChildren (inside : Node -> option Node) (sel : Node -> bool)
    (childNodes : list Node) : option Located :=
  match childNodes with
  | [] => None
  | c :: rest =>
      if sel c then Some AmongThese
      else
        match inside c with
        | Some c' => Some (Within (c' :: rest))
        | None =>
            match scanChildren inside sel rest with
            | Some AmongThese => Some AmongThese
            | Some (Within rest') => Some (Within (c :: rest'))
            | None => None
            end
        end
  end.

(** [b.parentNode.prepend(new)] for [b] the first element below [n], in
    document order, that matches [sel]: the tree with [new] as the first
    child of that element's parent; [None] when nothing below [n]
    matches. *)
Fixpoint prependAtParent (sel : Node -> bool) (new : Node) (n : Node) : option Node :=
  match n with
  | TextNode _ => None
  | Element tagName attributes childNodes =>
      match scanChildren (prependAtParent sel new) sel childNodes with
      | Some AmongThese => Some (Element tagName attributes (new :: childNodes))
      | Some (Within childNodes') => Some (Element tagName attributes childNodes')
      | None => None
      end
  end.

End Dom.

Module DomService.

Definition isOrderOfServiceTable (n : Node) : bool :=
  Dom.hasTag "div" n &&
  match Dom.getAttribute "data-rbd-droppable-id" n with
  | Some v => String.eqb v "orderOfServiceTable"
  | None => false
  end.

(** [getSongTitleFromParagraph(paragraph)], with [div] the result of
    [paragraph.closest("div")]; [None] is [null]. *)
Definition getSongTitleFromParagraph (paragraph : Node) (div : option Node)
  : option string :=
  let span :=
    match div with
    | Some d => Dom.querySelector (Dom.hasTag "span") d
    | None => None
    end in
  match span with
  | Some _ => Some (Dom.textContent paragraph)
  | None => None
  end.

(** The [forEach] of [getSongTitles]: titles that are truthy are pushed. *)
Definition pushTitles (paragraphs : list (Node * option Node)) : list string :=
  omap
    (fun '(paragraph, div) =>
       match getSongTitleFromParagraph paragraph div with
       | Some title => if JS.truthy (JSString title) then Some title else None
       | None => None
       end)
    paragraphs.

(** [getSongTitles()]: the returned value ([None] for [undefined]) and
    what was written with [console.error]. *)
Definition getSongTitles (documentElement : Node) : option (list string) * list string :=
  match Dom.document_querySelector isOrderOfServiceTable documentElement with
  | None => (None, ["Could not find order of service table."])
  | Some orderOfServiceTable =>
      (Some (pushTitles (Dom.paragraphsWithClosestDiv None orderOfServiceTable)), [])
  end.

(** [onStreamButtonClick()]: reading [songs.length] of [undefined]
    throws. *)
Definition onStreamButtonClick (documentElement : Node) : Outcome unit * list string :=
  let '(songs, errors) := getSongTitles documentElement in
  match songs with
  | None => (Threw (TypeError "Cannot read properties of undefined (reading 'length')"), errors)
  | Some l =>
      if (Z.of_nat (List.length l) =? 0) then (Returned tt, (errors ++ ["No songs found."])%list)
      else (Returned tt, errors)
  end.

(** [button[aria-label="Share"]] *)
Definition isShareButton (n : Node) : bool :=
  Dom.hasTag "button" n &&
  match Dom.getAttribute "aria-label" n with
  | Some v => String.eqb v "Share"
  | None => false
  end.

(** [button.cloneNode(true)] with [aria-label] set to "New Stream" and
    [innerText] set to "New Stream": the copy keeps the tag and the other
    attributes, and its content is the one text node. *)
Definition newStreamButton (button : Node) : Node :=
  match button with
  | Element tagName attributes _ =>
      Element tagName (Dom.setAttribute "aria-label" "New Stream" attributes)
        [TextNode "New Stream"]
  | TextNode data => TextNode data
  end.

(** What [createStreamButton] leaves behind: the page, and the element
    that listens for clicks (with [onStreamButtonClick] as handler). *)
Record Installed : Type := {
  page : Node;
  clickTarget : Node
}.

(** [createStreamButton()].  Without a Share button, [button] is [null]
    and [button.cloneNode] throws.  A Share button that is the root
    element has the document as parent, which cannot take a second
    element child. *)
Definition createStreamButton (documentElement : Node) : Thrown + Installed :=
  match Dom.document_querySelector isShareButton documentElement with
  | None => inl (TypeError "Cannot read properties of null (reading 'cloneNode')")
  | Some button =>
      let youtubeButton := newStreamButton button in
      if isShareButton documentElement
      then inl (ErrorObject "HierarchyRequestError"
                  "Only one element on document allowed.")
      else
        match Dom.prependAtParent isShareButton youtubeButton documentElement with
        | Some documentElement' =>
            inr {| page := documentElement'; clickTarget := youtubeButton |}
        | None =>
            (* not reached: the search has just found the button *)
            inl (TypeError "Cannot read properties of null (reading 'prepend')")
        end
  end.

(** [DomService.init()] *)
Definition init (documentElement : Node) : Thrown + Installed :=
  createStreamButton documentElement.

End DomService.

(** ** The script body: wiring, [authService.init()], [domService.init()] *)

Module Main.

(** The async function at the end of the script, on a browser state and a
    page: the outcome, the state and the page it leaves. *)
Definition main (st : State) (documentElement : Node) : Outcome unit * State * Node :=
  match AuthService.init st with
  | (Returned _, st') =>
      match DomService.init documentElement with
      | inr installed => (Returned tt, st', DomService.page installed)
      | inl e => (Threw e, st', documentElement)
      end
  | (Threw e, st') => (Threw e, st', documentElement)
  | (Pending, st') => (Pending, st', documentElement)
  end.

End Main.

(** ** Two concrete hosts, for running the model on examples *)

Module Hosts.

Fixpoint digitsToZ (acc : Z) (s : string) : number :=
  match s with
  | EmptyString => Num acc
  | String c s' =>
      let n := Z.of_nat (nat_of_ascii c) in
      if (48 <=? n) && (n <=? 57) then digitsToZ (10 * acc + (n - 48)) s' else NaN
  end.

(** The conversion of the two example hosts.  It is the engine's on
    plain decimal integer literals and on the empty string, which are the
    strings the examples convert; other strings go to NaN here, also
    those an engine reads as numbers (an exponent, surrounding blanks). *)
Definition decimalStringToNumber (s : string) : number :=
  match s with
  | String "-" (String c s') =>
      match digitsToZ 0 (String c s') with
      | Num z => Num (- z)
      | NaN => NaN
      end
  | _ => digitsToZ 0 s
  end.

(** A browser whose time zone is UTC. *)
Definition utc : Host :=
  {| StringToNumber := decimalStringToNumber;
     LocalTZA := fun _ _ => 0 |}.

(** Europe/Amsterdam during 2025: UTC+1, and UTC+2 between
    2025-03-30T01:00:00Z and 2025-10-26T01:00:00Z.  A local time that is
    skipped or repeated at a transition is read with the offset in force
    before the transition, as ECMAScript prescribes. *)
Definition summerStart : Z := 1743296400000.
Definition summerEnd : Z := 1761440400000.

Definition amsterdamTZA (t : Z) (isUTC : bool) : Z :=
  if isUTC
  then if (summerStart <=? t) && (t <? summerEnd) then 7200000 else 3600000
  else if (summerStart + 7200000 <=? t) && (t <? summerEnd + 7200000)
       then 7200000 else 3600000.

Definition amsterdam : Host :=
  {| StringToNumber := decimalStringToNumber;
     LocalTZA := amsterdamTZA |}.

End Hosts.

(** ** Example states, inputs and pages *)

Module Examples.

(** A browser profile in which the script has stored nothing yet. *)
Definition fresh (now : Z) : State :=
  {| storage := ∅; clock := now; initialized := false; head_scripts := [];
     script_loads := true; prompts := []; popups := []; trace := [] |}.

(** A profile holding an access token that expires at [expiry]. *)
Definition signedIn (now expiry : Z) : State :=
  with_storage
    (<[TokenService.ACCESS_TOKEN_KEY := JSString "ya29.a0AfB_byC"]>
       (<[TokenService.EXPIRATION_TIMESTAMP_KEY := JSNumber (Num expiry)]> ∅))
    (fresh now).

(** A profile whose stored access token is [token]. *)
Definition signedInWith (token : string) (now expiry : Z) : State :=
  with_storage
    (<[TokenService.ACCESS_TOKEN_KEY := JSString token]>
       (<[TokenService.EXPIRATION_TIMESTAMP_KEY := JSNumber (Num expiry)]> ∅))
    (fresh now).

(** An access token with a line feed in it. *)
Definition brokenToken : string := "ya29.a0AfB" +:+ String "010"%char "byC".

(** 2025-01-01T00:00:00Z and 2025-10-26T00:30:00Z in epoch milliseconds. *)
Definition newYear2025 : Z := 1735689600000.
Definition lastSummerTimeNight : Z := 1761438600000.

Definition tokenResponse : TokenData :=
  {| access_token := JSString "ya29.a0AfB_byC";
     expires_in := JSNumber (Num 3599);
     token_type := JSString "Bearer" |}.

Definition emptyAccessToken : TokenData :=
  {| access_token := JSString "";
     expires_in := JSNumber (Num 3599);
     token_type := JSString "Bearer" |}.

Definition macTokenType : TokenData :=
  {| access_token := JSString "ya29.a0AfB_byC";
     expires_in := JSNumber (Num 3599);
     token_type := JSString "MAC" |}.

Definition zeroLifetime : TokenData :=
  {| access_token := JSString "ya29.a0AfB_byC";
     expires_in := JSNumber (Num 0);
     token_type := JSString "Bearer" |}.

Definition missingLifetime : TokenData :=
  {| access_token := JSString "ya29.a0AfB_byC";
     expires_in := JSUndefined;
     token_type := JSString "Bearer" |}.

Definition hourToken : AuthToken.t :=
  AuthToken.new (JSString "ya29.a0AfB_byC") (JSNumber (Num 3599)) (JSString "Bearer").

Definition respond (status : Z) : FetchOutcome :=
  FetchResolves {| status := status; json := Some (JObject []) |}.

(** A page without the order-of-service table. *)
Definition pageWithoutTable : Node :=
  Element "html" []
    [Element "body" []
       [Element "div" [("id", "main")]
          [Element "p" [] [TextNode "Loading"]]]].

(** A plan page: the first item carries the marker span next to its
    paragraph, the second has no span in its block. *)
Definition planPage : Node :=
  Element "html" []
    [Element "body" []
       [Element "div" [("data-rbd-droppable-id", "orderOfServiceTable")]
          [Element "div" []
             [Element "span" [] [TextNode "song"];
              Element "p" [] [TextNode "Amazing Grace"]];
           Element "div" []
             [Element "p" [] [TextNode "Welcome"]]]]].

(** The request body expected for the stream "Worship Night" scheduled
    at 2025-01-01T00:00:00Z. *)
Definition quoted (s : string) : string :=
  String "034"%char (s +:+ String "034"%char EmptyString).

Definition worshipNightBody : string :=
  "{" +:+ quoted "snippet" +:+ ":{" +:+
    quoted "title" +:+ ":" +:+ quoted "Worship Night" +:+ "," +:+
    quoted "scheduledStartTime" +:+ ":" +:+ quoted "2025-01-01T00:00:00.000Z" +:+
  "}," +:+ quoted "status" +:+ ":{" +:+
    quoted "privacyStatus" +:+ ":" +:+ quoted "private" +:+
  "}}".

End Examples.

(** ** Scenarios: a user about to sign in *)

Module Scenarios.

Definition clientId : JSValue := JSString "1234-abc.apps.googleusercontent.com".

(** A profile that holds the client id and no token; the identity popup
    will answer with [popup]. *)
Definition signedOut (now : Z) (popup : PopupOutcome) : State :=
  with_popups [popup]
    (with_storage (<[ClientIdService.CLIENT_ID_KEY := clientId]> ∅) (Examples.fresh now)).

(** A response with an access token but without a token type. *)
Definition noTokenType : TokenData :=
  {| access_token := JSString "ya29.a0AfB_byC";
     expires_in := JSNumber (Num 3599);
     token_type := JSUndefined |}.

(** A response that passes validation and whose access token has a line
    feed in it. *)
Definition brokenTokenResponse : TokenData :=
  {| access_token := JSString Examples.brokenToken;
     expires_in := JSNumber (Num 3599);
     token_type := JSString "Bearer" |}.

Definition okWith (data : JSONValue) : FetchOutcome :=
  FetchResolves {| status := 200; json := Some data |}.

Definition channelList : JSONValue :=
  JObject [("kind", JString "youtube#channelListResponse"); ("items", JArray [])].

(** A plan page with a toolbar that holds the Share button. *)
Definition shareButton : Node :=
  Element "button" [("class", "btn"); ("aria-label", "Share")]
    [Element "svg" [] []; TextNode "Share"].

Definition toolbarPage : Node :=
  Element "html" []
    [Element "body" []
       [Element "header" []
          [Element "button" [("aria-label", "Print")] [TextNode "Print"];
           shareButton];
        Element "main" [] []]].

End Scenarios.

(** ** Observations on traces and strings *)

(** A computation extends the trace: whatever it does, the actions
    recorded before it stay in place and new ones come after them. *)
Definition extends {A} (m : M A) : Prop :=
  forall st, exists l, trace (snd (m st)) = (trace st ++ l)%list.

Definition isFetch (ev : Event) : bool :=
  match ev with
  | EvFetch _ _ => true
  | _ => false
  end.

(** Whether the Authorization value built from the stored token is one
    that [Headers.set] accepts. *)
Definition legalBearer (st : State) : bool :=
  Headers.legalValue (YouTubeApiService.getBearerToken st).

(** The request that [executeRequest(endpoint, options)] sends from state
    [st] when that value is legal, and the state once it has been handed
    to [fetch]. *)
Definition requestSent (st : State) (options : RequestInit) : RequestInit :=
  set_headers
    (Headers.put YouTubeApiService.AUTHORIZATION_HEADER_KEY
       (Headers.normalize (YouTubeApiService.getBearerToken st))
       (default Headers.empty (headers options)))
    options.

Definition afterFetch (st : State) (endpoint : string) (options : RequestInit)
  : State :=
  with_trace
    (trace st ++ [EvFetch (YouTubeApiService.buildUrl endpoint) (requestSent st options)])%list
    st.

(** The headers [uploadStream] hands to [executeRequest] when the
    Authorization value is legal. *)
Definition uploadHeaders (st : State) : Headers.t :=
  Headers.put "Content-Type" "application/json"
    (Headers.put YouTubeApiService.AUTHORIZATION_HEADER_KEY
       (Headers.normalize (YouTubeApiService.getBearerToken st)) Headers.empty).

(** The [catch] block of [executeRequest]. *)
Definition logAndResolve (err : Thrown) : M JSONValue :=
  emit (EvConsoleError err) ;;; ret JUndefined.

(** The number of requests sent in a trace, and the number of those that
    are retries of the first one. *)
Definition fetchCount (tr : list Event) : nat := List.length (List.filter isFetch tr).
Definition retryCount (tr : list Event) : nat := Nat.pred (fetchCount tr).

(** One round of the retry path: the request, the login it leads to and
    the timer. *)
Definition retryRound (url : string) (request : RequestInit) : list Event :=
  [EvFetch url request; EvLogin; EvSetTimeout YouTubeApiService.RETRY_DELAY_MS].

Fixpoint rounds (n : nat) (round : list Event) : list Event :=
  match n with
  | O => []
  | S n' => (round ++ rounds n' round)%list
  end.

(** The state after [n] rounds of the retry path for one request, when
    every login found the user already signed in. *)
Definition afterRounds (n : nat) (st : State) (endpoint : string) (options : RequestInit)
  : State :=
  with_clock (clock st + YouTubeApiService.RETRY_DELAY_MS * Z.of_nat n)
    (with_trace
       (trace st ++
        rounds n (retryRound (YouTubeApiService.buildUrl endpoint) (requestSent st options)))%list
       st).

(** Positions in page markup.  A path lists child indices; [nodeAt path n]
    is the node it leads to from [n], and [ancestors path n] are the nodes
    it passes on the way, from [n] itself down to the parent of that
    node. *)
Fixpoint nodeAt (path : list nat) (n : Node) : option Node :=
  match path with
  | [] => Some n
  | i :: path' =>
      match n with
      | TextNode _ => None
      | Element _ _ childNodes =>
          match nth_error childNodes i with
          | Some c => nodeAt path' c
          | None => None
          end
      end
  end.

Fixpoint ancestors (path : list nat) (n : Node) : list Node :=
  match path with
  | [] => []
  | i :: path' =>
      n :: match n with
           | TextNode _ => []
           | Element _ _ childNodes =>
               match nth_error childNodes i with
               | Some c => ancestors path' c
               | None => []
               end
           end
  end.

(** [div] is the nearest [div] among [chain], a chain of ancestors listed
    from the outermost one down: it is in the chain, and nothing after it
    is a [div]. *)
Definition nearestDivOf (chain : list Node) (div : Node) : Prop :=
  exists outer inner,
    chain = (outer ++ div :: inner)%list /\
    Dom.hasTag "div" div = true /\
    Forall (fun a => Dom.hasTag "div" a = false) inner.

(** [contains s sub]: [sub] occurs in [s]. *)
Fixpoint contains (s sub : string) : bool :=
  String.prefix sub s ||
  match s with
  | EmptyString => false
  | String _ s' => contains s' sub
  end.

(** * Properties *)

(** ** Token validation *)

Section Validation.
Context `{Host}.

Lemma gt_zero_number (n : number) :
  JS.gt (JSNumber n) (JSNumber (Num 0)) = true <-> exists z, n = Num z /\ 0 < z.
Proof.
  unfold JS.gt; simpl. destruct n as [|z].
  - split; [discriminate | intros (z & Hz & _); discriminate].
  - rewrite Z.ltb_lt. split.
    + intros Hz. exists z. split; [reflexivity | exact Hz].
    + intros (z' & Hz' & Hpos). injection Hz' as ->. exact Hpos.
Qed.

Lemma truthy_string (s : string) : JS.truthy (JSString s) = true <-> s <> "".
Proof.
  simpl. rewrite negb_true_iff. split.
  - intros Hs ->. discriminate.
  - intros Hs. apply String.eqb_neq. exact Hs.
Qed.

(** [validate] is a check: it never changes the state, and it returns
    exactly when the three predicates are truthy. *)
Lemma validate_returns_iff (d : TokenData) (st : State) :
  AuthTokenValidator.validate (Some d) st = (Returned tt, st) <->
  JS.truthy (AuthTokenValidator.isValidAccessToken (access_token d)) = true /\
  JS.truthy (AuthTokenValidator.isValidExpiresIn (expires_in d)) = true /\
  JS.truthy (AuthTokenValidator.isValidTokenType (token_type d)) = true.
Proof.
  unfold AuthTokenValidator.validate, try_catch, bind,
    AuthTokenValidator.validateAccessToken, AuthTokenValidator.validateExpiresIn,
    AuthTokenValidator.validateTokenType, JS.not, throw, ret.
  destruct (JS.truthy (AuthTokenValidator.isValidAccessToken (access_token d)));
    destruct (JS.truthy (AuthTokenValidator.isValidExpiresIn (expires_in d)));
    destruct (JS.truthy (AuthTokenValidator.isValidTokenType (token_type d)));
    simpl; split; try tauto; try discriminate; intros (? & ? & ?); discriminate.
Qed.

Lemma validate_throws_or_returns (d : TokenData) (st : State) :
  AuthTokenValidator.validate (Some d) st = (Returned tt, st) \/
  exists e, AuthTokenValidator.validate (Some d) st = (Threw e, st).
Proof.
  unfold AuthTokenValidator.validate, try_catch, bind,
    AuthTokenValidator.validateAccessToken, AuthTokenValidator.validateExpiresIn,
    AuthTokenValidator.validateTokenType, JS.not, throw, ret.
  destruct (JS.truthy (AuthTokenValidator.isValidAccessToken (access_token d)));
    destruct (JS.truthy (AuthTokenValidator.isValidExpiresIn (expires_in d)));
    destruct (JS.truthy (AuthTokenValidator.isValidTokenType (token_type d)));
    simpl; eauto.
Qed.

Lemma validate_rejects (d : TokenData) (st : State) :
  JS.truthy (AuthTokenValidator.isValidAccessToken (access_token d)) = false \/
  JS.truthy (AuthTokenValidator.isValidExpiresIn (expires_in d)) = false \/
  JS.truthy (AuthTokenValidator.isValidTokenType (token_type d)) = false ->
  exists e, AuthTokenValidator.validate (Some d) st = (Threw e, st).
Proof.
  intros Hbad.
  destruct (validate_throws_or_returns d st) as [Hok | Hthrow]; [| exact Hthrow].
  apply validate_returns_iff in Hok. destruct Hok as (Ha & He & Ht).
  destruct Hbad as [Hb | [Hb | Hb]]; congruence.
Qed.

(** [deserialize] throws whenever [validate] does, re-wrapping the error. *)
Lemma deserialize_rejects (data : option TokenData) (st : State) (e : Thrown) :
  AuthTokenValidator.validate data st = (Threw e, st) ->
  AuthToken.deserialize data st =
    (Threw (Error ("Failed to validate auth token: " +:+ JS.ThrownToString e)), st).
Proof.
  intros Hv. unfold AuthToken.deserialize, bind, try_catch. rewrite Hv. reflexivity.
Qed.

Lemma deserialize_accepts (d : TokenData) (st : State) :
  AuthTokenValidator.validate (Some d) st = (Returned tt, st) ->
  AuthToken.deserialize (Some d) st =
    (Returned (AuthToken.new (access_token d) (expires_in d) (token_type d)), st).
Proof.
  intros Hv. unfold AuthToken.deserialize, bind, try_catch. rewrite Hv. reflexivity.
Qed.

Lemma wellformed_validates (d : TokenData) (st : State) (a : string) (z : Z) :
  access_token d = JSString a -> a <> "" ->
  token_type d = JSString "Bearer" ->
  expires_in d = JSNumber (Num z) -> 0 < z ->
  AuthTokenValidator.validate (Some d) st = (Returned tt, st).
Proof.
  intros Ha Hne Ht He Hz. apply validate_returns_iff.
  rewrite Ha, Ht, He. split; [| split].
  - unfold AuthTokenValidator.isValidAccessToken, JS.and.
    apply truthy_string in Hne. rewrite Hne.
    destruct a as [| c a']; [discriminate |].
    unfold JS.gt; simpl. reflexivity.
  - unfold AuthTokenValidator.isValidExpiresIn, JS.and, JS.gt. simpl.
    destruct (Z.eqb_spec z 0) as [Hz0 | Hz0]; [lia |]. simpl.
    apply Z.ltb_lt. exact Hz.
  - reflexivity.
Qed.

(** C4.  [AuthTokenValidator.validate], and with it
    [AuthToken.deserialize], throws when [access_token] is the empty
    string, when [token_type] is a string other than "Bearer", and when
    [expires_in] is a number that is not above zero (NaN, zero or
    negative) or, more generally, any value for which [expires_in > 0] is
    false (a missing field among them); both accept every object whose
    [access_token] is a non-empty string, whose [token_type] is "Bearer"
    and whose [expires_in] is a number above zero, and [deserialize] then
    returns the token built from the three fields. *)
Theorem C4_validate_accepts_exactly_wellformed_tokens (d : TokenData) (st : State) :
  (access_token d = JSString "" ->
     exists e e', AuthTokenValidator.validate (Some d) st = (Threw e, st) /\
                  AuthToken.deserialize (Some d) st = (Threw e', st)) /\
  (forall s, token_type d = JSString s -> s <> "Bearer" ->
     exists e e', AuthTokenValidator.validate (Some d) st = (Threw e, st) /\
                  AuthToken.deserialize (Some d) st = (Threw e', st)) /\
  (forall n, expires_in d = JSNumber n -> ~ (exists z, n = Num z /\ 0 < z) ->
     exists e e', AuthTokenValidator.validate (Some d) st = (Threw e, st) /\
                  AuthToken.deserialize (Some d) st = (Threw e', st)) /\
  (JS.gt (expires_in d) (JSNumber (Num 0)) = false ->
     exists e e', AuthTokenValidator.validate (Some d) st = (Threw e, st) /\
                  AuthToken.deserialize (Some d) st = (Threw e', st)) /\
  (forall a z,
     access_token d = JSString a -> a <> "" ->
     token_type d = JSString "Bearer" ->
     expires_in d = JSNumber (Num z) -> 0 < z ->
     AuthTokenValidator.validate (Some d) st = (Returned tt, st) /\
     AuthToken.deserialize (Some d) st =
       (Returned (AuthToken.new (JSString a) (JSNumber (Num z)) (JSString "Bearer")), st)).
Proof.
  assert (Hboth : forall e, AuthTokenValidator.validate (Some d) st = (Threw e, st) ->
            exists e0 e', AuthTokenValidator.validate (Some d) st = (Threw e0, st) /\
                          AuthToken.deserialize (Some d) st = (Threw e', st)).
  { intros e He. exists e. eexists. split; [exact He |].
    apply deserialize_rejects. exact He. }
  assert (Hexpires : JS.gt (expires_in d) (JSNumber (Num 0)) = false ->
            exists e e', AuthTokenValidator.validate (Some d) st = (Threw e, st) /\
                         AuthToken.deserialize (Some d) st = (Threw e', st)).
  { intros Hgt. destruct (validate_rejects d st) as [e He]; [| eauto].
    right. left. unfold AuthTokenValidator.isValidExpiresIn, JS.and.
    destruct (JS.truthy (expires_in d)) eqn:Ht; [| exact Ht].
    simpl. exact Hgt. }
  split; [| split; [| split; [| split; [exact Hexpires |]]]].
  - intros Ha. destruct (validate_rejects d st) as [e He]; [| eauto].
    left. rewrite Ha. reflexivity.
  - intros s Ht Hs. destruct (validate_rejects d st) as [e He]; [| eauto].
    right. right. rewrite Ht. unfold AuthTokenValidator.isValidTokenType, JS.and.
    destruct (JS.truthy (JSString s)) eqn:Hts; [| exact Hts].
    simpl. apply String.eqb_neq. exact Hs.
  - intros n Hn Hnot. apply Hexpires. rewrite Hn.
    destruct (JS.gt (JSNumber n) (JSNumber (Num 0))) eqn:Hgt; [| reflexivity].
    exfalso. apply Hnot. apply gt_zero_number. exact Hgt.
  - intros a z Ha Hne Ht He Hz.
    pose proof (wellformed_validates d st a z Ha Hne Ht He Hz) as Hv.
    split; [exact Hv |].
    rewrite (deserialize_accepts d st Hv), Ha, Ht, He. reflexivity.
Qed.
End Validation.

(** ** Token lifecycle *)

Section TokenLifecycle.
Context `{Host}.

Lemma load_lookup (key : string) (st : State) (v : JSValue) :
  storage st !! key = Some v -> SettingsStorage.load key st = v.
Proof. intros Hv. unfold SettingsStorage.load. rewrite Hv. reflexivity. Qed.

Lemma load_absent (key : string) (st : State) :
  storage st !! key = None -> SettingsStorage.load key st = JSUndefined.
Proof. intros Hv. unfold SettingsStorage.load. rewrite Hv. reflexivity. Qed.

(** With a number stored as expiry, the token counts as expired when the
    number is zero or the clock is strictly past it. *)
Lemma hasTokenExpired_number (st : State) (e : Z) :
  storage st !! TokenService.EXPIRATION_TIMESTAMP_KEY = Some (JSNumber (Num e)) ->
  TokenService.hasTokenExpired st = (e =? 0) || (e <? clock st).
Proof.
  intros He. unfold TokenService.hasTokenExpired.
  rewrite (load_lookup _ _ _ He). unfold JS.not, JS.gt. simpl.
  rewrite negb_involutive. reflexivity.
Qed.

Lemma hasTokenExpired_absent (st : State) :
  storage st !! TokenService.EXPIRATION_TIMESTAMP_KEY = None ->
  TokenService.hasTokenExpired st = true.
Proof.
  intros He. unfold TokenService.hasTokenExpired.
  rewrite (load_absent _ _ He). reflexivity.
Qed.

(** [isUserAuthenticated] is [true] exactly when the stored token is
    truthy and the token has not expired; otherwise it is falsy. *)
Lemma isUserAuthenticated_true_iff (st : State) :
  TokenService.isUserAuthenticated st = JSBoolean true <->
  JS.truthy (TokenService.getAccessToken st) = true /\
  TokenService.hasTokenExpired st = false.
Proof.
  unfold TokenService.isUserAuthenticated, JS.and.
  destruct (JS.truthy (TokenService.getAccessToken st)) eqn:Ht.
  - destruct (TokenService.hasTokenExpired st); simpl; split;
      try tauto; try discriminate; intros [_ ?]; discriminate.
  - split; [| intros [? _]; discriminate].
    intros Heq. rewrite Heq in Ht. discriminate.
Qed.

Lemma isUserAuthenticated_truthy (st : State) :
  JS.truthy (TokenService.isUserAuthenticated st) =
  JS.truthy (TokenService.getAccessToken st) && negb (TokenService.hasTokenExpired st).
Proof.
  unfold TokenService.isUserAuthenticated, JS.and.
  destruct (JS.truthy (TokenService.getAccessToken st)) eqn:Ht; [reflexivity | exact Ht].
Qed.

(** C3, as the code has it.  With a number [e] stored as expiry,
    [isUserAuthenticated()] returns [true] if and only if a truthy
    (present, non-empty) access token is stored, [e] is not zero and the
    clock is at or before [e]: the comparison is [Date.now() > expiry],
    so at [now = e] the token still counts.  With no expiry stored the
    result is never [true]. *)
Theorem C3_isUserAuthenticated_iff_not_past_expiry (st : State) :
  (forall e,
     storage st !! TokenService.EXPIRATION_TIMESTAMP_KEY = Some (JSNumber (Num e)) ->
     (TokenService.isUserAuthenticated st = JSBoolean true <->
      (exists token,
         storage st !! TokenService.ACCESS_TOKEN_KEY = Some token /\
         JS.truthy token = true) /\
      e <> 0 /\ clock st <= e)) /\
  (storage st !! TokenService.EXPIRATION_TIMESTAMP_KEY = None ->
   TokenService.isUserAuthenticated st <> JSBoolean true).
Proof.
  split.
  - intros e He. rewrite isUserAuthenticated_true_iff, (hasTokenExpired_number st e He).
    unfold TokenService.getAccessToken, SettingsStorage.load.
    rewrite orb_false_iff, Z.eqb_neq, Z.ltb_ge.
    destruct (storage st !! TokenService.ACCESS_TOKEN_KEY) as [token |] eqn:Htok; simpl.
    + split.
      * intros (Ht & Hne & Hle). split; [exists token; split; [reflexivity | exact Ht] |].
        split; assumption.
      * intros ((token' & Heq & Ht) & Hne & Hle). injection Heq as <-.
        split; [exact Ht | split; assumption].
    + split; [intros [? _]; discriminate |].
      intros ((token' & Heq & _) & _). discriminate.
  - intros He Hauth. apply isUserAuthenticated_true_iff in Hauth.
    destruct Hauth as [_ Hexp]. rewrite (hasTokenExpired_absent st He) in Hexp.
    discriminate.
Qed.

Lemma reset_storage (st : State) :
  TokenService.reset st =
    (Returned tt,
     with_storage
       (delete TokenService.EXPIRATION_TIMESTAMP_KEY
          (delete TokenService.ACCESS_TOKEN_KEY (storage st))) st).
Proof. reflexivity. Qed.

(** C5.  Right after [reset()] has deleted both entries,
    [isUserAuthenticated()] is falsy; and it is falsy in every state
    whose stored expiry timestamp lies strictly before the clock. *)
Theorem C5_isUserAuthenticated_falsy_after_reset_and_past_expiry (st : State) :
  (fst (TokenService.reset st) = Returned tt /\
   storage (snd (TokenService.reset st)) !! TokenService.ACCESS_TOKEN_KEY = None /\
   storage (snd (TokenService.reset st)) !! TokenService.EXPIRATION_TIMESTAMP_KEY = None /\
   JS.truthy (TokenService.isUserAuthenticated (snd (TokenService.reset st))) = false) /\
  (forall e,
     storage st !! TokenService.EXPIRATION_TIMESTAMP_KEY = Some (JSNumber (Num e)) ->
     e < clock st ->
     JS.truthy (TokenService.isUserAuthenticated st) = false).
Proof.
  split.
  - rewrite reset_storage. simpl.
    assert (Ha : delete TokenService.EXPIRATION_TIMESTAMP_KEY
                   (delete TokenService.ACCESS_TOKEN_KEY (storage st))
                 !! TokenService.ACCESS_TOKEN_KEY = None).
    { rewrite lookup_delete_ne by discriminate. apply lookup_delete_eq. }
    assert (He : delete TokenService.EXPIRATION_TIMESTAMP_KEY
                   (delete TokenService.ACCESS_TOKEN_KEY (storage st))
                 !! TokenService.EXPIRATION_TIMESTAMP_KEY = None).
    { apply lookup_delete_eq. }
    repeat split; try assumption.
    rewrite isUserAuthenticated_truthy.
    unfold TokenService.getAccessToken. rewrite load_absent by exact Ha. reflexivity.
  - intros e He Hpast. rewrite isUserAuthenticated_truthy.
    rewrite (hasTokenExpired_number st e He).
    apply Z.ltb_lt in Hpast. rewrite Hpast, orb_true_r. apply andb_false_r.
Qed.
End TokenLifecycle.

(** ** Expiration timestamp *)

Section Expiration.

(** Writing the seconds field back with [e] added moves a time value by
    [e] seconds: the other fields are those of [t]. *)
Lemma MakeDate_shift_seconds (t e : Z) :
  Date.MakeDate (Date.Day t)
    (Date.MakeTime (Date.HourFromTime t) (Date.MinFromTime t)
       (Date.SecFromTime t + e) (Date.msFromTime t))
  = t + 1000 * e.
Proof.
  unfold Date.MakeDate, Date.MakeTime, Date.Day, Date.HourFromTime, Date.MinFromTime,
    Date.SecFromTime, Date.msFromTime, Date.msPerDay, Date.msPerHour, Date.msPerMinute,
    Date.msPerSecond.
  Z.div_mod_to_equations. lia.
Qed.

Context `{Host}.

(** On a host whose offset from UTC never changes, and within the range
    of time values, the expiration timestamp is the capture time plus
    [expiresIn] seconds. *)
Lemma calculateExpirationTimestamp_fixed_offset
    (offset : Z) (token : AuthToken.t) (e : Z) (st : State) :
  (forall t isUTC, LocalTZA t isUTC = offset) ->
  AuthToken.expiresIn token = JSNumber (Num e) ->
  Z.abs (clock st + 1000 * e) <= Date.maxTimeValue ->
  AuthToken.calculateExpirationTimestamp token st =
    (Returned (JSNumber (Num (clock st + 1000 * e))), st).
Proof.
  intros Hzone He Hrange.
  unfold AuthToken.calculateExpirationTimestamp, gets. rewrite He.
  unfold Date.getSeconds, JS.add_number, Date.setSeconds. simpl.
  rewrite MakeDate_shift_seconds.
  unfold Date.UTC, Date.LocalTime. rewrite !Hzone.
  replace (clock st + offset + 1000 * e - offset) with (clock st + 1000 * e) by lia.
  unfold Date.TimeClip. apply Z.leb_le in Hrange. rewrite Hrange. reflexivity.
Qed.
End Expiration.

(** ** Instances on concrete inputs *)

(** The four cases of C4 on concrete token responses. *)
Lemma C4_witness :
  (exists e e',
     AuthTokenValidator.validate (H := Hosts.utc) (Some Examples.emptyAccessToken)
       (Examples.fresh 0) = (Threw e, Examples.fresh 0) /\
     AuthToken.deserialize (H := Hosts.utc) (Some Examples.emptyAccessToken)
       (Examples.fresh 0) = (Threw e', Examples.fresh 0)) /\
  (exists e e',
     AuthTokenValidator.validate (H := Hosts.utc) (Some Examples.macTokenType)
       (Examples.fresh 0) = (Threw e, Examples.fresh 0) /\
     AuthToken.deserialize (H := Hosts.utc) (Some Examples.macTokenType)
       (Examples.fresh 0) = (Threw e', Examples.fresh 0)) /\
  (exists e e',
     AuthTokenValidator.validate (H := Hosts.utc) (Some Examples.zeroLifetime)
       (Examples.fresh 0) = (Threw e, Examples.fresh 0) /\
     AuthToken.deserialize (H := Hosts.utc) (Some Examples.zeroLifetime)
       (Examples.fresh 0) = (Threw e', Examples.fresh 0)) /\
  (exists e e',
     AuthTokenValidator.validate (H := Hosts.utc) (Some Examples.missingLifetime)
       (Examples.fresh 0) = (Threw e, Examples.fresh 0) /\
     AuthToken.deserialize (H := Hosts.utc) (Some Examples.missingLifetime)
       (Examples.fresh 0) = (Threw e', Examples.fresh 0)) /\
  AuthTokenValidator.validate (H := Hosts.utc) (Some Examples.tokenResponse)
    (Examples.fresh 0) = (Returned tt, Examples.fresh 0) /\
  AuthToken.deserialize (H := Hosts.utc) (Some Examples.tokenResponse) (Examples.fresh 0) =
    (Returned Examples.hourToken, Examples.fresh 0).
Proof.
  split; [| split; [| split; [| split]]].
  - apply (proj1 (C4_validate_accepts_exactly_wellformed_tokens (H := Hosts.utc)
                    Examples.emptyAccessToken (Examples.fresh 0))).
    reflexivity.
  - apply (proj1 (proj2 (C4_validate_accepts_exactly_wellformed_tokens (H := Hosts.utc)
                           Examples.macTokenType (Examples.fresh 0))) "MAC").
    + reflexivity.
    + discriminate.
  - apply (proj1 (proj2 (proj2 (C4_validate_accepts_exactly_wellformed_tokens
                                  (H := Hosts.utc)
                                  Examples.zeroLifetime (Examples.fresh 0))))
             (Num 0)).
    + reflexivity.
    + intros (z & Hz & Hpos). injection Hz as <-. lia.
  - apply (proj1 (proj2 (proj2 (proj2 (C4_validate_accepts_exactly_wellformed_tokens
                                         (H := Hosts.utc)
                                         Examples.missingLifetime (Examples.fresh 0)))))).
    reflexivity.
  - apply (proj2 (proj2 (proj2 (proj2 (C4_validate_accepts_exactly_wellformed_tokens
                                         (H := Hosts.utc)
                                         Examples.tokenResponse (Examples.fresh 0)))))
             "ya29.a0AfB_byC" 3599).
    + reflexivity.
    + discriminate.
    + reflexivity.
    + reflexivity.
    + lia.
Defined.

(** C3 as the specification words it fails when the clock reads exactly
    the stored expiry: the token still counts as valid there. *)
Lemma C3_counterexample :
  let st := Examples.signedIn Examples.newYear2025 Examples.newYear2025 in
  ~ (TokenService.isUserAuthenticated (H := Hosts.utc) st = JSBoolean true <->
     (exists token, storage st !! TokenService.ACCESS_TOKEN_KEY = Some token) /\
     (exists e,
        storage st !! TokenService.EXPIRATION_TIMESTAMP_KEY = Some (JSNumber (Num e)) /\
        clock st < e)).
Proof.
  intros st [Hforward _].
  assert (Hauth : TokenService.isUserAuthenticated (H := Hosts.utc) st = JSBoolean true)
    by (vm_compute; reflexivity).
  destruct (Hforward Hauth) as (_ & e & He & Hlt).
  vm_compute in He. injection He as <-. vm_compute in Hlt. discriminate.
Qed.

Lemma C3_witness :
  let st := Examples.signedIn Examples.newYear2025 Examples.newYear2025 in
  storage st !! TokenService.EXPIRATION_TIMESTAMP_KEY
    = Some (JSNumber (Num Examples.newYear2025)) /\
  (TokenService.isUserAuthenticated (H := Hosts.utc) st = JSBoolean true <->
   (exists token,
      storage st !! TokenService.ACCESS_TOKEN_KEY = Some token /\
      JS.truthy token = true) /\
   Examples.newYear2025 <> 0 /\ clock st <= Examples.newYear2025).
Proof.
  intros st.
  assert (He : storage st !! TokenService.EXPIRATION_TIMESTAMP_KEY
               = Some (JSNumber (Num Examples.newYear2025)))
    by (vm_compute; reflexivity).
  split; [exact He |].
  exact (proj1 (C3_isUserAuthenticated_iff_not_past_expiry (H := Hosts.utc) st)
           Examples.newYear2025 He).
Defined.

Lemma C5_witness :
  let st := Examples.signedIn (Examples.newYear2025 + 1) Examples.newYear2025 in
  JS.truthy (TokenService.isUserAuthenticated (H := Hosts.utc)
               (snd (TokenService.reset st))) = false /\
  JS.truthy (TokenService.isUserAuthenticated (H := Hosts.utc) st) = false.
Proof.
  intros st. split.
  - apply (proj1 (C5_isUserAuthenticated_falsy_after_reset_and_past_expiry
                    (H := Hosts.utc) st)).
  - apply (proj2 (C5_isUserAuthenticated_falsy_after_reset_and_past_expiry
                    (H := Hosts.utc) st) Examples.newYear2025).
    + vm_compute. reflexivity.
    + unfold st, Examples.signedIn, Examples.fresh, Examples.newYear2025. simpl. lia.
Defined.

(** C8 on a host in the Europe/Amsterdam zone.  A token with the usual
    lifetime of 3599 seconds is captured at 2025-10-26T00:30:00Z, half an
    hour before summer time ends: [setSeconds] works on local-time fields
    and lands on 03:29:59 local time, which is 02:29:59Z.  The result is
    one hour later than capture time plus 3599 seconds. *)
Theorem C8_expiration_timestamp_across_offset_change :
  let st := Examples.fresh Examples.lastSummerTimeNight in
  AuthToken.calculateExpirationTimestamp (H := Hosts.amsterdam) Examples.hourToken st
    = (Returned (JSNumber (Num 1761445799000)), st) /\
  1761445799000 = clock st + 3599 * 1000 + 3600000 /\
  1761445799000 <> clock st + 3599 * 1000.
Proof.
  intros st. split; [vm_compute; reflexivity |].
  split; [vm_compute; reflexivity | vm_compute; discriminate].
Qed.

(** ** Initialisation of the authentication service *)

Lemma init_when_initialized (st : State) :
  initialized st = true -> AuthService.init st = (Returned tt, st).
Proof.
  intros Hinit. unfold AuthService.init, bind, gets, ret. rewrite Hinit. reflexivity.
Qed.

Lemma init_first_call (st : State) :
  initialized st = false ->
  snd (AuthService.init st) =
    with_head_scripts (head_scripts st ++ [AuthService.GSI_SCRIPT_URL])%list
      (with_initialized true st).
Proof.
  intros Hinit.
  unfold AuthService.init, AuthService.injectGSIScript, bind, gets, modify.
  rewrite Hinit. simpl. destruct (script_loads st); reflexivity.
Qed.

Lemma init_sets_initialized (st : State) :
  initialized (snd (AuthService.init st)) = true.
Proof.
  destruct (initialized st) eqn:Hinit.
  - rewrite (init_when_initialized st Hinit). exact Hinit.
  - rewrite (init_first_call st Hinit). reflexivity.
Qed.

(** C9.  Once [init] has run, a further call returns at once and changes
    nothing, so the state after two calls is the state after one; starting
    from an uninitialised service that state has the flag set and exactly
    one more script in the document head, the Google Sign-In client. *)
Theorem C9_init_idempotent (st : State) :
  AuthService.init (snd (AuthService.init st)) = (Returned tt, snd (AuthService.init st)) /\
  initialized (snd (AuthService.init st)) = true /\
  (initialized st = false ->
   head_scripts (snd (AuthService.init (snd (AuthService.init st)))) =
     (head_scripts st ++ [AuthService.GSI_SCRIPT_URL])%list).
Proof.
  pose proof (init_sets_initialized st) as Hset.
  pose proof (init_when_initialized _ Hset) as Hagain.
  split; [exact Hagain |]. split; [exact Hset |].
  intros Hinit. rewrite Hagain. simpl. rewrite (init_first_call st Hinit). reflexivity.
Qed.

Lemma C9_witness :
  initialized (Examples.fresh 0) = false /\
  head_scripts (snd (AuthService.init (snd (AuthService.init (Examples.fresh 0))))) =
    [AuthService.GSI_SCRIPT_URL].
Proof.
  split; [reflexivity |].
  apply (proj2 (proj2 (C9_init_idempotent (Examples.fresh 0)))). reflexivity.
Defined.

(** ** Scraping song titles *)

(** Induction over page markup, with the hypothesis available for every
    child of an element. *)
Fixpoint Node_ind_children (P : Node -> Prop)
    (Htext : forall data, P (TextNode data))
    (Helement : forall tagName attributes childNodes,
        Forall P childNodes -> P (Element tagName attributes childNodes))
    (n : Node) : P n :=
  match n with
  | TextNode data => Htext data
  | Element tagName attributes childNodes =>
      Helement tagName attributes childNodes
        ((fix children (l : list Node) : Forall P l :=
            match l with
            | [] => @List.Forall_nil Node P
            | c :: l' =>
                @List.Forall_cons Node P c l' (Node_ind_children P Htext Helement c)
                  (children l')
            end) childNodes)
  end.

(** The paragraphs that the walk pairs with their nearest [div] are the
    [p] elements below the node, in document order: the walk lists what
    [querySelectorAll("p")] returns. *)
Lemma paragraphsWithClosestDiv_paragraphs (n : Node) :
  forall above,
    map fst (Dom.paragraphsWithClosestDiv above n) =
    List.filter (Dom.hasTag "p") (Dom.descendants n).
Proof.
  induction n as [data | tagName attributes childNodes IH] using Node_ind_children;
    intros above; [reflexivity |].
  cbn [Dom.paragraphsWithClosestDiv Dom.descendants].
  generalize (if Dom.hasTag "div" (Element tagName attributes childNodes)
              then Some (Element tagName attributes childNodes) else above).
  intros nearest.
  induction IH as [| c rest Hc Hrest IHrest]; [reflexivity |].
  cbn [flat_map]. rewrite map_app, List.filter_app, IHrest. f_equal.
  rewrite map_app, (Hc nearest).
  destruct c as [data | t a cs]; [reflexivity |].
  cbn [List.filter]. destruct (Dom.hasTag "p" (Element t a cs)); reflexivity.
Qed.

(** The [div] paired with a paragraph is a [div] element, unless the walk
    met none and kept the one it was given. *)
Lemma paragraphsWithClosestDiv_div (n : Node) :
  forall above paragraph div,
    In (paragraph, Some div) (Dom.paragraphsWithClosestDiv above n) ->
    Dom.hasTag "div" div = true \/ above = Some div.
Proof.
  induction n as [data | tagName attributes childNodes IH] using Node_ind_children;
    intros above paragraph div Hin; [destruct Hin |].
  cbn [Dom.paragraphsWithClosestDiv] in Hin.
  remember (if Dom.hasTag "div" (Element tagName attributes childNodes)
            then Some (Element tagName attributes childNodes) else above) as nearest
    eqn:Hnearest.
  assert (Hn : nearest = Some div -> Dom.hasTag "div" div = true \/ above = Some div).
  { intros Heq. rewrite Hnearest in Heq.
    destruct (Dom.hasTag "div" (Element tagName attributes childNodes)) eqn:Hdiv.
    - injection Heq as <-. left. exact Hdiv.
    - right. exact Heq. }
  apply in_flat_map in Hin. destruct Hin as (c & Hc & Hin).
  apply in_app_or in Hin. destruct Hin as [Hin | Hin].
  - destruct (Dom.hasTag "p" c); [| destruct Hin].
    destruct Hin as [Heq | []]. injection Heq as _ Heq. apply Hn. exact Heq.
  - rewrite List.Forall_forall in IH.
    destruct (IH c Hc nearest paragraph div Hin) as [Hdiv | Habove].
    + left. exact Hdiv.
    + apply Hn. exact Habove.
Qed.

(** A paragraph is paired with no [div] only when the walk started with
    none above a node that is not a [div] itself: below the order-of-service
    table, which is a [div], [closest("div")] always finds one. *)
Lemma paragraphsWithClosestDiv_none (n : Node) :
  forall above paragraph,
    In (paragraph, None) (Dom.paragraphsWithClosestDiv above n) ->
    above = None /\ Dom.hasTag "div" n = false.
Proof.
  induction n as [data | tagName attributes childNodes IH] using Node_ind_children;
    intros above paragraph Hin; [destruct Hin |].
  cbn [Dom.paragraphsWithClosestDiv] in Hin.
  destruct (Dom.hasTag "div" (Element tagName attributes childNodes)) eqn:Hdiv.
  - exfalso. apply in_flat_map in Hin. destruct Hin as (c & Hc & Hin).
    apply in_app_or in Hin. destruct Hin as [Hin | Hin].
    + destruct (Dom.hasTag "p" c); [| destruct Hin].
      destruct Hin as [Heq | []]. discriminate.
    + rewrite List.Forall_forall in IH.
      destruct (IH c Hc _ paragraph Hin) as [Habove _]. discriminate.
  - split; [| reflexivity].
    apply in_flat_map in Hin. destruct Hin as (c & Hc & Hin).
    apply in_app_or in Hin. destruct Hin as [Hin | Hin].
    + destruct (Dom.hasTag "p" c); [| destruct Hin].
      destruct Hin as [Heq | []]. injection Heq as _ Heq. exact Heq.
    + rewrite List.Forall_forall in IH.
      destruct (IH c Hc _ paragraph Hin) as [Habove _]. exact Habove.
Qed.

Lemma isOrderOfServiceTable_div (n : Node) :
  DomService.isOrderOfServiceTable n = true -> Dom.hasTag "div" n = true.
Proof.
  unfold DomService.isOrderOfServiceTable. intros Hn.
  apply andb_true_iff in Hn. destruct Hn as [Hdiv _]. exact Hdiv.
Qed.

Example getSongTitles_span_inside_paragraph :
  DomService.getSongTitles
    (Element "div" [("data-rbd-droppable-id", "orderOfServiceTable")]
       [Element "p" [] [TextNode "Doxology"; Element "span" [] []];
        Element "section" [] [Element "p" [] [TextNode "Benediction"]]])
  = (Some ["Doxology"; "Benediction"], []).
Proof. reflexivity. Qed.

(** With the table on the page, the result is the list of pushed titles,
    in document order, and nothing is logged. *)
Lemma getSongTitles_with_table (documentElement table : Node) :
  Dom.document_querySelector DomService.isOrderOfServiceTable documentElement = Some table ->
  DomService.getSongTitles documentElement =
    (Some (DomService.pushTitles (Dom.paragraphsWithClosestDiv None table)), []).
Proof. intros Hq. unfold DomService.getSongTitles. rewrite Hq. reflexivity. Qed.

(** A paragraph whose nearest [div] holds no [span] contributes no title. *)
Lemma getSongTitleFromParagraph_without_span (paragraph div : Node) :
  Dom.querySelector (Dom.hasTag "span") div = None ->
  DomService.getSongTitleFromParagraph paragraph (Some div) = None.
Proof.
  intros Hspan. unfold DomService.getSongTitleFromParagraph. rewrite Hspan. reflexivity.
Qed.

Lemma pushTitles_app (ps qs : list (Node * option Node)) :
  DomService.pushTitles (ps ++ qs) =
    (DomService.pushTitles ps ++ DomService.pushTitles qs)%list.
Proof. unfold DomService.pushTitles. apply omap_app. Qed.

Lemma pushTitles_skips_paragraph_without_span
    (ps qs : list (Node * option Node)) (paragraph div : Node) :
  Dom.querySelector (Dom.hasTag "span") div = None ->
  DomService.pushTitles (ps ++ (paragraph, Some div) :: qs) =
    DomService.pushTitles (ps ++ qs).
Proof.
  intros Hspan. rewrite !pushTitles_app. f_equal.
  unfold DomService.pushTitles. simpl.
  rewrite (getSongTitleFromParagraph_without_span paragraph div Hspan). reflexivity.
Qed.

(** Every pushed title is the non-empty text of a paragraph whose nearest
    [div] holds a [span]. *)
Lemma pushTitles_elem (ps : list (Node * option Node)) (title : string) :
  In title (DomService.pushTitles ps) <->
  exists paragraph div span,
    In (paragraph, Some div) ps /\
    Dom.querySelector (Dom.hasTag "span") div = Some span /\
    title = Dom.textContent paragraph /\ title <> "".
Proof.
  induction ps as [| [p d] ps IH].
  - simpl. split; [tauto | intros (? & ? & ? & [] & _)].
  - unfold DomService.pushTitles in *. simpl.
    unfold DomService.getSongTitleFromParagraph at 1.
    destruct d as [d |].
    + destruct (Dom.querySelector (Dom.hasTag "span") d) as [s |] eqn:Hspan.
      * destruct (String.eqb_spec (Dom.textContent p) "") as [Hempty | Hne]; simpl.
        -- rewrite IH. split.
           ++ intros (p' & d' & s' & Hin & Hrest). exists p', d', s'. tauto.
           ++ intros (p' & d' & s' & [Heq | Hin] & Hs & Ht & Hn).
              ** injection Heq as <- <-. congruence.
              ** exists p', d', s'. tauto.
        -- split.
           ++ intros [<- | Hin].
              ** exists p, d, s. repeat split; auto.
              ** apply IH in Hin. destruct Hin as (p' & d' & s' & Hin & Hrest).
                 exists p', d', s'. tauto.
           ++ intros (p' & d' & s' & [Heq | Hin] & Hs & Ht & Hn).
              ** injection Heq as <- <-. left. symmetry. exact Ht.
              ** right. apply IH. exists p', d', s'. tauto.
      * rewrite IH. split.
        -- intros (p' & d' & s' & Hin & Hrest). exists p', d', s'. tauto.
        -- intros (p' & d' & s' & [Heq | Hin] & Hs & Ht & Hn).
           ++ injection Heq as <- <-. congruence.
           ++ exists p', d', s'. tauto.
    + rewrite IH. split.
      * intros (p' & d' & s' & Hin & Hrest). exists p', d', s'. tauto.
      * intros (p' & d' & s' & [Heq | Hin] & Hrest); [discriminate |].
        exists p', d', s'. tauto.
Qed.

Example getSongTitles_planPage :
  DomService.getSongTitles Examples.planPage = (Some ["Amazing Grace"], []).
Proof. reflexivity. Qed.

(** C2 on a page without the order-of-service table: [getSongTitles]
    leaves through the bare [return;], so its value is [undefined] and not
    the empty list [songTitles] it has just created; the click handler
    then throws on [songs.length]. *)
Theorem C2_getSongTitles_without_table_returns_undefined (documentElement : Node) :
  Dom.document_querySelector DomService.isOrderOfServiceTable documentElement = None ->
  fst (DomService.getSongTitles documentElement) = None /\
  fst (DomService.getSongTitles documentElement) <> Some [] /\
  exists e, fst (DomService.onStreamButtonClick documentElement) = Threw e.
Proof.
  intros Habsent. unfold DomService.onStreamButtonClick, DomService.getSongTitles.
  rewrite Habsent. simpl. split; [reflexivity |]. split; [discriminate |].
  eexists. reflexivity.
Qed.

Lemma C2_witness :
  Dom.document_querySelector DomService.isOrderOfServiceTable Examples.pageWithoutTable
    = None /\
  fst (DomService.getSongTitles Examples.pageWithoutTable) = None.
Proof.
  split; [reflexivity |].
  apply (C2_getSongTitles_without_table_returns_undefined Examples.pageWithoutTable).
  reflexivity.
Defined.

(** ** Headers *)

Lemma Headers_put_put (name value value' : string) (h : Headers.t) :
  Headers.put name value (Headers.put name value' h) = Headers.put name value h.
Proof. unfold Headers.put, Headers.t in *. apply insert_insert_eq. Qed.

Lemma Headers_get_put (name value : string) (h : Headers.t) :
  Headers.get name (Headers.put name value h) = Some value.
Proof. unfold Headers.get, Headers.put, Headers.t in *. apply lookup_insert_eq. Qed.

(** Setting the Authorization header stores the normalized value when the
    value is legal, and throws a [TypeError] otherwise. *)
Lemma Headers_set_legal (value : string) (h : Headers.t) :
  Headers.legalValue value = true ->
  Headers.set YouTubeApiService.AUTHORIZATION_HEADER_KEY value h =
  inr (Headers.put YouTubeApiService.AUTHORIZATION_HEADER_KEY (Headers.normalize value) h).
Proof.
  unfold Headers.legalValue, Headers.set. intros Hlegal.
  apply andb_true_iff in Hlegal as [Hbytes Hchars].
  rewrite Hbytes, Hchars. reflexivity.
Qed.

Lemma Headers_set_illegal (value : string) (h : Headers.t) :
  Headers.legalValue value = false ->
  exists message,
    Headers.set YouTubeApiService.AUTHORIZATION_HEADER_KEY value h =
    inl (TypeError message).
Proof.
  unfold Headers.legalValue, Headers.set. intros Hillegal.
  destruct (Headers.isByteString value); simpl in Hillegal.
  - rewrite Hillegal. eexists. reflexivity.
  - eexists. reflexivity.
Qed.

(** ** Requests: what a computation adds to the trace *)

Create HintDb traces.

Lemma extends_ret {A} (a : A) : extends (ret a).
Proof. intros st. exists []. simpl. rewrite app_nil_r. reflexivity. Qed.

Lemma extends_throw {A} (e : Thrown) : extends (@throw A e).
Proof. intros st. exists []. simpl. rewrite app_nil_r. reflexivity. Qed.

Lemma extends_pending {A} : extends (@pending A).
Proof. intros st. exists []. simpl. rewrite app_nil_r. reflexivity. Qed.

Lemma extends_gets {A} (f : State -> A) : extends (gets f).
Proof. intros st. exists []. simpl. rewrite app_nil_r. reflexivity. Qed.

Lemma extends_emit (ev : Event) : extends (emit ev).
Proof. intros st. exists [ev]. reflexivity. Qed.

Lemma extends_modify (f : State -> State) :
  (forall st, trace (f st) = trace st) -> extends (modify f).
Proof. intros Hf st. exists []. simpl. rewrite Hf, app_nil_r. reflexivity. Qed.

Lemma extends_bind {A B} (m : M A) (k : A -> M B) :
  extends m -> (forall a, extends (k a)) -> extends (bind m k).
Proof.
  intros Hm Hk st. unfold bind. destruct (Hm st) as [l Hl].
  destruct (m st) as [[a | e |] st']; simpl in *.
  - destruct (Hk a st') as [l' Hl']. exists (l ++ l')%list.
    rewrite Hl', Hl, app_assoc. reflexivity.
  - exists l. exact Hl.
  - exists l. exact Hl.
Qed.

Lemma extends_try_catch {A} (m : M A) (h : Thrown -> M A) :
  extends m -> (forall e, extends (h e)) -> extends (try_catch m h).
Proof.
  intros Hm Hh st. unfold try_catch. destruct (Hm st) as [l Hl].
  destruct (m st) as [[a | e |] st']; simpl in *.
  - exists l. exact Hl.
  - destruct (Hh e st') as [l' Hl']. exists (l ++ l')%list.
    rewrite Hl', Hl, app_assoc. reflexivity.
  - exists l. exact Hl.
Qed.

Lemma extends_if {A} (b : bool) (m1 m2 : M A) :
  extends m1 -> extends m2 -> extends (if b then m1 else m2).
Proof. destruct b; auto. Qed.

#[local] Hint Resolve extends_ret extends_throw extends_pending extends_gets
  extends_emit extends_bind extends_try_catch extends_if : traces.

Lemma extends_save (key : string) (value : JSValue) :
  extends (SettingsStorage.save key value).
Proof. apply extends_modify. reflexivity. Qed.

Lemma extends_delete (key : string) : extends (SettingsStorage.delete key).
Proof. apply extends_modify. reflexivity. Qed.

#[local] Hint Resolve extends_save extends_delete : traces.

Section Requests.
Context `{Host}.

Lemma extends_validate (data : option TokenData) :
  extends (AuthTokenValidator.validate data).
Proof.
  destruct data as [d |]; simpl; [| auto with traces].
  unfold AuthTokenValidator.validateAccessToken, AuthTokenValidator.validateExpiresIn,
    AuthTokenValidator.validateTokenType.
  auto 10 with traces.
Qed.

Lemma extends_deserialize (data : option TokenData) :
  extends (AuthToken.deserialize data).
Proof.
  unfold AuthToken.deserialize. apply extends_bind.
  - apply extends_try_catch; [apply extends_validate | auto with traces].
  - intros _. destruct data; auto with traces.
Qed.

Lemma extends_fetchAuthToken (client : AuthClient.t) :
  extends (AuthClient.fetchAuthToken client).
Proof.
  unfold AuthClient.fetchAuthToken. apply extends_bind; [auto with traces |].
  intros _ st. destruct (popups st) as [| [data | e |] rest].
  - exists []. simpl. rewrite app_nil_r. reflexivity.
  - unfold AuthClient.processTokenResponse.
    assert (Hp : extends (try_catch (AuthToken.deserialize data)
                   (fun e => throw (ThrownString
                      ("Could not deserialize response: " +:+ JS.ThrownToString e))))).
    { apply extends_try_catch; [apply extends_deserialize | auto with traces]. }
    destruct (Hp (with_popups rest st)) as [l Hl]. exists l. exact Hl.
  - exists []. simpl. rewrite app_nil_r. reflexivity.
  - exists []. simpl. rewrite app_nil_r. reflexivity.
Qed.

Lemma extends_saveAuthToken (token : AuthToken.t) :
  extends (TokenService.saveAuthToken token).
Proof.
  unfold TokenService.saveAuthToken, AuthToken.calculateExpirationTimestamp.
  auto 10 with traces.
Qed.

Lemma extends_prompt (message : string) : extends (ClientIdService.prompt message).
Proof.
  unfold ClientIdService.prompt. apply extends_bind; [auto with traces |].
  intros _ st. exists []. destruct (prompts st); simpl; rewrite app_nil_r; reflexivity.
Qed.

Lemma extends_fetchClientId : extends ClientIdService.fetchClientId.
Proof.
  unfold ClientIdService.fetchClientId, ClientIdService.showClientIdPrompt.
  apply extends_bind; [auto with traces |]. intros clientId.
  apply extends_if; [| auto with traces].
  apply extends_bind; [apply extends_prompt |].
  intros [[| c s] |]; auto 10 with traces.
Qed.

Lemma extends_authenticate : extends AuthService.authenticate.
Proof.
  unfold AuthService.authenticate, AuthService.createTokenClient.
  apply extends_bind.
  - apply extends_bind; [apply extends_fetchClientId | auto with traces].
  - intros client. apply extends_try_catch; [| auto with traces].
    apply extends_bind; [apply extends_fetchAuthToken |].
    intros token. apply extends_saveAuthToken.
Qed.

Lemma extends_login : extends AuthService.login.
Proof.
  unfold AuthService.login.
  apply extends_bind; [auto with traces |]. intros _.
  apply extends_bind; [auto with traces |]. intros authenticated.
  apply extends_if; [auto with traces | apply extends_authenticate].
Qed.

Lemma extends_delay (ms : Z) : extends (YouTubeApiService.delay ms).
Proof.
  unfold YouTubeApiService.delay. apply extends_bind; [auto with traces |].
  intros _. apply extends_modify. reflexivity.
Qed.

Lemma extends_handleResponse (retry : string -> RequestInit -> M JSONValue)
    (res : Response) (endpoint : string) (options : RequestInit) :
  (forall ep o, extends (retry ep o)) ->
  extends (YouTubeApiService.handleResponse retry res endpoint options).
Proof.
  intros Hretry. unfold YouTubeApiService.handleResponse, YouTubeApiService.res_json.
  apply extends_if; [destruct (json res); auto with traces |].
  apply extends_if; [| auto with traces].
  apply extends_bind; [apply extends_login |]. intros _.
  apply extends_bind; [apply extends_delay |]. intros _. apply Hretry.
Qed.
End Requests.

(** ** Requests: the wrapper, the retry path and the first request *)

Section ExecuteRequest.
Context `{Host}.

(** [executeRequest] sets the Authorization header, hands the request to
    [fetch] and runs the rest of its [try] block from there. *)
Lemma setAuthorization_legal (options : RequestInit) (st : State) :
  legalBearer st = true ->
  YouTubeApiService.setAuthorization (YouTubeApiService.getBearerToken st) options =
  inr (requestSent st options).
Proof.
  intros Hlegal. unfold YouTubeApiService.setAuthorization.
  rewrite (Headers_set_legal _ _ Hlegal). reflexivity.
Qed.

Lemma executeRequestBody_sends (retry : string -> RequestInit -> M JSONValue)
    (answer : option FetchOutcome) (endpoint : string) (options : RequestInit)
    (st : State) :
  legalBearer st = true ->
  YouTubeApiService.executeRequestBody retry answer endpoint options st =
  try_catch
    (res <~ YouTubeApiService.settle answer ;;
     YouTubeApiService.handleResponse retry res endpoint (requestSent st options))
    logAndResolve
    (afterFetch st endpoint options).
Proof.
  intros Hlegal. unfold YouTubeApiService.executeRequestBody, bind at 1, gets.
  rewrite (setAuthorization_legal options st Hlegal). reflexivity.
Qed.

(** With a value [Headers.set] refuses, the call throws before its [try]
    statement: nothing is sent and nothing is logged. *)
Lemma executeRequestBody_illegal (retry : string -> RequestInit -> M JSONValue)
    (answer : option FetchOutcome) (endpoint : string) (options : RequestInit)
    (st : State) :
  legalBearer st = false ->
  exists message,
    YouTubeApiService.executeRequestBody retry answer endpoint options st =
    (Threw (TypeError message), st).
Proof.
  intros Hillegal.
  destruct (Headers_set_illegal _ (default Headers.empty (headers options)) Hillegal)
    as [message Hset].
  exists message.
  unfold YouTubeApiService.executeRequestBody, bind at 1, gets,
    YouTubeApiService.setAuthorization.
  rewrite Hset. reflexivity.
Qed.

Lemma executeRequest_illegal (net : list FetchOutcome) (endpoint : string)
    (options : RequestInit) (st : State) :
  legalBearer st = false ->
  exists message,
    YouTubeApiService.executeRequest net endpoint options st =
    (Threw (TypeError message), st).
Proof.
  intros Hillegal. destruct net as [| answer net']; simpl;
    apply executeRequestBody_illegal; exact Hillegal.
Qed.

Lemma try_catch_logAndResolve_not_threw (m : M JSONValue) (st : State) (e : Thrown) :
  fst (try_catch m logAndResolve st) <> Threw e.
Proof.
  unfold try_catch. destruct (m st) as [[v | err |] st']; simpl; discriminate.
Qed.

Lemma executeRequest_unfold (net : list FetchOutcome) (endpoint : string)
    (options : RequestInit) (st : State) :
  legalBearer st = true ->
  YouTubeApiService.executeRequest net endpoint options st =
  try_catch
    (res <~ YouTubeApiService.settle (List.head net) ;;
     YouTubeApiService.handleResponse
       (YouTubeApiService.executeRequest (List.tail net)) res endpoint
       (requestSent st options))
    logAndResolve
    (afterFetch st endpoint options).
Proof.
  intros Hlegal.
  destruct net as [| answer net']; simpl; rewrite executeRequestBody_sends by exact Hlegal;
    reflexivity.
Qed.

(** Once the header is set, the promise of [executeRequest] is never
    rejected. *)
Lemma executeRequest_not_threw (net : list FetchOutcome) (endpoint : string)
    (options : RequestInit) (st : State) (e : Thrown) :
  legalBearer st = true ->
  fst (YouTubeApiService.executeRequest net endpoint options st) <> Threw e.
Proof.
  intros Hlegal. rewrite executeRequest_unfold by exact Hlegal.
  apply try_catch_logAndResolve_not_threw.
Qed.

Lemma try_catch_not_threw {A} (m : M A) (h : Thrown -> M A) (st : State) :
  (forall e, fst (m st) <> Threw e) -> try_catch m h st = m st.
Proof.
  intros Hm. unfold try_catch. destruct (m st) as [[a | e |] st'] eqn:Hr; try reflexivity.
  exfalso. apply (Hm e). reflexivity.
Qed.

Lemma extends_settle (answer : option FetchOutcome) :
  extends (YouTubeApiService.settle answer).
Proof. destruct answer as [[e | res] |]; simpl; auto with traces. Qed.

Lemma extends_logAndResolve (err : Thrown) : extends (logAndResolve err).
Proof. unfold logAndResolve. auto with traces. Qed.

Lemma extends_completion {A} (r : Thrown + A) : extends (completion r).
Proof. destruct r; simpl; auto with traces. Qed.

Lemma extends_executeRequest (net : list FetchOutcome) :
  forall endpoint options, extends (YouTubeApiService.executeRequest net endpoint options).
Proof.
  induction net as [| answer net' IH]; intros endpoint options; simpl;
    unfold YouTubeApiService.executeRequestBody, YouTubeApiService.fetchAndHandle,
      YouTubeApiService.fetch.
  - apply extends_bind; [auto with traces |]. intros bearer.
    apply extends_bind; [apply extends_completion |]. intros sent.
    apply extends_try_catch; [| auto with traces].
    apply extends_bind; [auto using extends_settle with traces |].
    intros res. apply extends_handleResponse. auto with traces.
  - apply extends_bind; [auto with traces |]. intros bearer.
    apply extends_bind; [apply extends_completion |]. intros sent.
    apply extends_try_catch; [| auto with traces].
    apply extends_bind; [auto using extends_settle with traces |].
    intros res. apply extends_handleResponse. exact IH.
Qed.

(** The first thing [executeRequest] does that can be observed is to send
    the request, with the Authorization header built from the token that
    is stored at that moment. *)
Lemma executeRequest_first_fetch (net : list FetchOutcome) (endpoint : string)
    (options : RequestInit) (st : State) :
  legalBearer st = true ->
  exists rest,
    trace (snd (YouTubeApiService.executeRequest net endpoint options st)) =
    (trace st ++
     EvFetch (YouTubeApiService.buildUrl endpoint) (requestSent st options) :: rest)%list.
Proof.
  intros Hlegal. rewrite executeRequest_unfold by exact Hlegal.
  assert (Hrest : extends
            (try_catch
               (res <~ YouTubeApiService.settle (List.head net) ;;
                YouTubeApiService.handleResponse
                  (YouTubeApiService.executeRequest (List.tail net)) res endpoint
                  (requestSent st options))
               logAndResolve)).
  { apply extends_try_catch; [| apply extends_logAndResolve].
    apply extends_bind; [apply extends_settle |].
    intros res. apply extends_handleResponse. intros ep o. apply extends_executeRequest. }
  destruct (Hrest (afterFetch st endpoint options)) as [l Hl].
  exists l. rewrite Hl. unfold afterFetch. simpl. rewrite <- app_assoc. reflexivity.
Qed.

Lemma unauthorized_not_ok (res : Response) :
  YouTubeApiService.isUnauthorized (status res) = true -> ok res = false.
Proof.
  unfold YouTubeApiService.isUnauthorized, YouTubeApiService.HTTP_UNAUTHORIZED_CODE,
    YouTubeApiService.HTTP_FORBIDDEN_CODE, ok.
  intros Hu. apply orb_true_iff in Hu. rewrite !Z.eqb_eq in Hu.
  apply andb_false_iff. rewrite Z.leb_gt. right. lia.
Qed.

(** One 401/403 response: login, then the delay, then the same endpoint
    and options go through [executeRequest] again, inside the [try]
    statement of the first call; a failed login is logged and ends the
    call; a login that never completes leaves it pending. *)
Lemma executeRequest_unauthorized_step (res : Response) (net : list FetchOutcome)
    (endpoint : string) (options : RequestInit) (st : State) :
  legalBearer st = true ->
  YouTubeApiService.isUnauthorized (status res) = true ->
  YouTubeApiService.executeRequest (FetchResolves res :: net) endpoint options st =
  match AuthService.login (afterFetch st endpoint options) with
  | (Returned _, st') =>
      try_catch
        (YouTubeApiService.executeRequest net endpoint (requestSent st options))
        logAndResolve
        (snd (YouTubeApiService.delay YouTubeApiService.RETRY_DELAY_MS st'))
  | (Threw err, st') => (Returned JUndefined, snd (emit (EvConsoleError err) st'))
  | (Pending, st') => (Pending, st')
  end.
Proof.
  intros Hlegal Hu. rewrite executeRequest_unfold by exact Hlegal.
  simpl List.head. simpl List.tail.
  unfold YouTubeApiService.settle, try_catch, bind at 1, ret at 1,
    YouTubeApiService.handleResponse.
  rewrite (unauthorized_not_ok res Hu), Hu.
  unfold bind at 1.
  destruct (AuthService.login (afterFetch st endpoint options)) as [[[] | err |] st'].
  - unfold bind at 1. simpl. reflexivity.
  - reflexivity.
  - reflexivity.
Qed.
End ExecuteRequest.

(** ** Requests: repeated 401/403 responses *)

Section RetryRuns.
Context `{Host}.

Lemma authenticated_while_valid (st : State) (token : JSValue) (e : Z) :
  storage st !! TokenService.ACCESS_TOKEN_KEY = Some token ->
  JS.truthy token = true ->
  storage st !! TokenService.EXPIRATION_TIMESTAMP_KEY = Some (JSNumber (Num e)) ->
  e <> 0 -> clock st <= e ->
  JS.truthy (TokenService.isUserAuthenticated st) = true.
Proof.
  intros Htok Htruthy Hexp Hne Hle.
  rewrite isUserAuthenticated_truthy, (hasTokenExpired_number st e Hexp).
  unfold TokenService.getAccessToken. rewrite (load_lookup _ _ _ Htok), Htruthy.
  apply Z.eqb_neq in Hne. apply Z.ltb_ge in Hle. rewrite Hne, Hle. reflexivity.
Qed.

(** A signed-in user passes through [login] without any interaction. *)
Lemma login_when_authenticated (st : State) :
  JS.truthy (TokenService.isUserAuthenticated st) = true ->
  AuthService.login st = (Returned tt, with_trace (trace st ++ [EvLogin])%list st).
Proof.
  intros Hauth. unfold AuthService.login, bind, emit, modify, gets. simpl.
  change (TokenService.isUserAuthenticated (with_trace (trace st ++ [EvLogin])%list st))
    with (TokenService.isUserAuthenticated st).
  rewrite Hauth. reflexivity.
Qed.

Lemma getBearerToken_storage (st st' : State) :
  storage st' = storage st ->
  YouTubeApiService.getBearerToken st' = YouTubeApiService.getBearerToken st.
Proof.
  intros Hs.
  unfold YouTubeApiService.getBearerToken, AuthService.getAccessToken,
    TokenService.getAccessToken, SettingsStorage.load. rewrite Hs. reflexivity.
Qed.

Lemma legalBearer_storage (st st' : State) :
  storage st' = storage st -> legalBearer st' = legalBearer st.
Proof.
  intros Hs. unfold legalBearer. rewrite (getBearerToken_storage st st' Hs). reflexivity.
Qed.

Lemma requestSent_idempotent (st st' : State) (options : RequestInit) :
  storage st' = storage st ->
  requestSent st' (requestSent st options) = requestSent st options.
Proof.
  intros Hs. unfold requestSent, set_headers.
  cbn [headers method body default]. unfold id.
  rewrite (getBearerToken_storage st st' Hs), Headers_put_put. reflexivity.
Qed.

(** Handing [executeRequest] the options it would send anyway changes
    nothing. *)
Lemma executeRequest_requestSent (net : list FetchOutcome) (endpoint : string)
    (options : RequestInit) (st : State) :
  legalBearer st = true ->
  YouTubeApiService.executeRequest net endpoint (requestSent st options) st =
  YouTubeApiService.executeRequest net endpoint options st.
Proof.
  intros Hlegal. rewrite !executeRequest_unfold by exact Hlegal. unfold afterFetch.
  rewrite (requestSent_idempotent st st options eq_refl). reflexivity.
Qed.

(** While the stored token stays valid, every 401/403 response costs one
    round (request, login, timer) and the call goes on with the same
    endpoint and options: [n] such responses in a row give [n] retries. *)
Lemma executeRequest_unauthorized_run (rs : list Response) :
  forall (net : list FetchOutcome) (endpoint : string) (options : RequestInit)
         (st : State) (token : JSValue) (e : Z),
    legalBearer st = true ->
    Forall (fun r => YouTubeApiService.isUnauthorized (status r) = true) rs ->
    storage st !! TokenService.ACCESS_TOKEN_KEY = Some token ->
    JS.truthy token = true ->
    storage st !! TokenService.EXPIRATION_TIMESTAMP_KEY = Some (JSNumber (Num e)) ->
    e <> 0 ->
    clock st + YouTubeApiService.RETRY_DELAY_MS * Z.of_nat (List.length rs) <= e ->
    YouTubeApiService.executeRequest (map FetchResolves rs ++ net) endpoint options st =
    YouTubeApiService.executeRequest net endpoint (requestSent st options)
      (afterRounds (List.length rs) st endpoint options).
Proof.
  unfold YouTubeApiService.RETRY_DELAY_MS.
  induction rs as [| r rs IH]; intros net endpoint options st token e Hlegal Hall Htok
    Htruthy Hexp Hne Hle.
  - simpl. rewrite <- (executeRequest_requestSent net endpoint options st Hlegal).
    f_equal. unfold afterRounds, YouTubeApiService.RETRY_DELAY_MS.
    destruct st; simpl. unfold with_clock, with_trace; simpl.
    f_equal; [lia | rewrite app_nil_r; reflexivity].
  - inversion Hall as [| r' rs' Hr Hrs]; subst.
    simpl map. simpl app.
    rewrite (executeRequest_unauthorized_step r _ endpoint options st Hlegal Hr).
    assert (Hauth : JS.truthy
              (TokenService.isUserAuthenticated (afterFetch st endpoint options)) = true).
    { apply (authenticated_while_valid _ token e); auto.
      simpl List.length in Hle. simpl. lia. }
    rewrite (login_when_authenticated _ Hauth).
    set (st1 := snd (YouTubeApiService.delay YouTubeApiService.RETRY_DELAY_MS
                       (with_trace (trace (afterFetch st endpoint options) ++ [EvLogin])%list
                          (afterFetch st endpoint options)))).
    assert (Hstorage : storage st1 = storage st) by reflexivity.
    assert (Hclock : clock st1 = clock st + 1000) by reflexivity.
    assert (Htrace : trace st1 =
              (trace st ++ retryRound (YouTubeApiService.buildUrl endpoint)
                             (requestSent st options))%list).
    { unfold st1, afterFetch, retryRound, YouTubeApiService.RETRY_DELAY_MS. simpl.
      rewrite <- !app_assoc. reflexivity. }
    assert (Hlegal1 : legalBearer st1 = true).
    { rewrite (legalBearer_storage st st1 Hstorage). exact Hlegal. }
    rewrite try_catch_not_threw
      by (intros err; apply executeRequest_not_threw; exact Hlegal1).
    rewrite (IH net endpoint (requestSent st options) st1 token e Hlegal1 Hrs).
    + rewrite (requestSent_idempotent st st1 options Hstorage).
      f_equal. unfold afterRounds, YouTubeApiService.RETRY_DELAY_MS.
      rewrite (requestSent_idempotent st st1 options Hstorage).
      unfold with_clock, with_trace. simpl rounds.
      rewrite Hclock, Htrace. subst st1.
      cbn [storage initialized head_scripts script_loads prompts popups].
      f_equal; [simpl List.length; lia | rewrite <- app_assoc; reflexivity].
    + rewrite Hstorage. exact Htok.
    + exact Htruthy.
    + rewrite Hstorage. exact Hexp.
    + exact Hne.
    + rewrite Hclock. simpl List.length in Hle. lia.
Qed.
End RetryRuns.

(** ** Requests: the claims *)

Section RequestClaims.
Context `{Host}.

Lemma emit_afterFetch (ev : Event) (st : State) (endpoint : string)
    (options : RequestInit) :
  snd (emit ev (afterFetch st endpoint options)) =
  with_trace
    (trace st ++
     [EvFetch (YouTubeApiService.buildUrl endpoint) (requestSent st options); ev])%list st.
Proof.
  unfold emit, modify, afterFetch, with_trace.
  cbn [snd trace storage clock initialized head_scripts script_loads prompts popups].
  rewrite <- app_assoc. reflexivity.
Qed.

(** C1, as the code has it, for a request whose Authorization value is
    legal (so that it is sent at all).  A 401/403 response makes
    [executeRequest] call login, wait [RETRY_DELAY_MS] and then call
    itself, inside its own [try] statement, with the same endpoint and the
    same options; when login throws, the error is logged and the call
    resolves with [undefined] without a retry.  The retry is an ordinary
    [executeRequest], so a further 401/403 response is retried again: with
    a stored token that stays valid, [n] such responses in a row lead to
    [n] rounds of request, login and timer, all for the same URL and
    options, before the next response is looked at. *)
Theorem C1_each_unauthorized_response_is_retried
    (net : list FetchOutcome) (endpoint : string) (options : RequestInit) (st : State) :
  legalBearer st = true ->
  (forall res,
     YouTubeApiService.isUnauthorized (status res) = true ->
     YouTubeApiService.executeRequest (FetchResolves res :: net) endpoint options st =
     match AuthService.login (afterFetch st endpoint options) with
     | (Returned _, st') =>
         try_catch
           (YouTubeApiService.executeRequest net endpoint (requestSent st options))
           logAndResolve
           (snd (YouTubeApiService.delay YouTubeApiService.RETRY_DELAY_MS st'))
     | (Threw err, st') => (Returned JUndefined, snd (emit (EvConsoleError err) st'))
     | (Pending, st') => (Pending, st')
     end) /\
  (forall rs token e,
     Forall (fun r => YouTubeApiService.isUnauthorized (status r) = true) rs ->
     storage st !! TokenService.ACCESS_TOKEN_KEY = Some token ->
     JS.truthy token = true ->
     storage st !! TokenService.EXPIRATION_TIMESTAMP_KEY = Some (JSNumber (Num e)) ->
     e <> 0 ->
     clock st + YouTubeApiService.RETRY_DELAY_MS * Z.of_nat (List.length rs) <= e ->
     YouTubeApiService.executeRequest (map FetchResolves rs ++ net) endpoint options st =
     YouTubeApiService.executeRequest net endpoint (requestSent st options)
       (afterRounds (List.length rs) st endpoint options)).
Proof.
  intros Hlegal. split.
  - intros res Hu. apply executeRequest_unauthorized_step; assumption.
  - intros rs token e. apply executeRequest_unauthorized_run. exact Hlegal.
Qed.

(** C7, as the code has it.  [executeRequest] sets the Authorization
    header before it enters its [try] statement.  It therefore rejects
    exactly when [Headers.set] refuses the value built from the stored
    token, and then with a [TypeError], nothing sent and nothing logged.
    Once the header is set the call never rejects: whatever is thrown
    inside the [try] block (by [fetch], by [res.json()], by login or by
    the retry on the retry path, or as the generic failure for a response
    that is neither ok nor 401/403) is passed to [console.error], and the
    call resolves with [undefined]. *)
Theorem C7_executeRequest_rejects_only_on_illegal_header
    (net : list FetchOutcome) (endpoint : string) (options : RequestInit) (st : State) :
  ((exists e, fst (YouTubeApiService.executeRequest net endpoint options st) = Threw e) <->
   legalBearer st = false) /\
  (legalBearer st = false ->
   exists message,
     YouTubeApiService.executeRequest net endpoint options st =
     (Threw (TypeError message), st)) /\
  (legalBearer st = true ->
   (forall answer net' err st',
      net = answer :: net' ->
      YouTubeApiService.fetchAndHandle (YouTubeApiService.executeRequest net')
        (Some answer) (YouTubeApiService.buildUrl endpoint) endpoint
        (requestSent st options) st = (Threw err, st') ->
      YouTubeApiService.executeRequest net endpoint options st =
        (Returned JUndefined, with_trace (trace st' ++ [EvConsoleError err])%list st')) /\
   (forall res net',
      net = FetchResolves res :: net' ->
      ok res = false ->
      YouTubeApiService.isUnauthorized (status res) = false ->
      YouTubeApiService.executeRequest net endpoint options st =
        (Returned JUndefined,
         with_trace
           (trace st ++
            [EvFetch (YouTubeApiService.buildUrl endpoint) (requestSent st options);
             EvConsoleError (Error "Failed to fetch YouTube data.")])%list st)) /\
   (forall e net',
      net = FetchRejects e :: net' ->
      YouTubeApiService.executeRequest net endpoint options st =
        (Returned JUndefined,
         with_trace
           (trace st ++
            [EvFetch (YouTubeApiService.buildUrl endpoint) (requestSent st options);
             EvConsoleError e])%list st))).
Proof.
  split; [| split].
  - split.
    + intros [e He]. destruct (legalBearer st) eqn:Hlegal; [| reflexivity].
      exfalso. exact (executeRequest_not_threw net endpoint options st e Hlegal He).
    + intros Hillegal.
      destruct (executeRequest_illegal net endpoint options st Hillegal) as [message Hrun].
      exists (TypeError message). rewrite Hrun. reflexivity.
  - apply executeRequest_illegal.
  - intros Hlegal. split; [| split].
    + intros answer net' err st' -> Hthrown. simpl.
      unfold YouTubeApiService.executeRequestBody, bind at 1, gets.
      rewrite (setAuthorization_legal options st Hlegal).
      unfold bind, completion, ret, try_catch.
      rewrite Hthrown. reflexivity.
    + intros res net' -> Hok Hun. rewrite executeRequest_unfold by exact Hlegal.
      unfold try_catch, bind, YouTubeApiService.handleResponse. simpl.
      rewrite Hok, Hun. simpl. rewrite <- emit_afterFetch. reflexivity.
    + intros e net' ->. rewrite executeRequest_unfold by exact Hlegal.
      rewrite <- emit_afterFetch. reflexivity.
Qed.

(** The Authorization value of a profile without a stored token. *)
Lemma legalBearer_absent (st : State) :
  storage st !! TokenService.ACCESS_TOKEN_KEY = None ->
  YouTubeApiService.getBearerToken st = "Bearer undefined" /\ legalBearer st = true.
Proof.
  intros Habsent.
  assert (Hbearer : YouTubeApiService.getBearerToken st = "Bearer undefined").
  { unfold YouTubeApiService.getBearerToken, AuthService.getAccessToken,
      TokenService.getAccessToken.
    rewrite (load_absent _ _ Habsent). reflexivity. }
  split; [exact Hbearer |]. unfold legalBearer. rewrite Hbearer. reflexivity.
Qed.

(** C10.  With no access token in storage, [executeRequest] still sends
    the request, and sends it first: the Authorization header of that
    request is "Bearer undefined", the method and body are the caller's. *)
Theorem C10_request_without_token_carries_bearer_undefined
    (net : list FetchOutcome) (endpoint : string) (options : RequestInit) (st : State) :
  storage st !! TokenService.ACCESS_TOKEN_KEY = None ->
  exists request rest,
    trace (snd (YouTubeApiService.executeRequest net endpoint options st)) =
      (trace st ++ EvFetch (YouTubeApiService.buildUrl endpoint) request :: rest)%list /\
    (exists h,
       headers request = Some h /\
       Headers.get "Authorization" h = Some "Bearer undefined") /\
    method request = method options /\
    body request = body options.
Proof.
  intros Habsent. destruct (legalBearer_absent st Habsent) as [Hbearer Hlegal].
  destruct (executeRequest_first_fetch net endpoint options st Hlegal) as [rest Hrest].
  exists (requestSent st options), rest. split; [exact Hrest |].
  split; [| split; reflexivity].
  eexists. split; [reflexivity |].
  unfold YouTubeApiService.AUTHORIZATION_HEADER_KEY. rewrite Headers_get_put, Hbearer.
  reflexivity.
Qed.

Example toISOString_epoch :
  Date.toISOString (Num 0) = inr "1970-01-01T00:00:00.000Z".
Proof. vm_compute. reflexivity. Qed.

Example toISOString_leap_day :
  Date.toISOString (Num 1709251199999) = inr "2024-02-29T23:59:59.999Z".
Proof. vm_compute. reflexivity. Qed.

Example toISOString_before_epoch :
  Date.toISOString (Num (-1)) = inr "1969-12-31T23:59:59.999Z".
Proof. vm_compute. reflexivity. Qed.

Example stringify_escapes :
  JSON.stringify (JObject [("a", JString (String "034"%char "b")); ("n", JNumber NaN);
                           ("u", JUndefined); ("l", JArray [JUndefined; JBool true])])
  = Some ("{" +:+ Examples.quoted "a" +:+ ":" +:+
          Examples.quoted (String "092"%char (String "034"%char "b")) +:+ "," +:+
          Examples.quoted "n" +:+ ":null," +:+
          Examples.quoted "l" +:+ ":[null,true]}").
Proof. vm_compute. reflexivity. Qed.

Lemma toISOString_newYear2025 :
  Date.toISOString (Num Examples.newYear2025) = inr "2025-01-01T00:00:00.000Z".
Proof. vm_compute. reflexivity. Qed.

Lemma stringify_worshipNight :
  JSON.stringify
    (YouTubeStreamService.streamData
       (YouTubeStream.new "Worship Night" (Num Examples.newYear2025))
       "2025-01-01T00:00:00.000Z")
  = Some Examples.worshipNightBody.
Proof. vm_compute. reflexivity. Qed.

Lemma Headers_set_contentType (h : Headers.t) :
  Headers.set "Content-Type" "application/json" h =
  inr (Headers.put "Content-Type" "application/json" h).
Proof. reflexivity. Qed.

Lemma getRequestHeaders_legal (st : State) :
  legalBearer st = true ->
  YouTubeApiService.getRequestHeaders st =
  inr (Headers.put YouTubeApiService.AUTHORIZATION_HEADER_KEY
         (Headers.normalize (YouTubeApiService.getBearerToken st)) Headers.empty).
Proof.
  intros Hlegal. unfold YouTubeApiService.getRequestHeaders.
  cbv zeta. rewrite (Headers_set_legal _ _ Hlegal). reflexivity.
Qed.

(** [uploadStream] once its headers are built. *)
Lemma uploadStream_legal (net : list FetchOutcome) (stream : YouTubeStream.t)
    (st : State) :
  legalBearer st = true ->
  YouTubeStreamService.uploadStream net stream st =
  match Date.toISOString (YouTubeStream.getStartTime stream) with
  | inl e => (Threw e, st)
  | inr scheduledStartTime =>
      (YouTubeApiService.executeRequest net YouTubeStreamService.CREATE_STREAM_ENDPOINT
         {| method := Some "POST";
            headers := Some (uploadHeaders st);
            body := JSON.stringify
                      (YouTubeStreamService.streamData stream scheduledStartTime) |} ;;;
       ret tt) st
  end.
Proof.
  intros Hlegal. unfold YouTubeStreamService.uploadStream, bind at 1, gets.
  rewrite (getRequestHeaders_legal st Hlegal).
  unfold bind at 1, completion at 1, ret at 1.
  rewrite Headers_set_contentType.
  unfold bind at 1, completion at 1, ret at 1.
  destruct (Date.toISOString (YouTubeStream.getStartTime stream)); reflexivity.
Qed.

(** With a value [Headers.set] refuses, [uploadStream] throws while it
    builds its headers. *)
Lemma uploadStream_illegal (net : list FetchOutcome) (stream : YouTubeStream.t)
    (st : State) :
  legalBearer st = false ->
  exists message,
    YouTubeStreamService.uploadStream net stream st = (Threw (TypeError message), st).
Proof.
  intros Hillegal.
  destruct (Headers_set_illegal _ Headers.empty Hillegal) as [message Hset].
  exists message.
  unfold YouTubeStreamService.uploadStream, bind at 1, gets,
    YouTubeApiService.getRequestHeaders.
  cbv zeta. rewrite Hset. reflexivity.
Qed.

(** C6.  For the stream "Worship Night" starting at 2025-01-01T00:00:00Z,
    with no description and the default visibility, [uploadStream] (called
    with a stored token that gives a legal Authorization value, so that a
    request is made) sends a POST whose body is the JSON text below: the
    unset description is left out, the privacy status is "private" and the
    scheduled start time is "2025-01-01T00:00:00.000Z". *)
Theorem C6_uploadStream_body_of_worship_night (net : list FetchOutcome) (st : State) :
  legalBearer st = true ->
  exists request rest,
    trace (snd (YouTubeStreamService.uploadStream net
                  (YouTubeStream.new "Worship Night" (Num Examples.newYear2025)) st)) =
      (trace st ++
       EvFetch (YouTubeApiService.buildUrl YouTubeStreamService.CREATE_STREAM_ENDPOINT)
         request :: rest)%list /\
    method request = Some "POST" /\
    body request = Some Examples.worshipNightBody /\
    contains Examples.worshipNightBody
      (Examples.quoted "privacyStatus" +:+ ":" +:+ Examples.quoted "private") = true /\
    contains Examples.worshipNightBody
      (Examples.quoted "scheduledStartTime" +:+ ":" +:+
       Examples.quoted "2025-01-01T00:00:00.000Z") = true.
Proof.
  intros Hlegal. rewrite (uploadStream_legal net _ st Hlegal).
  unfold YouTubeStream.getStartTime.
  cbn [YouTubeStream.startTime YouTubeStream.new].
  rewrite toISOString_newYear2025, stringify_worshipNight.
  match goal with
  | |- context [YouTubeApiService.executeRequest net ?ep ?o] =>
      destruct (executeRequest_first_fetch net ep o st Hlegal) as [rest Hrest];
      exists (requestSent st o), rest
  end.
  split.
  - unfold bind.
    destruct (YouTubeApiService.executeRequest _ _ _ st) as [[v | e |] st'];
      exact Hrest.
  - split; [reflexivity |]. split; [reflexivity |].
    split; vm_compute; reflexivity.
Qed.
End RequestClaims.

(** ** Requests on concrete inputs *)

(** C1 as the specification words it fails against a server that answers
    401 twice before it accepts the request: the signed-in user's request
    is sent three times, that is, retried twice. *)
Lemma C1_counterexample :
  let run :=
    YouTubeApiService.executeRequest (H := Hosts.utc)
      [Examples.respond 401; Examples.respond 401; Examples.respond 200]
      YouTubeStreamService.DUMMY_ENDPOINT emptyOptions
      (Examples.signedIn Examples.newYear2025 (Examples.newYear2025 + 3599000)) in
  fst run = Returned (JObject []) /\
  retryCount (trace (snd run)) = 2%nat /\
  ~ (retryCount (trace (snd run)) <= 1)%nat.
Proof.
  assert (Hcount :
    retryCount
      (trace (snd (YouTubeApiService.executeRequest (H := Hosts.utc)
         [Examples.respond 401; Examples.respond 401; Examples.respond 200]
         YouTubeStreamService.DUMMY_ENDPOINT emptyOptions
         (Examples.signedIn Examples.newYear2025 (Examples.newYear2025 + 3599000)))))
    = 2%nat) by (vm_compute; reflexivity).
  cbv zeta. split; [vm_compute; reflexivity |]. split; [exact Hcount |].
  rewrite Hcount. lia.
Qed.

Lemma C1_witness :
  let st := Examples.signedIn Examples.newYear2025 (Examples.newYear2025 + 3599000) in
  let unauthorized := {| status := 401; json := None |} in
  let forbidden := {| status := 403; json := None |} in
  YouTubeApiService.isUnauthorized (status unauthorized) = true /\
  YouTubeApiService.executeRequest (H := Hosts.utc)
    (map FetchResolves [unauthorized; forbidden] ++ [Examples.respond 200])
    YouTubeStreamService.DUMMY_ENDPOINT emptyOptions st =
  YouTubeApiService.executeRequest (H := Hosts.utc) [Examples.respond 200]
    YouTubeStreamService.DUMMY_ENDPOINT (requestSent st emptyOptions)
    (afterRounds 2 st YouTubeStreamService.DUMMY_ENDPOINT emptyOptions).
Proof.
  intros st unauthorized forbidden. split; [reflexivity |].
  apply (proj2 (C1_each_unauthorized_response_is_retried (H := Hosts.utc)
                  [Examples.respond 200] YouTubeStreamService.DUMMY_ENDPOINT
                  emptyOptions st eq_refl)
           [unauthorized; forbidden] (JSString "ya29.a0AfB_byC")
           (Examples.newYear2025 + 3599000)).
  - repeat constructor.
  - vm_compute. reflexivity.
  - reflexivity.
  - vm_compute. reflexivity.
  - vm_compute. discriminate.
  - vm_compute. discriminate.
Defined.

(** C7 as the specification words it fails for a stored access token
    with a line feed in it: [Headers.set] refuses the Authorization value,
    and the call rejects with the [TypeError] instead of resolving; no
    request is sent and nothing is logged. *)
Lemma C7_counterexample :
  let st :=
    Examples.signedInWith Examples.brokenToken Examples.newYear2025
      (Examples.newYear2025 + 3599000) in
  JS.truthy (TokenService.isUserAuthenticated (H := Hosts.utc) st) = true /\
  YouTubeApiService.executeRequest (H := Hosts.utc) [Examples.respond 200]
    YouTubeStreamService.DUMMY_ENDPOINT emptyOptions st =
  (Threw (TypeError "Failed to execute 'set' on 'Headers': Invalid value"), st) /\
  fst (YouTubeApiService.executeRequest (H := Hosts.utc) [Examples.respond 200]
         YouTubeStreamService.DUMMY_ENDPOINT emptyOptions st) <> Returned JUndefined.
Proof.
  cbv zeta. split; [vm_compute; reflexivity |].
  split; [vm_compute; reflexivity |]. vm_compute. discriminate.
Qed.

Lemma C7_witness :
  let st := Examples.fresh Examples.newYear2025 in
  legalBearer st = true /\
  YouTubeApiService.executeRequest (H := Hosts.utc) [Examples.respond 500]
    YouTubeStreamService.DUMMY_ENDPOINT emptyOptions st =
  (Returned JUndefined,
   with_trace
     (trace st ++
      [EvFetch (YouTubeApiService.buildUrl YouTubeStreamService.DUMMY_ENDPOINT)
         (requestSent st emptyOptions);
       EvConsoleError (Error "Failed to fetch YouTube data.")])%list st).
Proof.
  intros st. split; [reflexivity |].
  apply (proj1 (proj2 (proj2 (proj2 (C7_executeRequest_rejects_only_on_illegal_header
                                       (H := Hosts.utc) [Examples.respond 500]
                                       YouTubeStreamService.DUMMY_ENDPOINT emptyOptions st))
                         eq_refl))
           {| status := 500; json := Some (JObject []) |} []).
  - reflexivity.
  - reflexivity.
  - reflexivity.
Defined.

Lemma C6_witness :
  let st := Examples.signedIn Examples.newYear2025 (Examples.newYear2025 + 3599000) in
  legalBearer st = true /\
  exists request rest,
    trace (snd (YouTubeStreamService.uploadStream (H := Hosts.utc) [Examples.respond 200]
                  (YouTubeStream.new "Worship Night" (Num Examples.newYear2025)) st)) =
      (trace st ++
       EvFetch (YouTubeApiService.buildUrl YouTubeStreamService.CREATE_STREAM_ENDPOINT)
         request :: rest)%list /\
    method request = Some "POST" /\
    body request = Some Examples.worshipNightBody /\
    contains Examples.worshipNightBody
      (Examples.quoted "privacyStatus" +:+ ":" +:+ Examples.quoted "private") = true /\
    contains Examples.worshipNightBody
      (Examples.quoted "scheduledStartTime" +:+ ":" +:+
       Examples.quoted "2025-01-01T00:00:00.000Z") = true.
Proof.
  intros st. split; [reflexivity |].
  apply (C6_uploadStream_body_of_worship_night (H := Hosts.utc) [Examples.respond 200] st).
  reflexivity.
Defined.

Lemma C10_witness :
  storage (Examples.fresh Examples.newYear2025) !! TokenService.ACCESS_TOKEN_KEY = None /\
  exists request rest,
    trace (snd (YouTubeApiService.executeRequest (H := Hosts.utc) [Examples.respond 200]
                  YouTubeStreamService.DUMMY_ENDPOINT emptyOptions
                  (Examples.fresh Examples.newYear2025))) =
      (trace (Examples.fresh Examples.newYear2025) ++
       EvFetch (YouTubeApiService.buildUrl YouTubeStreamService.DUMMY_ENDPOINT) request
         :: rest)%list /\
    (exists h,
       headers request = Some h /\
       Headers.get "Authorization" h = Some "Bearer undefined") /\
    method request = method emptyOptions /\
    body request = body emptyOptions.
Proof.
  split; [reflexivity |].
  apply (C10_request_without_token_carries_bearer_undefined (H := Hosts.utc)
           [Examples.respond 200] YouTubeStreamService.DUMMY_ENDPOINT emptyOptions
           (Examples.fresh Examples.newYear2025)).
  reflexivity.
Defined.

(** * Further properties *)

(** ** Saving a token *)

Section SavingTokens.
Context `{Host}.

(** What [saveAuthToken] leaves in storage. *)
Lemma saveAuthToken_storage (token : AuthToken.t) (st : State) :
  TokenService.saveAuthToken token st =
    (Returned tt,
     with_storage
       (<[TokenService.EXPIRATION_TIMESTAMP_KEY :=
            JSNumber (Date.setSeconds (Num (clock st))
                        (JS.add_number (Date.getSeconds (Num (clock st)))
                           (AuthToken.expiresIn token)))]>
          (<[TokenService.ACCESS_TOKEN_KEY := AuthToken.accessToken token]> (storage st)))
       st).
Proof. reflexivity. Qed.

(** X1.  [saveAuthToken] followed by a read gives back what was saved:
    [getAccessToken()] is the token's access token and the stored expiry
    is the value [calculateExpirationTimestamp()] returned; every other
    entry of the storage (the client id among them), the clock and the
    trace are left alone. *)
Theorem X1_saveAuthToken_then_read (token : AuthToken.t) (st : State) :
  exists expiry,
    AuthToken.calculateExpirationTimestamp token st = (Returned expiry, st) /\
    fst (TokenService.saveAuthToken token st) = Returned tt /\
    TokenService.getAccessToken (snd (TokenService.saveAuthToken token st)) =
      AuthToken.getAccessToken token /\
    SettingsStorage.load TokenService.EXPIRATION_TIMESTAMP_KEY
      (snd (TokenService.saveAuthToken token st)) = expiry /\
    (forall key,
       key <> TokenService.ACCESS_TOKEN_KEY ->
       key <> TokenService.EXPIRATION_TIMESTAMP_KEY ->
       storage (snd (TokenService.saveAuthToken token st)) !! key = storage st !! key) /\
    clock (snd (TokenService.saveAuthToken token st)) = clock st /\
    trace (snd (TokenService.saveAuthToken token st)) = trace st.
Proof.
  eexists. split; [reflexivity |]. rewrite saveAuthToken_storage. cbn [fst snd].
  split; [reflexivity |]. split; [| split; [| split; [| split; reflexivity]]].
  - unfold TokenService.getAccessToken, SettingsStorage.load. cbn [storage with_storage].
    rewrite lookup_insert_ne by discriminate. rewrite lookup_insert_eq. reflexivity.
  - unfold SettingsStorage.load. cbn [storage with_storage].
    rewrite lookup_insert_eq. reflexivity.
  - intros key Ha He. cbn [storage with_storage].
    rewrite lookup_insert_ne by congruence. rewrite lookup_insert_ne by congruence.
    reflexivity.
Qed.

(** The timestamp computed on a host with a fixed offset from UTC. *)
Lemma expiration_fixed_offset (offset now e : Z) :
  (forall t isUTC, LocalTZA t isUTC = offset) ->
  Date.setSeconds (Num now)
    (JS.add_number (Date.getSeconds (Num now)) (JSNumber (Num e))) =
  Date.TimeClip (now + 1000 * e).
Proof.
  intros Hzone. unfold Date.getSeconds, JS.add_number, Date.setSeconds. simpl.
  rewrite MakeDate_shift_seconds. unfold Date.UTC, Date.LocalTime. rewrite !Hzone.
  f_equal. lia.
Qed.

(** X2.  On a host whose offset from UTC does not change, a token with a
    non-empty access token and a lifetime of [e] seconds that is saved at
    time [now] keeps the user authenticated at every later reading [t] of
    the clock with [t <= now + 1000 * e], and at no reading after that
    (the expiry being positive and within the range of time values). *)
Theorem X2_saved_token_authenticates_until_expiry
    (offset : Z) (token : AuthToken.t) (a : string) (e t : Z) (st : State) :
  (forall t' isUTC, LocalTZA t' isUTC = offset) ->
  AuthToken.accessToken token = JSString a -> a <> "" ->
  AuthToken.expiresIn token = JSNumber (Num e) ->
  0 < clock st + 1000 * e <= Date.maxTimeValue ->
  (TokenService.isUserAuthenticated
     (with_clock t (snd (TokenService.saveAuthToken token st))) = JSBoolean true
   <-> t <= clock st + 1000 * e).
Proof.
  intros Hzone Ha Hne He Hrange.
  rewrite saveAuthToken_storage. cbn [snd]. rewrite Ha, He.
  rewrite (expiration_fixed_offset offset _ _ Hzone).
  unfold Date.TimeClip.
  replace (Z.abs (clock st + 1000 * e) <=? Date.maxTimeValue) with true
    by (symmetry; apply Z.leb_le; lia).
  set (st' := with_clock t _).
  assert (Hexp : storage st' !! TokenService.EXPIRATION_TIMESTAMP_KEY =
                 Some (JSNumber (Num (clock st + 1000 * e)))).
  { unfold st'. cbn [storage with_clock with_storage]. apply lookup_insert_eq. }
  assert (Htok : TokenService.getAccessToken st' = JSString a).
  { unfold st', TokenService.getAccessToken, SettingsStorage.load.
    cbn [storage with_clock with_storage].
    rewrite lookup_insert_ne by discriminate. rewrite lookup_insert_eq. reflexivity. }
  rewrite isUserAuthenticated_true_iff, (hasTokenExpired_number st' _ Hexp), Htok.
  rewrite orb_false_iff, Z.eqb_neq, Z.ltb_ge.
  apply truthy_string in Hne.
  change (clock st') with t. split.
  - intros (_ & _ & Hle). exact Hle.
  - intros Hle. split; [exact Hne |]. split; [lia | exact Hle].
Qed.

(** X3.  A lifetime so long that the expiry leaves the range of time
    values (8.64e15 ms either side of the epoch) makes [setSeconds] give
    NaN (shown on a host with a fixed offset from UTC): the token is saved,
    but the user does not count as authenticated at any reading of the
    clock, not even at once. *)
Theorem X3_saved_token_with_expiry_out_of_range
    (offset : Z) (token : AuthToken.t) (e t : Z) (st : State) :
  (forall t' isUTC, LocalTZA t' isUTC = offset) ->
  AuthToken.expiresIn token = JSNumber (Num e) ->
  Date.maxTimeValue < Z.abs (clock st + 1000 * e) ->
  SettingsStorage.load TokenService.EXPIRATION_TIMESTAMP_KEY
    (snd (TokenService.saveAuthToken token st)) = JSNumber NaN /\
  TokenService.getAccessToken (snd (TokenService.saveAuthToken token st)) =
    AuthToken.accessToken token /\
  JS.truthy (TokenService.isUserAuthenticated
               (with_clock t (snd (TokenService.saveAuthToken token st)))) = false.
Proof.
  intros Hzone He Hrange.
  rewrite saveAuthToken_storage. cbn [snd]. rewrite He.
  rewrite (expiration_fixed_offset offset _ _ Hzone).
  unfold Date.TimeClip.
  replace (Z.abs (clock st + 1000 * e) <=? Date.maxTimeValue) with false
    by (symmetry; apply Z.leb_gt; lia).
  split; [| split].
  - unfold SettingsStorage.load. cbn [storage with_storage].
    rewrite lookup_insert_eq. reflexivity.
  - unfold TokenService.getAccessToken, SettingsStorage.load. cbn [storage with_storage].
    rewrite lookup_insert_ne by discriminate. rewrite lookup_insert_eq. reflexivity.
  - rewrite isUserAuthenticated_truthy.
    unfold TokenService.hasTokenExpired, SettingsStorage.load.
    cbn [storage with_clock with_storage]. rewrite lookup_insert_eq.
    apply andb_false_r.
Qed.

(** A valid access token is a non-empty string. *)
Lemma isValidAccessToken_truthy (token : JSValue) :
  JS.truthy (AuthTokenValidator.isValidAccessToken token) = true <->
  exists a, token = JSString a /\ a <> "".
Proof.
  unfold AuthTokenValidator.isValidAccessToken, JS.and. split.
  - destruct (JS.truthy token) eqn:Ht; [| congruence].
    destruct token as [| | b | n | a]; simpl; unfold JS.gt; simpl; try discriminate.
    intros _. exists a. split; [reflexivity |]. apply truthy_string. exact Ht.
  - intros (a & -> & Hne). apply truthy_string in Hne. rewrite Hne.
    destruct a as [| c a']; [discriminate |]. reflexivity.
Qed.

Lemma isValidTokenType_truthy (tokenType : JSValue) :
  JS.truthy (AuthTokenValidator.isValidTokenType tokenType) = true <->
  tokenType = JSString "Bearer".
Proof.
  unfold AuthTokenValidator.isValidTokenType, JS.and. split.
  - destruct (JS.truthy tokenType) eqn:Ht; [| congruence].
    destruct tokenType as [| | b | n | s]; simpl; try discriminate.
    intros Heq. apply String.eqb_eq in Heq. rewrite Heq. reflexivity.
  - intros ->. reflexivity.
Qed.

Lemma isValidExpiresIn_truthy (expiresIn : JSValue) :
  JS.truthy (AuthTokenValidator.isValidExpiresIn expiresIn) = true <->
  JS.truthy expiresIn = true /\ JS.gt expiresIn (JSNumber (Num 0)) = true.
Proof.
  unfold AuthTokenValidator.isValidExpiresIn, JS.and.
  destruct (JS.truthy expiresIn) eqn:Ht; simpl.
  - tauto.
  - rewrite Ht. split; [discriminate | intros [? _]; discriminate].
Qed.

(** X4.  A token response whose [expires_in] is a numeric string passes
    validation (the check is [expires_in > 0] after conversion), and the
    token keeps the string.  [now.getSeconds() + this.expiresIn] is then a
    concatenation: the seconds field is set to the number that the digits
    of the current seconds followed by the string convert to, not to the
    sum. *)
Theorem X4_string_lifetime_is_concatenated
    (d : TokenData) (a s : string) (z : Z) (st : State) :
  access_token d = JSString a -> a <> "" ->
  token_type d = JSString "Bearer" ->
  expires_in d = JSString s -> s <> "" ->
  StringToNumber s = Num z -> 0 < z ->
  AuthToken.deserialize (Some d) st =
    (Returned (AuthToken.new (JSString a) (JSString s) (JSString "Bearer")), st) /\
  AuthToken.calculateExpirationTimestamp
    (AuthToken.new (JSString a) (JSString s) (JSString "Bearer")) st =
    (Returned
       (JSNumber
          (Date.setSeconds (Num (clock st))
             (JSNumber
                (StringToNumber
                   (pretty (Date.SecFromTime (Date.LocalTime (clock st))) +:+ s))))),
     st).
Proof.
  intros Ha Hne Ht He Hs Hz Hpos. split; [| reflexivity].
  rewrite <- Ha, <- Ht, <- He. apply deserialize_accepts.
  apply validate_returns_iff. split; [| split].
  - apply isValidAccessToken_truthy. exists a. split; assumption.
  - apply isValidExpiresIn_truthy. rewrite He. split.
    + apply truthy_string. exact Hs.
    + unfold JS.gt. simpl. rewrite Hz. apply Z.ltb_lt. exact Hpos.
  - apply isValidTokenType_truthy. exact Ht.
Qed.

(** X5.  Whatever [deserialize] returns has passed the three checks: the
    access token is truthy and its [length] is above zero (so it is not
    the empty string), the token type is the string "Bearer", and the
    lifetime is truthy with [expiresIn > 0]; the three fields are those of
    the response, and the state is untouched.  No token is returned for a
    missing response object. *)
Theorem X5_deserialize_returns_only_valid_tokens
    (data : option TokenData) (token : AuthToken.t) (st st' : State) :
  AuthToken.deserialize data st = (Returned token, st') ->
  st' = st /\
  (exists d, data = Some d /\
             token = AuthToken.new (access_token d) (expires_in d) (token_type d)) /\
  JS.truthy (AuthToken.accessToken token) = true /\
  JS.gt (JS.length (AuthToken.accessToken token)) (JSNumber (Num 0)) = true /\
  AuthToken.accessToken token <> JSString "" /\
  AuthToken.tokenType token = JSString "Bearer" /\
  JS.truthy (AuthToken.expiresIn token) = true /\
  JS.gt (AuthToken.expiresIn token) (JSNumber (Num 0)) = true.
Proof.
  intros Hd. destruct data as [d |]; [| discriminate].
  destruct (validate_throws_or_returns d st) as [Hv | [e Hv]].
  - rewrite (deserialize_accepts d st Hv) in Hd. injection Hd as <- <-.
    apply validate_returns_iff in Hv. destruct Hv as (Hacc & Hexp & Htype).
    split; [reflexivity |]. split; [exists d; split; reflexivity |].
    cbn [AuthToken.accessToken AuthToken.tokenType AuthToken.expiresIn].
    unfold AuthTokenValidator.isValidAccessToken, JS.and in Hacc.
    destruct (JS.truthy (access_token d)) eqn:Htruthy; [| congruence].
    cbn [JS.truthy] in Hacc.
    split; [reflexivity |]. split; [exact Hacc |].
    split; [intros Hempty; rewrite Hempty in Htruthy; discriminate |].
    split; [apply isValidTokenType_truthy; exact Htype |].
    apply isValidExpiresIn_truthy in Hexp. exact Hexp.
  - rewrite (deserialize_rejects (Some d) st e Hv) in Hd. discriminate.
Qed.
End SavingTokens.

(** The same on a UTC host at 2025-01-01T00:00:12Z with the lifetime
    "3599": the seconds field becomes 123599. *)
Lemma X4_witness :
  AuthToken.calculateExpirationTimestamp (H := Hosts.utc)
    (AuthToken.new (JSString "ya29.a0AfB_byC") (JSString "3599") (JSString "Bearer"))
    (Examples.fresh (Examples.newYear2025 + 12000)) =
  (Returned (JSNumber (Num (Examples.newYear2025 + 123599000))),
   Examples.fresh (Examples.newYear2025 + 12000)).
Proof.
  rewrite (proj2 (X4_string_lifetime_is_concatenated (H := Hosts.utc)
             {| access_token := JSString "ya29.a0AfB_byC";
                expires_in := JSString "3599";
                token_type := JSString "Bearer" |}
             "ya29.a0AfB_byC" "3599" 3599 (Examples.fresh (Examples.newYear2025 + 12000))
             eq_refl ltac:(discriminate) eq_refl eq_refl ltac:(discriminate)
             eq_refl ltac:(lia))).
  vm_compute. reflexivity.
Defined.

Lemma X5_witness :
  AuthToken.tokenType Examples.hourToken = JSString "Bearer".
Proof.
  apply (X5_deserialize_returns_only_valid_tokens (H := Hosts.utc)
           (Some Examples.tokenResponse) Examples.hourToken
           (Examples.fresh 0) (Examples.fresh 0)).
  reflexivity.
Defined.

Lemma X2_witness :
  TokenService.isUserAuthenticated (H := Hosts.utc)
    (with_clock (Examples.newYear2025 + 3599000)
       (snd (TokenService.saveAuthToken (H := Hosts.utc) Examples.hourToken
               (Examples.fresh Examples.newYear2025)))) = JSBoolean true
  <-> Examples.newYear2025 + 3599000 <= clock (Examples.fresh Examples.newYear2025) + 1000 * 3599.
Proof.
  apply (X2_saved_token_authenticates_until_expiry (H := Hosts.utc) 0 Examples.hourToken
           "ya29.a0AfB_byC" 3599 (Examples.newYear2025 + 3599000)
           (Examples.fresh Examples.newYear2025)).
  - reflexivity.
  - reflexivity.
  - discriminate.
  - reflexivity.
  - vm_compute. split; [reflexivity | discriminate].
Defined.

Lemma X3_witness :
  JS.truthy (TokenService.isUserAuthenticated (H := Hosts.utc)
               (with_clock Examples.newYear2025
                  (snd (TokenService.saveAuthToken (H := Hosts.utc)
                          (AuthToken.new (JSString "ya29.a0AfB_byC")
                             (JSNumber (Num 10000000000000)) (JSString "Bearer"))
                          (Examples.fresh Examples.newYear2025))))) = false.
Proof.
  apply (X3_saved_token_with_expiry_out_of_range (H := Hosts.utc) 0
           (AuthToken.new (JSString "ya29.a0AfB_byC") (JSNumber (Num 10000000000000))
              (JSString "Bearer"))
           10000000000000 Examples.newYear2025 (Examples.fresh Examples.newYear2025)).
  - reflexivity.
  - reflexivity.
  - vm_compute. reflexivity.
Defined.

(** ** The client id *)

Lemma fetchClientId_stored (st : State) :
  JS.truthy (SettingsStorage.load ClientIdService.CLIENT_ID_KEY st) = true ->
  ClientIdService.fetchClientId st =
    (Returned (SettingsStorage.load ClientIdService.CLIENT_ID_KEY st), st).
Proof.
  intros Hcid. unfold ClientIdService.fetchClientId, bind, gets, JS.not.
  rewrite Hcid. reflexivity.
Qed.

(** X6.  With no usable client id in storage, [fetchClientId] asks the
    user once: a non-empty answer is returned and saved, and from then on
    [fetchClientId] returns it without prompting and without changing
    anything. *)
Theorem X6_client_id_is_asked_once
    (st : State) (s : string) (rest : list (option string)) :
  JS.truthy (SettingsStorage.load ClientIdService.CLIENT_ID_KEY st) = false ->
  prompts st = Some s :: rest ->
  s <> "" ->
  exists st1,
    ClientIdService.fetchClientId st = (Returned (JSString s), st1) /\
    storage st1 = <[ClientIdService.CLIENT_ID_KEY := JSString s]> (storage st) /\
    prompts st1 = rest /\
    trace st1 =
      (trace st ++ [EvPrompt "Please enter your Google OAuth client ID."])%list /\
    ClientIdService.fetchClientId st1 = (Returned (JSString s), st1).
Proof.
  intros Hcid Hprompts Hne.
  unfold ClientIdService.fetchClientId at 1,
    ClientIdService.showClientIdPrompt, ClientIdService.prompt, bind, gets, JS.not.
  rewrite Hcid. simpl. rewrite Hprompts.
  destruct s as [| c s']; [congruence |].
  eexists. split; [reflexivity |]. split; [reflexivity |]. split; [reflexivity |].
  split; [reflexivity |].
  rewrite fetchClientId_stored.
  - unfold SettingsStorage.load. cbn [storage with_storage].
    rewrite lookup_insert_eq. reflexivity.
  - unfold SettingsStorage.load. cbn [storage with_storage].
    rewrite lookup_insert_eq. reflexivity.
Qed.

Lemma X6_witness :
  exists st1,
    ClientIdService.fetchClientId
      (with_prompts [Some "1234-abc.apps.googleusercontent.com"] (Examples.fresh 0)) =
      (Returned (JSString "1234-abc.apps.googleusercontent.com"), st1) /\
    ClientIdService.fetchClientId st1 =
      (Returned (JSString "1234-abc.apps.googleusercontent.com"), st1).
Proof.
  destruct (X6_client_id_is_asked_once
              (with_prompts [Some "1234-abc.apps.googleusercontent.com"] (Examples.fresh 0))
              "1234-abc.apps.googleusercontent.com" [])
    as (st1 & Hfirst & _ & _ & _ & Hsecond).
  - reflexivity.
  - reflexivity.
  - discriminate.
  - exists st1. split; assumption.
Defined.

(** ** Signing in *)

Section SigningIn.
Context `{Host}.

Lemma validate_state (data : option TokenData) (st : State) :
  snd (AuthTokenValidator.validate data st) = st.
Proof.
  destruct data as [d |]; [| reflexivity].
  destruct (validate_throws_or_returns d st) as [Hv | [e Hv]]; rewrite Hv; reflexivity.
Qed.

Lemma createTokenClient_stored (st : State) (cid : JSValue) :
  storage st !! ClientIdService.CLIENT_ID_KEY = Some cid ->
  JS.truthy cid = true ->
  AuthService.createTokenClient st = (Returned (AuthClient.new cid), st).
Proof.
  intros Hcid Htruthy. unfold AuthService.createTokenClient, bind.
  rewrite fetchClientId_stored; rewrite (load_lookup _ _ _ Hcid); [| exact Htruthy].
  unfold JS.not. rewrite Htruthy. reflexivity.
Qed.

Lemma login_unauthenticated (st : State) :
  JS.truthy (TokenService.isUserAuthenticated st) = false ->
  AuthService.login st =
    AuthService.authenticate (with_trace (trace st ++ [EvLogin])%list st).
Proof.
  intros Hauth. unfold AuthService.login, bind, emit, modify, gets. simpl.
  change (TokenService.isUserAuthenticated (with_trace (trace st ++ [EvLogin])%list st))
    with (TokenService.isUserAuthenticated st).
  rewrite Hauth. reflexivity.
Qed.

(** [login] when the client-id prompt is dismissed. *)
Lemma login_prompt_dismissed
    (st : State) (answer : option string) (rest : list (option string)) :
  JS.truthy (TokenService.isUserAuthenticated st) = false ->
  JS.truthy (SettingsStorage.load ClientIdService.CLIENT_ID_KEY st) = false ->
  prompts st = answer :: rest ->
  answer = None \/ answer = Some "" ->
  exists st1,
    AuthService.login st = (Threw (Error "No client ID provided."), st1) /\
    storage st1 = storage st /\
    popups st1 = popups st /\
    prompts st1 = rest /\
    trace st1 =
      (trace st ++ [EvLogin; EvPrompt "Please enter your Google OAuth client ID."])%list.
Proof.
  intros Hauth Hcid Hprompts Hanswer. rewrite (login_unauthenticated st Hauth).
  unfold AuthService.authenticate, AuthService.createTokenClient,
    ClientIdService.fetchClientId, ClientIdService.showClientIdPrompt,
    ClientIdService.prompt, bind, gets, JS.not.
  change (SettingsStorage.load ClientIdService.CLIENT_ID_KEY
            (with_trace (trace st ++ [EvLogin])%list st))
    with (SettingsStorage.load ClientIdService.CLIENT_ID_KEY st).
  rewrite Hcid. simpl. rewrite Hprompts.
  destruct Hanswer as [-> | ->]; simpl;
    (eexists; split; [reflexivity |]; repeat split; try reflexivity;
     rewrite <- app_assoc; reflexivity).
Qed.

(** X7.  A user who is not signed in and dismisses the client-id prompt
    (Cancel, or an empty answer): [login] rejects with the bare error
    "No client ID provided." ([createTokenClient] runs outside the [try]
    of [authenticate], so the error is not wrapped), no popup is opened
    and the storage is as before. *)
Theorem X7_login_without_client_id
    (st : State) (answer : option string) (rest : list (option string)) :
  JS.truthy (TokenService.isUserAuthenticated st) = false ->
  JS.truthy (SettingsStorage.load ClientIdService.CLIENT_ID_KEY st) = false ->
  prompts st = answer :: rest ->
  answer = None \/ answer = Some "" ->
  exists st1,
    AuthService.login st = (Threw (Error "No client ID provided."), st1) /\
    storage st1 = storage st /\
    popups st1 = popups st /\
    prompts st1 = rest /\
    trace st1 =
      (trace st ++ [EvLogin; EvPrompt "Please enter your Google OAuth client ID."])%list.
Proof. apply login_prompt_dismissed. Qed.

Lemma fetchAuthToken_callback (client : AuthClient.t) (data : option TokenData)
    (rest : list PopupOutcome) (st : State) :
  popups st = TokenCallback data :: rest ->
  AuthClient.fetchAuthToken client st =
    AuthClient.processTokenResponse data
      (with_popups rest
         (with_trace
            (trace st ++
             [EvRequestAccessToken (AuthClient.clientId client) (AuthClient.scope client)])%list
            st)).
Proof.
  intros Hpopups. unfold AuthClient.fetchAuthToken, bind, emit, modify. simpl.
  rewrite Hpopups. reflexivity.
Qed.

(** [login] through a popup that hands back a well-formed response. *)
Lemma login_popup_success
    (st : State) (cid : JSValue) (d : TokenData) (a : string) (z : Z)
    (rest : list PopupOutcome) :
  JS.truthy (TokenService.isUserAuthenticated st) = false ->
  storage st !! ClientIdService.CLIENT_ID_KEY = Some cid ->
  JS.truthy cid = true ->
  popups st = TokenCallback (Some d) :: rest ->
  access_token d = JSString a -> a <> "" ->
  token_type d = JSString "Bearer" ->
  expires_in d = JSNumber (Num z) -> 0 < z ->
  exists st1 expiry,
    AuthService.login st = (Returned tt, st1) /\
    AuthToken.calculateExpirationTimestamp
      (AuthToken.new (JSString a) (JSNumber (Num z)) (JSString "Bearer")) st =
      (Returned expiry, st) /\
    storage st1 =
      <[TokenService.EXPIRATION_TIMESTAMP_KEY := expiry]>
        (<[TokenService.ACCESS_TOKEN_KEY := JSString a]> (storage st)) /\
    storage st1 !! ClientIdService.CLIENT_ID_KEY = Some cid /\
    popups st1 = rest /\
    prompts st1 = prompts st /\
    clock st1 = clock st /\
    trace st1 =
      (trace st ++
       [EvLogin; EvRequestAccessToken cid "https://www.googleapis.com/auth/youtube"])%list.
Proof.
  intros Hauth Hcid Htruthy Hpopups Ha Hne Ht He Hz.
  rewrite (login_unauthenticated st Hauth).
  unfold AuthService.authenticate, bind at 1.
  rewrite (createTokenClient_stored (with_trace (trace st ++ [EvLogin])%list st) cid
             Hcid Htruthy).
  unfold try_catch, bind.
  rewrite (fetchAuthToken_callback _ (Some d) rest) by exact Hpopups.
  unfold AuthClient.processTokenResponse, try_catch.
  rewrite deserialize_accepts
    by (apply (wellformed_validates d _ a z); assumption).
  rewrite saveAuthToken_storage, Ha, He, Ht.
  eexists. eexists. split; [reflexivity |]. split; [reflexivity |].
  cbn [storage clock with_storage with_popups with_trace AuthToken.accessToken
       AuthToken.expiresIn popups prompts trace].
  split; [reflexivity |]. split.
  - rewrite lookup_insert_ne by discriminate. rewrite lookup_insert_ne by discriminate.
    exact Hcid.
  - split; [reflexivity |]. split; [reflexivity |]. split; [reflexivity |].
    rewrite <- app_assoc. reflexivity.
Qed.

(** X8.  A user who is not signed in, with a client id in storage, whose
    popup hands back a well-formed token response: [login] opens the
    popup with that client id and the YouTube scope, without a prompt,
    and stores the access token and the expiry computed for it; the
    client id stays. *)
Theorem X8_login_stores_the_token_of_the_popup
    (st : State) (cid : JSValue) (d : TokenData) (a : string) (z : Z)
    (rest : list PopupOutcome) :
  JS.truthy (TokenService.isUserAuthenticated st) = false ->
  storage st !! ClientIdService.CLIENT_ID_KEY = Some cid ->
  JS.truthy cid = true ->
  popups st = TokenCallback (Some d) :: rest ->
  access_token d = JSString a -> a <> "" ->
  token_type d = JSString "Bearer" ->
  expires_in d = JSNumber (Num z) -> 0 < z ->
  exists st1 expiry,
    AuthService.login st = (Returned tt, st1) /\
    AuthToken.calculateExpirationTimestamp
      (AuthToken.new (JSString a) (JSNumber (Num z)) (JSString "Bearer")) st =
      (Returned expiry, st) /\
    storage st1 =
      <[TokenService.EXPIRATION_TIMESTAMP_KEY := expiry]>
        (<[TokenService.ACCESS_TOKEN_KEY := JSString a]> (storage st)) /\
    storage st1 !! ClientIdService.CLIENT_ID_KEY = Some cid /\
    popups st1 = rest /\
    prompts st1 = prompts st /\
    trace st1 =
      (trace st ++
       [EvLogin; EvRequestAccessToken cid "https://www.googleapis.com/auth/youtube"])%list.
Proof.
  intros Hauth Hcid Htruthy Hpopups Ha Hne Ht He Hz.
  destruct (login_popup_success st cid d a z rest Hauth Hcid Htruthy Hpopups Ha Hne Ht He Hz)
    as (st1 & expiry & Hlogin & Hexp & Hstorage & Hclient & Hpop & Hprompts & _ & Htrace).
  exists st1, expiry. repeat split; assumption.
Qed.

(** X9.  When the popup hands back something that does not validate,
    [login] rejects with the nested message built by [authenticate],
    [processTokenResponse] and [deserialize], and nothing is written to
    storage: a failed sign-in leaves the stored token and expiry as they
    were. *)
Theorem X9_login_with_invalid_response_keeps_storage
    (st : State) (cid : JSValue) (data : option TokenData) (e : Thrown)
    (rest : list PopupOutcome) :
  JS.truthy (TokenService.isUserAuthenticated st) = false ->
  storage st !! ClientIdService.CLIENT_ID_KEY = Some cid ->
  JS.truthy cid = true ->
  popups st = TokenCallback data :: rest ->
  (forall s, AuthTokenValidator.validate data s = (Threw e, s)) ->
  exists st1,
    AuthService.login st =
      (Threw
         (Error
            ("Failed to fetch access token: " +:+
             ("Could not deserialize response: " +:+
              JS.ThrownToString
                (Error ("Failed to validate auth token: " +:+ JS.ThrownToString e))))),
       st1) /\
    storage st1 = storage st /\
    popups st1 = rest.
Proof.
  intros Hauth Hcid Htruthy Hpopups Hinvalid.
  rewrite (login_unauthenticated st Hauth).
  unfold AuthService.authenticate, bind at 1.
  rewrite (createTokenClient_stored (with_trace (trace st ++ [EvLogin])%list st) cid
             Hcid Htruthy).
  unfold try_catch, bind.
  rewrite (fetchAuthToken_callback _ data rest) by exact Hpopups.
  unfold AuthClient.processTokenResponse, try_catch.
  rewrite (deserialize_rejects data _ e) by apply Hinvalid.
  eexists. split; [reflexivity |]. split; reflexivity.
Qed.
End SigningIn.

Lemma X7_witness :
  exists st1,
    AuthService.login (H := Hosts.utc) (with_prompts [None] (Examples.fresh 0)) =
      (Threw (Error "No client ID provided."), st1) /\
    storage st1 = storage (with_prompts [None] (Examples.fresh 0)).
Proof.
  destruct (X7_login_without_client_id (H := Hosts.utc)
              (with_prompts [None] (Examples.fresh 0)) None [])
    as (st1 & Hlogin & Hstorage & _).
  - reflexivity.
  - reflexivity.
  - reflexivity.
  - left. reflexivity.
  - exists st1. split; assumption.
Defined.

Lemma X8_witness :
  exists st1 expiry,
    AuthService.login (H := Hosts.utc)
      (Scenarios.signedOut Examples.newYear2025 (TokenCallback (Some Examples.tokenResponse)))
      = (Returned tt, st1) /\
    storage st1 =
      <[TokenService.EXPIRATION_TIMESTAMP_KEY := expiry]>
        (<[TokenService.ACCESS_TOKEN_KEY := JSString "ya29.a0AfB_byC"]>
           (storage (Scenarios.signedOut Examples.newYear2025
                       (TokenCallback (Some Examples.tokenResponse))))).
Proof.
  destruct (X8_login_stores_the_token_of_the_popup (H := Hosts.utc)
              (Scenarios.signedOut Examples.newYear2025
                 (TokenCallback (Some Examples.tokenResponse)))
              Scenarios.clientId Examples.tokenResponse "ya29.a0AfB_byC" 3599 [])
    as (st1 & expiry & Hlogin & _ & Hstorage & _).
  - reflexivity.
  - reflexivity.
  - reflexivity.
  - reflexivity.
  - reflexivity.
  - discriminate.
  - reflexivity.
  - reflexivity.
  - lia.
  - exists st1, expiry. split; assumption.
Defined.

Lemma X9_witness :
  exists st1,
    fst (AuthService.login (H := Hosts.utc)
           (Scenarios.signedOut Examples.newYear2025 (TokenCallback None))) =
      Threw (Error ("Failed to fetch access token: Could not deserialize response: " +:+
                    "Error: Failed to validate auth token: Error: No data provided.")) /\
    snd (AuthService.login (H := Hosts.utc)
           (Scenarios.signedOut Examples.newYear2025 (TokenCallback None))) = st1 /\
    storage st1 = storage (Scenarios.signedOut Examples.newYear2025 (TokenCallback None)).
Proof.
  destruct (X9_login_with_invalid_response_keeps_storage (H := Hosts.utc)
              (Scenarios.signedOut Examples.newYear2025 (TokenCallback None))
              Scenarios.clientId None (Error "No data provided.") [])
    as (st1 & Hlogin & Hstorage & _).
  - reflexivity.
  - reflexivity.
  - reflexivity.
  - reflexivity.
  - intros s. reflexivity.
  - exists st1. rewrite Hlogin. split; [reflexivity |]. split; [reflexivity | exact Hstorage].
Defined.

(** ** Signing out and resetting *)

Section SigningOut.
Context `{Host}.

(** With a client id in storage, [authenticate] opens the popup and
    records nothing else, whatever the popup answers. *)
Lemma authenticate_trace (st : State) (cid : JSValue) :
  storage st !! ClientIdService.CLIENT_ID_KEY = Some cid ->
  JS.truthy cid = true ->
  trace (snd (AuthService.authenticate st)) =
    (trace st ++ [EvRequestAccessToken cid "https://www.googleapis.com/auth/youtube"])%list.
Proof.
  intros Hcid Htruthy. unfold AuthService.authenticate, bind at 1.
  rewrite (createTokenClient_stored st cid Hcid Htruthy).
  unfold try_catch, bind, AuthClient.fetchAuthToken, bind, emit, modify. simpl.
  destruct (popups st) as [| [data | e |] rest]; try reflexivity.
  unfold AuthClient.processTokenResponse, try_catch.
  destruct data as [d |]; [| reflexivity].
  match goal with
  | |- context [AuthToken.deserialize (Some d) ?s] =>
      destruct (validate_throws_or_returns d s) as [Hv | [e Hv]];
      [rewrite (deserialize_accepts d s Hv) | rewrite (deserialize_rejects (Some d) s e Hv)]
  end; reflexivity.
Qed.

(** X10.  [logout] removes the access token and the expiry and nothing
    else: the client id and the initialised flag stay, so the next
    [login] goes straight to the popup with the stored client id, without
    a prompt. *)
Theorem X10_logout_keeps_the_client_id (st : State) (cid : JSValue) :
  storage st !! ClientIdService.CLIENT_ID_KEY = Some cid ->
  JS.truthy cid = true ->
  fst (AuthService.logout st) = Returned tt /\
  TokenService.getAccessToken (snd (AuthService.logout st)) = JSUndefined /\
  storage (snd (AuthService.logout st)) !! TokenService.EXPIRATION_TIMESTAMP_KEY = None /\
  storage (snd (AuthService.logout st)) !! ClientIdService.CLIENT_ID_KEY = Some cid /\
  initialized (snd (AuthService.logout st)) = initialized st /\
  trace (snd (AuthService.login (snd (AuthService.logout st)))) =
    (trace st ++
     [EvLogin; EvRequestAccessToken cid "https://www.googleapis.com/auth/youtube"])%list.
Proof.
  intros Hcid Htruthy. unfold AuthService.logout. rewrite reset_storage. cbn [fst snd].
  set (st1 := with_storage _ st).
  assert (Htoken : storage st1 !! TokenService.ACCESS_TOKEN_KEY = None).
  { unfold st1. cbn [storage with_storage].
    rewrite lookup_delete_ne by discriminate. apply lookup_delete_eq. }
  assert (Hclient : storage st1 !! ClientIdService.CLIENT_ID_KEY = Some cid).
  { unfold st1. cbn [storage with_storage].
    rewrite lookup_delete_ne by discriminate. rewrite lookup_delete_ne by discriminate.
    exact Hcid. }
  split; [reflexivity |].
  split; [unfold TokenService.getAccessToken; apply load_absent; exact Htoken |].
  split; [unfold st1; cbn [storage with_storage]; apply lookup_delete_eq |].
  split; [exact Hclient |]. split; [reflexivity |].
  rewrite login_unauthenticated.
  - rewrite (authenticate_trace (with_trace (trace st1 ++ [EvLogin])%list st1) cid
               Hclient Htruthy).
    cbn [trace with_trace].
    rewrite <- app_assoc. reflexivity.
  - rewrite isUserAuthenticated_truthy. unfold TokenService.getAccessToken.
    rewrite (load_absent _ _ Htoken). reflexivity.
Qed.

(** X11.  [AuthService.reset] deletes the token, the expiry and the
    client id and clears the initialised flag, but the script element
    that [init] appended stays in the document head; the next [init]
    therefore appends the Google Sign-In script once more, and [init],
    [reset], [init] on a fresh service leaves two of them. *)
Theorem X11_reset_then_init_injects_again (st : State) :
  fst (AuthService.reset st) = Returned tt /\
  storage (snd (AuthService.reset st)) !! TokenService.ACCESS_TOKEN_KEY = None /\
  storage (snd (AuthService.reset st)) !! TokenService.EXPIRATION_TIMESTAMP_KEY = None /\
  storage (snd (AuthService.reset st)) !! ClientIdService.CLIENT_ID_KEY = None /\
  initialized (snd (AuthService.reset st)) = false /\
  head_scripts (snd (AuthService.reset st)) = head_scripts st /\
  head_scripts (snd (AuthService.init (snd (AuthService.reset st)))) =
    (head_scripts st ++ [AuthService.GSI_SCRIPT_URL])%list /\
  (initialized st = false ->
   head_scripts
     (snd (AuthService.init (snd (AuthService.reset (snd (AuthService.init st)))))) =
     (head_scripts st ++ [AuthService.GSI_SCRIPT_URL; AuthService.GSI_SCRIPT_URL])%list).
Proof.
  assert (Hreset : forall s,
            AuthService.reset s =
              (Returned tt,
               with_initialized false
                 (with_storage
                    (delete ClientIdService.CLIENT_ID_KEY
                       (delete TokenService.EXPIRATION_TIMESTAMP_KEY
                          (delete TokenService.ACCESS_TOKEN_KEY (storage s)))) s)))
    by reflexivity.
  assert (Hinit : forall s,
            head_scripts (snd (AuthService.init (snd (AuthService.reset s)))) =
              (head_scripts s ++ [AuthService.GSI_SCRIPT_URL])%list).
  { intros s. rewrite init_first_call by (rewrite Hreset; reflexivity).
    rewrite Hreset. reflexivity. }
  assert (Htwice : initialized st = false ->
            head_scripts
              (snd (AuthService.init (snd (AuthService.reset (snd (AuthService.init st))))))
            = (head_scripts st ++
               [AuthService.GSI_SCRIPT_URL; AuthService.GSI_SCRIPT_URL])%list).
  { intros Hfresh. rewrite Hinit, (init_first_call st Hfresh).
    cbn [head_scripts with_head_scripts]. rewrite <- app_assoc. reflexivity. }
  rewrite Hreset. cbn [fst snd storage with_initialized with_storage initialized head_scripts].
  split; [reflexivity |]. split.
  { rewrite lookup_delete_ne by discriminate. rewrite lookup_delete_ne by discriminate.
    apply lookup_delete_eq. }
  split.
  { rewrite lookup_delete_ne by discriminate. apply lookup_delete_eq. }
  split; [apply lookup_delete_eq |]. split; [reflexivity |]. split; [reflexivity |].
  split; [exact (Hinit st) | exact Htwice].
Qed.
End SigningOut.

Lemma X10_witness :
  trace (snd (AuthService.login (H := Hosts.utc)
                (snd (AuthService.logout
                        (with_storage
                           (<[ClientIdService.CLIENT_ID_KEY := Scenarios.clientId]>
                              (storage (Examples.signedIn 0 3599000)))
                           (Examples.signedIn 0 3599000)))))) =
  [EvLogin;
   EvRequestAccessToken Scenarios.clientId "https://www.googleapis.com/auth/youtube"].
Proof.
  apply (X10_logout_keeps_the_client_id (H := Hosts.utc)
           (with_storage
              (<[ClientIdService.CLIENT_ID_KEY := Scenarios.clientId]>
                 (storage (Examples.signedIn 0 3599000)))
              (Examples.signedIn 0 3599000))
           Scenarios.clientId).
  - reflexivity.
  - reflexivity.
Defined.

Lemma X11_witness :
  initialized (Examples.fresh 0) = false /\
  head_scripts
    (snd (AuthService.init (snd (AuthService.reset (snd (AuthService.init
       (Examples.fresh 0))))))) =
  [AuthService.GSI_SCRIPT_URL; AuthService.GSI_SCRIPT_URL].
Proof.
  split; [reflexivity |].
  apply (X11_reset_then_init_injects_again (Examples.fresh 0)). reflexivity.
Defined.

(** ** Requests that succeed, and what they carry *)

Section MoreRequests.
Context `{Host}.

(** A 2xx answer with a body that parses. *)
Lemma executeRequest_ok (res : Response) (data : JSONValue) (net : list FetchOutcome)
    (endpoint : string) (options : RequestInit) (st : State) :
  legalBearer st = true ->
  ok res = true ->
  json res = Some data ->
  YouTubeApiService.executeRequest (FetchResolves res :: net) endpoint options st =
    (Returned data, afterFetch st endpoint options).
Proof.
  intros Hlegal Hok Hjson. rewrite executeRequest_unfold by exact Hlegal.
  unfold try_catch, bind, YouTubeApiService.handleResponse, YouTubeApiService.res_json.
  simpl. rewrite Hok, Hjson. reflexivity.
Qed.

(** X12.  For a request whose Authorization value is legal, a response
    with a 2xx status ends the call at once: the parsed body is the result
    and the only thing the call has done is to send the one request (no
    login, no timer, nothing logged, the remaining answers of the network
    untouched); when the body is empty, the SyntaxError of [res.json()]
    is logged and the result is [undefined]. *)
Theorem X12_ok_response_is_returned
    (res : Response) (net : list FetchOutcome) (endpoint : string)
    (options : RequestInit) (st : State) :
  legalBearer st = true ->
  ok res = true ->
  (forall data,
     json res = Some data ->
     YouTubeApiService.executeRequest (FetchResolves res :: net) endpoint options st =
       (Returned data,
        with_trace
          (trace st ++
           [EvFetch (YouTubeApiService.buildUrl endpoint) (requestSent st options)])%list
          st)) /\
  (json res = None ->
   YouTubeApiService.executeRequest (FetchResolves res :: net) endpoint options st =
     (Returned JUndefined,
      with_trace
        (trace st ++
         [EvFetch (YouTubeApiService.buildUrl endpoint) (requestSent st options);
          EvConsoleError (ErrorObject "SyntaxError" "Unexpected end of JSON input")])%list
        st)).
Proof.
  intros Hlegal Hok. split.
  - intros data Hjson. apply executeRequest_ok; assumption.
  - intros Hjson. rewrite executeRequest_unfold by exact Hlegal.
    rewrite <- emit_afterFetch.
    unfold try_catch, bind, YouTubeApiService.handleResponse, YouTubeApiService.res_json.
    simpl. rewrite Hok, Hjson. reflexivity.
Qed.

Lemma Headers_get_put_other (name name' value : string) (h : Headers.t) :
  Headers.lower name <> Headers.lower name' ->
  Headers.get name (Headers.put name' value h) = Headers.get name h.
Proof.
  intros Hne. unfold Headers.get, Headers.put, Headers.t in *.
  apply lookup_insert_ne. congruence.
Qed.

(** X13.  When [Headers.set] accepts the bearer token of the moment, the
    request that [executeRequest] sends keeps the caller's method, body
    and headers, except for Authorization: that header holds the bearer
    token without its trailing whitespace, replacing a value the caller
    may have supplied under any capitalisation.  When [Headers.set]
    refuses the token, no request is sent. *)
Theorem X13_request_keeps_the_callers_options
    (net : list FetchOutcome) (endpoint : string) (options : RequestInit) (st : State) :
  (legalBearer st = false ->
   trace (snd (YouTubeApiService.executeRequest net endpoint options st)) = trace st) /\
  (legalBearer st = true ->
  exists request sent rest,
    trace (snd (YouTubeApiService.executeRequest net endpoint options st)) =
      (trace st ++ EvFetch (YouTubeApiService.buildUrl endpoint) request :: rest)%list /\
    headers request = Some sent /\
    method request = method options /\
    body request = body options /\
    (forall name,
       Headers.lower name = "authorization" ->
       Headers.get name sent =
       Some (Headers.normalize (YouTubeApiService.getBearerToken st))) /\
    (forall name,
       Headers.lower name <> "authorization" ->
       Headers.get name sent = Headers.get name (default Headers.empty (headers options)))).
Proof.
  split.
  - intros Hillegal.
    destruct (executeRequest_illegal net endpoint options st Hillegal) as [message Hrun].
    rewrite Hrun. reflexivity.
  - intros Hlegal.
    destruct (executeRequest_first_fetch net endpoint options st Hlegal) as [rest Hrest].
    exists (requestSent st options). eexists. exists rest.
    split; [exact Hrest |]. split; [reflexivity |]. split; [reflexivity |].
    split; [reflexivity |]. split.
    + intros name Hname. unfold Headers.get. rewrite Hname.
      change "authorization" with (Headers.lower YouTubeApiService.AUTHORIZATION_HEADER_KEY).
      apply Headers_get_put.
    + intros name Hname. apply Headers_get_put_other. exact Hname.
Qed.
End MoreRequests.

Lemma X12_witness :
  YouTubeApiService.executeRequest (H := Hosts.utc)
    [Scenarios.okWith Scenarios.channelList] YouTubeStreamService.DUMMY_ENDPOINT
    emptyOptions (Examples.signedIn 0 3599000) =
  (Returned Scenarios.channelList,
   with_trace
     (trace (Examples.signedIn 0 3599000) ++
      [EvFetch (YouTubeApiService.buildUrl YouTubeStreamService.DUMMY_ENDPOINT)
         (requestSent (Examples.signedIn 0 3599000) emptyOptions)])%list
     (Examples.signedIn 0 3599000)).
Proof.
  apply (proj1 (X12_ok_response_is_returned (H := Hosts.utc)
                  {| status := 200; json := Some Scenarios.channelList |} []
                  YouTubeStreamService.DUMMY_ENDPOINT emptyOptions
                  (Examples.signedIn 0 3599000) eq_refl eq_refl)).
  reflexivity.
Defined.

Lemma X13_witness :
  legalBearer (Examples.signedInWith "ya29.a0AfB_byC  " 0 3599000) = true /\
  exists request sent rest,
    trace (snd (YouTubeApiService.executeRequest (H := Hosts.utc) []
                  YouTubeStreamService.DUMMY_ENDPOINT
                  {| method := None;
                     headers := Some (Headers.put "authorization" "Basic dXNlcg=="
                                        (Headers.put "Accept" "application/json"
                                           Headers.empty));
                     body := None |}
                  (Examples.signedInWith "ya29.a0AfB_byC  " 0 3599000))) =
      (EvFetch (YouTubeApiService.buildUrl YouTubeStreamService.DUMMY_ENDPOINT) request
         :: rest)%list /\
    headers request = Some sent /\
    Headers.get "Authorization" sent = Some "Bearer ya29.a0AfB_byC" /\
    Headers.get "accept" sent = Some "application/json".
Proof.
  split; [reflexivity |].
  destruct (proj2 (X13_request_keeps_the_callers_options (H := Hosts.utc) []
              YouTubeStreamService.DUMMY_ENDPOINT
              {| method := None;
                 headers := Some (Headers.put "authorization" "Basic dXNlcg=="
                                    (Headers.put "Accept" "application/json"
                                       Headers.empty));
                 body := None |}
              (Examples.signedInWith "ya29.a0AfB_byC  " 0 3599000)) eq_refl)
    as (request & sent & rest & Htrace & Hheaders & _ & _ & Hauth & Hother).
  exists request, sent, rest. split; [exact Htrace |]. split; [exact Hheaders |]. split.
  - rewrite (Hauth "Authorization" eq_refl). vm_compute. reflexivity.
  - rewrite Hother by (vm_compute; discriminate). vm_compute. reflexivity.
Defined.

(** ** Requests that run into a sign-in *)

Section RequestsAndSignIn.
Context `{Host}.

(** X14.  A request from a user who is not signed in (client id stored)
    that is answered with 401/403, when the popup hands back a token that
    [Headers.set] accepts: the popup is opened, the token is stored, the
    timer runs, and the request is sent again with the Authorization
    header built from the new token (without trailing whitespace); the 2xx
    body that answers the retry is the result of the original call. *)
Theorem X14_retry_carries_the_new_token
    (res res' : Response) (data : JSONValue) (net : list FetchOutcome)
    (endpoint : string) (options : RequestInit) (st : State)
    (cid : JSValue) (d : TokenData) (a : string) (z : Z) (rest : list PopupOutcome) :
  legalBearer st = true ->
  Headers.legalValue ("Bearer " +:+ a) = true ->
  YouTubeApiService.isUnauthorized (status res) = true ->
  ok res' = true ->
  json res' = Some data ->
  JS.truthy (TokenService.isUserAuthenticated st) = false ->
  storage st !! ClientIdService.CLIENT_ID_KEY = Some cid ->
  JS.truthy cid = true ->
  popups st = TokenCallback (Some d) :: rest ->
  access_token d = JSString a -> a <> "" ->
  token_type d = JSString "Bearer" ->
  expires_in d = JSNumber (Num z) -> 0 < z ->
  exists st' retry sent,
    YouTubeApiService.executeRequest
      (FetchResolves res :: FetchResolves res' :: net) endpoint options st =
      (Returned data, st') /\
    trace st' =
      (trace st ++
       [EvFetch (YouTubeApiService.buildUrl endpoint) (requestSent st options);
        EvLogin;
        EvRequestAccessToken cid "https://www.googleapis.com/auth/youtube";
        EvSetTimeout YouTubeApiService.RETRY_DELAY_MS;
        EvFetch (YouTubeApiService.buildUrl endpoint) retry])%list /\
    headers retry = Some sent /\
    Headers.get "Authorization" sent = Some (Headers.normalize ("Bearer " +:+ a)) /\
    method retry = method options /\
    body retry = body options /\
    TokenService.getAccessToken st' = JSString a.
Proof.
  intros Hlegal Hlegal' Hu Hok Hjson Hauth Hcid Htruthy Hpopups Ha Hne Ht He Hz.
  rewrite (executeRequest_unauthorized_step res _ endpoint options st Hlegal Hu).
  destruct (login_popup_success (afterFetch st endpoint options) cid d a z rest
              Hauth Hcid Htruthy Hpopups Ha Hne Ht He Hz)
    as (st1 & expiry & Hlogin & _ & Hstorage & _ & _ & _ & _ & Htrace).
  rewrite Hlogin.
  set (st2 := snd (YouTubeApiService.delay YouTubeApiService.RETRY_DELAY_MS st1)).
  assert (Htoken : TokenService.getAccessToken st2 = JSString a).
  { unfold TokenService.getAccessToken, SettingsStorage.load.
    change (storage st2) with (storage st1). rewrite Hstorage.
    rewrite lookup_insert_ne by discriminate. rewrite lookup_insert_eq. reflexivity. }
  assert (Hbearer : YouTubeApiService.getBearerToken st2 = "Bearer " +:+ a).
  { unfold YouTubeApiService.getBearerToken, AuthService.getAccessToken.
    rewrite Htoken. reflexivity. }
  assert (Hlegal2 : legalBearer st2 = true).
  { unfold legalBearer. rewrite Hbearer. exact Hlegal'. }
  unfold try_catch.
  rewrite (executeRequest_ok res' data net endpoint _ st2 Hlegal2 Hok Hjson).
  eexists. exists (requestSent st2 (requestSent st options)). eexists.
  split; [reflexivity |]. split; [| split; [reflexivity |]].
  - unfold afterFetch at 1. cbn [trace with_trace].
    change (trace st2) with (trace st1 ++ [EvSetTimeout YouTubeApiService.RETRY_DELAY_MS])%list.
    rewrite Htrace. unfold afterFetch. cbn [trace with_trace].
    rewrite <- !app_assoc. reflexivity.
  - split.
    + unfold YouTubeApiService.AUTHORIZATION_HEADER_KEY. rewrite Headers_get_put, Hbearer.
      reflexivity.
    + split; [reflexivity |]. split; [reflexivity |]. exact Htoken.
Qed.

(** X15.  A request (with a legal Authorization value) from a user who
    is not signed in and has no client id stored, answered with 401/403,
    when the user dismisses the client-id prompt: the error of [login] is
    logged, the call resolves with [undefined], and neither the timer nor
    a retry follows; the storage is as before. *)
Theorem X15_unauthorized_and_prompt_dismissed
    (res : Response) (net : list FetchOutcome) (endpoint : string)
    (options : RequestInit) (st : State) (answer : option string)
    (rest : list (option string)) :
  legalBearer st = true ->
  YouTubeApiService.isUnauthorized (status res) = true ->
  JS.truthy (TokenService.isUserAuthenticated st) = false ->
  JS.truthy (SettingsStorage.load ClientIdService.CLIENT_ID_KEY st) = false ->
  prompts st = answer :: rest ->
  answer = None \/ answer = Some "" ->
  exists st',
    YouTubeApiService.executeRequest (FetchResolves res :: net) endpoint options st =
      (Returned JUndefined, st') /\
    storage st' = storage st /\
    trace st' =
      (trace st ++
       [EvFetch (YouTubeApiService.buildUrl endpoint) (requestSent st options);
        EvLogin;
        EvPrompt "Please enter your Google OAuth client ID.";
        EvConsoleError (Error "No client ID provided.")])%list.
Proof.
  intros Hlegal Hu Hauth Hcid Hprompts Hanswer.
  rewrite (executeRequest_unauthorized_step res _ endpoint options st Hlegal Hu).
  destruct (login_prompt_dismissed (afterFetch st endpoint options) answer rest
              Hauth Hcid Hprompts Hanswer)
    as (st1 & Hlogin & Hstorage & _ & _ & Htrace).
  rewrite Hlogin. eexists. split; [reflexivity |]. split; [exact Hstorage |].
  unfold emit, modify. cbn [snd trace with_trace]. rewrite Htrace.
  unfold afterFetch. cbn [trace with_trace]. rewrite <- !app_assoc. reflexivity.
Qed.

(** X25.  The same request, when the popup hands back a token that
    passes validation but that [Headers.set] refuses: the token is stored
    and the timer runs, the retry throws while it sets its header, and
    the first call, whose [try] statement the retry runs in, logs that
    [TypeError] and resolves with [undefined]; the request is not sent a
    second time, whatever the network would have answered. *)
Theorem X25_retry_with_a_refused_token_is_logged
    (res : Response) (net : list FetchOutcome)
    (endpoint : string) (options : RequestInit) (st : State)
    (cid : JSValue) (d : TokenData) (a : string) (z : Z) (rest : list PopupOutcome) :
  legalBearer st = true ->
  Headers.legalValue ("Bearer " +:+ a) = false ->
  YouTubeApiService.isUnauthorized (status res) = true ->
  JS.truthy (TokenService.isUserAuthenticated st) = false ->
  storage st !! ClientIdService.CLIENT_ID_KEY = Some cid ->
  JS.truthy cid = true ->
  popups st = TokenCallback (Some d) :: rest ->
  access_token d = JSString a -> a <> "" ->
  token_type d = JSString "Bearer" ->
  expires_in d = JSNumber (Num z) -> 0 < z ->
  exists st' message,
    YouTubeApiService.executeRequest (FetchResolves res :: net) endpoint options st =
      (Returned JUndefined, st') /\
    trace st' =
      (trace st ++
       [EvFetch (YouTubeApiService.buildUrl endpoint) (requestSent st options);
        EvLogin;
        EvRequestAccessToken cid "https://www.googleapis.com/auth/youtube";
        EvSetTimeout YouTubeApiService.RETRY_DELAY_MS;
        EvConsoleError (TypeError message)])%list /\
    TokenService.getAccessToken st' = JSString a.
Proof.
  intros Hlegal Hillegal Hu Hauth Hcid Htruthy Hpopups Ha Hne Ht He Hz.
  rewrite (executeRequest_unauthorized_step res _ endpoint options st Hlegal Hu).
  destruct (login_popup_success (afterFetch st endpoint options) cid d a z rest
              Hauth Hcid Htruthy Hpopups Ha Hne Ht He Hz)
    as (st1 & expiry & Hlogin & _ & Hstorage & _ & _ & _ & _ & Htrace).
  rewrite Hlogin.
  set (st2 := snd (YouTubeApiService.delay YouTubeApiService.RETRY_DELAY_MS st1)).
  assert (Htoken : TokenService.getAccessToken st2 = JSString a).
  { unfold TokenService.getAccessToken, SettingsStorage.load.
    change (storage st2) with (storage st1). rewrite Hstorage.
    rewrite lookup_insert_ne by discriminate. rewrite lookup_insert_eq. reflexivity. }
  assert (Hbearer : YouTubeApiService.getBearerToken st2 = "Bearer " +:+ a).
  { unfold YouTubeApiService.getBearerToken, AuthService.getAccessToken.
    rewrite Htoken. reflexivity. }
  assert (Hillegal2 : legalBearer st2 = false).
  { unfold legalBearer. rewrite Hbearer. exact Hillegal. }
  destruct (executeRequest_illegal net endpoint (requestSent st options) st2 Hillegal2)
    as [message Hretry].
  unfold try_catch. rewrite Hretry.
  eexists. exists message. split; [reflexivity |]. split; [| exact Htoken].
  unfold logAndResolve, bind, emit, modify, ret. cbn [snd trace with_trace].
  change (trace st2) with (trace st1 ++ [EvSetTimeout YouTubeApiService.RETRY_DELAY_MS])%list.
  rewrite Htrace. unfold afterFetch. cbn [trace with_trace].
  rewrite <- !app_assoc. reflexivity.
Qed.
End RequestsAndSignIn.

Lemma X14_witness :
  exists st',
    YouTubeApiService.executeRequest (H := Hosts.utc)
      [Examples.respond 401; Scenarios.okWith Scenarios.channelList]
      YouTubeStreamService.DUMMY_ENDPOINT emptyOptions
      (Scenarios.signedOut Examples.newYear2025 (TokenCallback (Some Examples.tokenResponse)))
      = (Returned Scenarios.channelList, st') /\
    TokenService.getAccessToken st' = JSString "ya29.a0AfB_byC".
Proof.
  destruct (X14_retry_carries_the_new_token (H := Hosts.utc)
              {| status := 401; json := Some (JObject []) |}
              {| status := 200; json := Some Scenarios.channelList |}
              Scenarios.channelList [] YouTubeStreamService.DUMMY_ENDPOINT emptyOptions
              (Scenarios.signedOut Examples.newYear2025
                 (TokenCallback (Some Examples.tokenResponse)))
              Scenarios.clientId Examples.tokenResponse "ya29.a0AfB_byC" 3599 [])
    as (st' & retry & sent & Hrun & _ & _ & _ & _ & _ & Htoken).
  - reflexivity.
  - reflexivity.
  - reflexivity.
  - reflexivity.
  - reflexivity.
  - reflexivity.
  - reflexivity.
  - reflexivity.
  - reflexivity.
  - reflexivity.
  - discriminate.
  - reflexivity.
  - reflexivity.
  - lia.
  - exists st'. split; assumption.
Defined.

Lemma X25_witness :
  exists st',
    YouTubeApiService.executeRequest (H := Hosts.utc)
      [Examples.respond 401; Scenarios.okWith Scenarios.channelList]
      YouTubeStreamService.DUMMY_ENDPOINT emptyOptions
      (Scenarios.signedOut Examples.newYear2025
         (TokenCallback (Some Scenarios.brokenTokenResponse)))
      = (Returned JUndefined, st') /\
    fetchCount (trace st') = 1%nat.
Proof.
  destruct (X25_retry_with_a_refused_token_is_logged (H := Hosts.utc)
              {| status := 401; json := Some (JObject []) |}
              [Scenarios.okWith Scenarios.channelList]
              YouTubeStreamService.DUMMY_ENDPOINT emptyOptions
              (Scenarios.signedOut Examples.newYear2025
                 (TokenCallback (Some Scenarios.brokenTokenResponse)))
              Scenarios.clientId Scenarios.brokenTokenResponse Examples.brokenToken 3599 [])
    as (st' & message & Hrun & Htrace & _).
  - reflexivity.
  - reflexivity.
  - reflexivity.
  - reflexivity.
  - reflexivity.
  - reflexivity.
  - reflexivity.
  - reflexivity.
  - discriminate.
  - reflexivity.
  - reflexivity.
  - lia.
  - exists st'. split; [exact Hrun |]. rewrite Htrace. reflexivity.
Defined.

Lemma X15_witness :
  exists st',
    YouTubeApiService.executeRequest (H := Hosts.utc) [Examples.respond 403]
      YouTubeStreamService.DUMMY_ENDPOINT emptyOptions
      (with_prompts [Some ""] (Examples.fresh Examples.newYear2025))
      = (Returned JUndefined, st') /\
    storage st' = storage (with_prompts [Some ""] (Examples.fresh Examples.newYear2025)).
Proof.
  destruct (X15_unauthorized_and_prompt_dismissed (H := Hosts.utc)
              {| status := 403; json := Some (JObject []) |} []
              YouTubeStreamService.DUMMY_ENDPOINT emptyOptions
              (with_prompts [Some ""] (Examples.fresh Examples.newYear2025)) (Some "") [])
    as (st' & Hrun & Hstorage & _).
  - reflexivity.
  - reflexivity.
  - reflexivity.
  - reflexivity.
  - reflexivity.
  - right. reflexivity.
  - exists st'. split; assumption.
Defined.

(** ** Uploading a stream *)

Section Uploading.
Context `{Host}.

(** X16.  A stream whose start time is an invalid date: [uploadStream]
    rejects, no request is sent and nothing is logged.  The headers are
    built first, so with a stored token that [Headers.set] refuses the
    rejection is its [TypeError]; otherwise [toISOString] throws a
    RangeError while the payload is being built, outside any [try], and
    [uploadStream] rejects with that. *)
Theorem X16_uploadStream_with_invalid_date
    (net : list FetchOutcome) (stream : YouTubeStream.t) (st : State) :
  YouTubeStream.getStartTime stream = NaN ->
  (legalBearer st = true ->
   YouTubeStreamService.uploadStream net stream st =
     (Threw (ErrorObject "RangeError" "Invalid time value"), st)) /\
  (legalBearer st = false ->
   exists message,
     YouTubeStreamService.uploadStream net stream st = (Threw (TypeError message), st)).
Proof.
  intros Hnan. split.
  - intros Hlegal. rewrite (uploadStream_legal net stream st Hlegal), Hnan. reflexivity.
  - apply uploadStream_illegal.
Qed.

Lemma bind_ret_tt_state {A} (m : M A) (st : State) :
  snd ((m ;;; ret tt) st) = snd (m st).
Proof. unfold bind. destruct (m st) as [[a | e |] st']; reflexivity. Qed.

Lemma bind_ret_tt_outcome {A} (m : M A) (st : State) (a : A) :
  fst (m st) = Returned a -> fst ((m ;;; ret tt) st) = Returned tt.
Proof. unfold bind. destruct (m st) as [[a' | e |] st']; simpl; congruence. Qed.

(** An answer other than a 401/403 response settles [executeRequest]. *)
Lemma executeRequest_settles (answer : FetchOutcome) (net : list FetchOutcome)
    (endpoint : string) (options : RequestInit) (st : State) :
  legalBearer st = true ->
  (forall res, answer = FetchResolves res ->
               YouTubeApiService.isUnauthorized (status res) = false) ->
  exists data,
    fst (YouTubeApiService.executeRequest (answer :: net) endpoint options st) =
      Returned data.
Proof.
  intros Hlegal Hanswer. rewrite executeRequest_unfold by exact Hlegal.
  destruct answer as [e | res].
  - exists JUndefined. reflexivity.
  - specialize (Hanswer res eq_refl).
    unfold try_catch, bind, YouTubeApiService.handleResponse, YouTubeApiService.res_json.
    simpl. rewrite Hanswer.
    destruct (ok res); [destruct (json res) as [data |] |]; simpl; eauto.
Qed.

Lemma toISOString_valid (t : Z) : exists iso, Date.toISOString (Num t) = inr iso.
Proof.
  unfold Date.toISOString. destruct (Date.civil (Date.Day t)) as [[y m] dd].
  eexists. reflexivity.
Qed.

(** With a valid start time, [uploadStream] is its call of
    [executeRequest]. *)
Lemma uploadStream_valid (net : list FetchOutcome) (stream : YouTubeStream.t)
    (t : Z) (scheduledStartTime : string) (st : State) :
  legalBearer st = true ->
  YouTubeStream.getStartTime stream = Num t ->
  Date.toISOString (Num t) = inr scheduledStartTime ->
  YouTubeStreamService.uploadStream net stream st =
    (YouTubeApiService.executeRequest net YouTubeStreamService.CREATE_STREAM_ENDPOINT
       {| method := Some "POST";
          headers := Some (uploadHeaders st);
          body := JSON.stringify
                    (YouTubeStreamService.streamData stream scheduledStartTime) |} ;;;
     ret tt) st.
Proof.
  intros Hlegal Ht Hiso. rewrite (uploadStream_legal net stream st Hlegal), Ht, Hiso.
  reflexivity.
Qed.

(** X17.  A stream with a valid start time, uploaded while the stored
    token gives an Authorization value that [Headers.set] accepts:
    [uploadStream] does not reject.  The request it sends is a POST to
    the live-broadcast endpoint whose body is the JSON text of the
    stream's payload and whose headers carry the JSON content type and
    the bearer token (without trailing whitespace).  Once the network has
    answered with anything but a 401/403 response, [uploadStream]
    resolves, and resolves the same way (with no value) whether the
    broadcast was created, the server refused or the network failed. *)
Theorem X17_uploadStream_request
    (net : list FetchOutcome) (stream : YouTubeStream.t) (t : Z) (st : State) :
  legalBearer st = true ->
  YouTubeStream.getStartTime stream = Num t ->
  (forall e, fst (YouTubeStreamService.uploadStream net stream st) <> Threw e) /\
  (exists scheduledStartTime request sent rest,
     Date.toISOString (Num t) = inr scheduledStartTime /\
     trace (snd (YouTubeStreamService.uploadStream net stream st)) =
       (trace st ++
        EvFetch (YouTubeApiService.buildUrl YouTubeStreamService.CREATE_STREAM_ENDPOINT)
          request :: rest)%list /\
     method request = Some "POST" /\
     body request =
       JSON.stringify (YouTubeStreamService.streamData stream scheduledStartTime) /\
     headers request = Some sent /\
     Headers.get "Content-Type" sent = Some "application/json" /\
     Headers.get "Authorization" sent =
       Some (Headers.normalize (YouTubeApiService.getBearerToken st))) /\
  (forall answer net',
     net = answer :: net' ->
     (forall res, answer = FetchResolves res ->
                  YouTubeApiService.isUnauthorized (status res) = false) ->
     fst (YouTubeStreamService.uploadStream net stream st) = Returned tt).
Proof.
  intros Hlegal Ht. destruct (toISOString_valid t) as [scheduledStartTime Hiso].
  rewrite (uploadStream_valid net stream t scheduledStartTime st Hlegal Ht Hiso).
  match goal with
  | |- context [YouTubeApiService.executeRequest net ?ep ?o] =>
      set (options := o); set (endpoint := ep)
  end.
  split; [| split].
  - intros e. unfold bind.
    destruct (YouTubeApiService.executeRequest net endpoint options st)
      as [[v | e' |] st'] eqn:Hr; simpl; try discriminate.
    exfalso. apply (executeRequest_not_threw net endpoint options st e' Hlegal).
    rewrite Hr. reflexivity.
  - destruct (executeRequest_first_fetch net endpoint options st Hlegal) as [rest Hrest].
    exists scheduledStartTime, (requestSent st options). eexists. exists rest.
    split; [exact Hiso |]. split; [rewrite bind_ret_tt_state; exact Hrest |].
    split; [reflexivity |]. split; [reflexivity |]. split; [reflexivity |].
    split.
    + unfold YouTubeApiService.AUTHORIZATION_HEADER_KEY.
      rewrite Headers_get_put_other by (vm_compute; discriminate).
      apply Headers_get_put.
    + unfold YouTubeApiService.AUTHORIZATION_HEADER_KEY. apply Headers_get_put.
  - intros answer net' -> Hanswer.
    destruct (executeRequest_settles answer net' endpoint options st Hlegal Hanswer)
      as [data Hdata].
    apply (bind_ret_tt_outcome _ _ data). exact Hdata.
Qed.

(** X26.  [uploadStream] builds its headers before anything else and
    outside any [try]: with a stored token that [Headers.set] refuses it
    rejects with the [TypeError] for every stream, whatever its start
    time, and neither sends a request nor logs anything. *)
Theorem X26_uploadStream_with_a_refused_token
    (net : list FetchOutcome) (stream : YouTubeStream.t) (st : State) :
  legalBearer st = false ->
  exists message,
    YouTubeStreamService.uploadStream net stream st = (Threw (TypeError message), st) /\
    YouTubeApiService.getRequestHeaders st = inl (TypeError message).
Proof.
  intros Hillegal.
  destruct (Headers_set_illegal _ Headers.empty Hillegal) as [message Hset].
  exists message.
  unfold YouTubeStreamService.uploadStream, bind at 1, gets,
    YouTubeApiService.getRequestHeaders.
  cbv zeta. rewrite Hset. split; reflexivity.
Qed.
End Uploading.

Lemma X16_witness :
  YouTubeStreamService.uploadStream (H := Hosts.utc)
    [Scenarios.okWith Scenarios.channelList] (YouTubeStream.new "Worship Night" NaN)
    (Examples.signedIn 0 3599000) =
  (Threw (ErrorObject "RangeError" "Invalid time value"), Examples.signedIn 0 3599000).
Proof.
  apply (proj1 (X16_uploadStream_with_invalid_date (H := Hosts.utc)
                  [Scenarios.okWith Scenarios.channelList]
                  (YouTubeStream.new "Worship Night" NaN)
                  (Examples.signedIn 0 3599000) eq_refl)).
  reflexivity.
Defined.

Lemma X26_witness :
  let st :=
    Examples.signedInWith Examples.brokenToken Examples.newYear2025
      (Examples.newYear2025 + 3599000) in
  exists message,
    YouTubeStreamService.uploadStream (H := Hosts.utc)
      [Scenarios.okWith Scenarios.channelList]
      (YouTubeStream.new "Worship Night" (Num Examples.newYear2025)) st =
    (Threw (TypeError message), st).
Proof.
  intros st.
  destruct (X26_uploadStream_with_a_refused_token (H := Hosts.utc)
              [Scenarios.okWith Scenarios.channelList]
              (YouTubeStream.new "Worship Night" (Num Examples.newYear2025)) st eq_refl)
    as (message & Hrun & _).
  exists message. exact Hrun.
Defined.

Lemma X17_witness :
  fst (YouTubeStreamService.uploadStream (H := Hosts.utc) [Examples.respond 500]
         (YouTubeStream.setDescription "Evening service"
            (YouTubeStream.new "Worship Night" (Num Examples.newYear2025)))
         (Examples.signedIn 0 3599000)) = Returned tt.
Proof.
  apply (proj2 (proj2 (X17_uploadStream_request (H := Hosts.utc) [Examples.respond 500]
                         (YouTubeStream.setDescription "Evening service"
                            (YouTubeStream.new "Worship Night" (Num Examples.newYear2025)))
                         Examples.newYear2025 (Examples.signedIn 0 3599000)
                         eq_refl eq_refl))
           (Examples.respond 500) []).
  - reflexivity.
  - intros res Hres. injection Hres as <-. reflexivity.
Defined.

(** ** Scraping, with the table on the page *)

(** The last [div] of a chain of ancestors, [above] when it has none. *)
Lemma closest_in_chain (chain : list Node) :
  forall above,
    let closest :=
      fold_left (fun acc a => if Dom.hasTag "div" a then Some a else acc) chain above in
    (exists div, closest = Some div /\ nearestDivOf chain div) \/
    (closest = above /\ Forall (fun a => Dom.hasTag "div" a = false) chain).
Proof.
  induction chain as [| a chain IH]; intros above; cbn [fold_left]; cbv zeta.
  - right. split; [reflexivity | constructor].
  - destruct (IH (if Dom.hasTag "div" a then Some a else above))
      as [(div & Hclosest & outer & inner & Hchain & Hdiv & Hinner) | [Hclosest Hnone]].
    + left. exists div. split; [exact Hclosest |].
      exists (a :: outer), inner. rewrite Hchain. repeat split; assumption.
    + destruct (Dom.hasTag "div" a) eqn:Ha.
      * left. exists a. split; [exact Hclosest |].
        exists [], chain. repeat split; assumption.
      * right. split; [exact Hclosest |]. constructor; assumption.
Qed.

Lemma closest_of_nearest (chain : list Node) (div : Node) (above : option Node) :
  nearestDivOf chain div ->
  fold_left (fun acc a => if Dom.hasTag "div" a then Some a else acc) chain above = Some div.
Proof.
  intros (outer & inner & -> & Hdiv & Hinner).
  rewrite fold_left_app. cbn [fold_left]. rewrite Hdiv.
  clear Hdiv. induction Hinner as [| a inner Ha Hinner IH]; [reflexivity |].
  cbn [fold_left]. rewrite Ha. exact IH.
Qed.

(** The walk pairs every [p] element below the node with the last [div]
    on the way to it. *)
Lemma paragraphsWithClosestDiv_visits (path : list nat) :
  forall n above paragraph,
    path <> [] ->
    nodeAt path n = Some paragraph ->
    Dom.hasTag "p" paragraph = true ->
    In (paragraph,
        fold_left (fun acc a => if Dom.hasTag "div" a then Some a else acc)
          (ancestors path n) above)
       (Dom.paragraphsWithClosestDiv above n).
Proof.
  induction path as [| i path IH]; intros n above paragraph Hpath Hat Hp; [congruence |].
  destruct n as [data | tagName attributes childNodes]; [discriminate |].
  cbn [nodeAt ancestors] in *.
  destruct (nth_error childNodes i) as [c |] eqn:Hc; [| discriminate].
  cbn [fold_left Dom.paragraphsWithClosestDiv].
  apply in_flat_map. exists c. split; [apply (nth_error_In _ _ Hc) |].
  apply in_or_app. destruct path as [| k path].
  - left. injection Hat as ->. rewrite Hp. left. reflexivity.
  - right. apply IH; [discriminate | exact Hat | exact Hp].
Qed.

Lemma paragraphsWithClosestDiv_position (n : Node) :
  forall above paragraph div,
    In (paragraph, div) (Dom.paragraphsWithClosestDiv above n) ->
    exists path,
      path <> [] /\
      nodeAt path n = Some paragraph /\
      Dom.hasTag "p" paragraph = true /\
      div = fold_left (fun acc a => if Dom.hasTag "div" a then Some a else acc)
              (ancestors path n) above.
Proof.
  induction n as [data | tagName attributes childNodes IH] using Node_ind_children;
    intros above paragraph div Hin; [destruct Hin |].
  cbn [Dom.paragraphsWithClosestDiv] in Hin.
  apply in_flat_map in Hin. destruct Hin as (c & Hc & Hin).
  destruct (In_nth_error _ _ Hc) as [i Hi].
  apply in_app_or in Hin. destruct Hin as [Hin | Hin].
  - destruct (Dom.hasTag "p" c) eqn:Hp; [| destruct Hin].
    destruct Hin as [Heq | []]. injection Heq as <- <-.
    exists [i]. split; [discriminate |]. cbn [nodeAt ancestors]. rewrite Hi.
    split; [reflexivity |]. split; [exact Hp | reflexivity].
  - rewrite List.Forall_forall in IH.
    destruct (IH c Hc _ paragraph div Hin) as (path & Hne & Hat & Hp & Hdiv).
    exists (i :: path). split; [discriminate |]. cbn [nodeAt ancestors]. rewrite Hi.
    split; [exact Hat |]. split; [exact Hp | exact Hdiv].
Qed.

(** The elements below a node are the elements at its positions. *)
Lemma descendants_position (n : Node) :
  forall x, In x (Dom.descendants n) -> exists path, path <> [] /\ nodeAt path n = Some x.
Proof.
  induction n as [data | tagName attributes childNodes IH] using Node_ind_children;
    intros x Hin; [destruct Hin |].
  cbn [Dom.descendants] in Hin.
  apply in_flat_map in Hin. destruct Hin as (c & Hc & Hin).
  destruct (In_nth_error _ _ Hc) as [i Hi].
  destruct c as [data | t a cs]; [destruct Hin |].
  destruct Hin as [<- | Hin].
  - exists [i]. split; [discriminate |]. cbn [nodeAt]. rewrite Hi. reflexivity.
  - rewrite List.Forall_forall in IH.
    destruct (IH _ Hc x Hin) as (path & Hne & Hat).
    exists (i :: path). split; [discriminate |]. cbn [nodeAt]. rewrite Hi. exact Hat.
Qed.

Lemma position_descendants (path : list nat) :
  forall n x tag,
    path <> [] -> nodeAt path n = Some x -> Dom.hasTag tag x = true ->
    In x (Dom.descendants n).
Proof.
  induction path as [| i path IH]; intros n x tag Hpath Hat Htag; [congruence |].
  destruct n as [data | tagName attributes childNodes]; [discriminate |].
  cbn [nodeAt] in Hat.
  destruct (nth_error childNodes i) as [c |] eqn:Hc; [| discriminate].
  cbn [Dom.descendants]. apply in_flat_map. exists c.
  split; [apply (nth_error_In _ _ Hc) |].
  destruct path as [| k path].
  - injection Hat as ->. destruct x as [data | t a cs]; [discriminate |].
    left. reflexivity.
  - destruct c as [data | t a cs]; [discriminate |].
    right. apply (IH _ x tag); [discriminate | exact Hat | exact Htag].
Qed.

(** X18.  With the order-of-service table on the page, [getSongTitles]
    returns a list and logs nothing, and a title is in the list exactly
    when it is the non-empty text of a [p] element somewhere below the
    table such that the nearest [div] among its ancestors (no [div] lies
    between that one and the paragraph) has a [span] somewhere below
    it. *)
Theorem X18_getSongTitles_lists_the_marked_paragraphs
    (documentElement table : Node) :
  Dom.document_querySelector DomService.isOrderOfServiceTable documentElement = Some table ->
  exists titles,
    DomService.getSongTitles documentElement = (Some titles, []) /\
    forall title,
      In title titles <->
      exists path paragraph div below span,
        path <> [] /\
        nodeAt path table = Some paragraph /\
        Dom.hasTag "p" paragraph = true /\
        nearestDivOf (ancestors path table) div /\
        below <> [] /\
        nodeAt below div = Some span /\
        Dom.hasTag "span" span = true /\
        title = Dom.textContent paragraph /\
        title <> "".
Proof.
  intros Htable. eexists. split; [apply getSongTitles_with_table; exact Htable |].
  intros title. rewrite pushTitles_elem. split.
  - intros (paragraph & div & span & Hin & Hspan & Htitle & Hne).
    destruct (paragraphsWithClosestDiv_position table None paragraph (Some div) Hin)
      as (path & Hpath & Hat & Hp & Hclosest).
    assert (Hnearest : nearestDivOf (ancestors path table) div).
    { destruct (closest_in_chain (ancestors path table) None)
        as [(div' & Hdiv' & Hnearest) | [Hnone _]]; cbv zeta in *.
      - rewrite <- Hclosest in Hdiv'. injection Hdiv' as ->. exact Hnearest.
      - rewrite <- Hclosest in Hnone. discriminate. }
    unfold Dom.querySelector in Hspan. apply List.find_some in Hspan.
    destruct Hspan as [Hbelow Hs].
    destruct (descendants_position div span Hbelow) as (below & Hne' & Hat').
    exists path, paragraph, div, below, span. repeat split; assumption.
  - intros (path & paragraph & div & below & span & Hpath & Hat & Hp & Hnearest &
            Hbelow & Hat' & Hs & Htitle & Hne).
    pose proof (paragraphsWithClosestDiv_visits path table None paragraph Hpath Hat Hp)
      as Hin.
    rewrite (closest_of_nearest _ div None Hnearest) in Hin.
    pose proof (position_descendants below div span "span" Hbelow Hat' Hs) as Hdesc.
    destruct (Dom.querySelector (Dom.hasTag "span") div) as [span' |] eqn:Hq.
    + exists paragraph, div, span'. repeat split; assumption.
    + unfold Dom.querySelector in Hq.
      rewrite (List.find_none _ _ Hq span Hdesc) in Hs. discriminate.
Qed.

Lemma X18_witness :
  exists titles,
    DomService.getSongTitles Examples.planPage = (Some titles, []) /\
    In "Amazing Grace" titles.
Proof.
  destruct (X18_getSongTitles_lists_the_marked_paragraphs Examples.planPage
              (Element "div" [("data-rbd-droppable-id", "orderOfServiceTable")]
                 [Element "div" []
                    [Element "span" [] [TextNode "song"];
                     Element "p" [] [TextNode "Amazing Grace"]];
                  Element "div" [] [Element "p" [] [TextNode "Welcome"]]])
              eq_refl)
    as (titles & Hrun & Hiff).
  exists titles. split; [exact Hrun |]. apply Hiff.
  exists [0; 1]%nat, (Element "p" [] [TextNode "Amazing Grace"]).
  exists (Element "div" []
            [Element "span" [] [TextNode "song"];
             Element "p" [] [TextNode "Amazing Grace"]]).
  exists [0]%nat, (Element "span" [] [TextNode "song"]).
  split; [discriminate |]. split; [reflexivity |]. split; [reflexivity |].
  split.
  - exists [Element "div" [("data-rbd-droppable-id", "orderOfServiceTable")]
              [Element "div" []
                 [Element "span" [] [TextNode "song"];
                  Element "p" [] [TextNode "Amazing Grace"]];
               Element "div" [] [Element "p" [] [TextNode "Welcome"]]]], [].
    split; [reflexivity |]. split; [reflexivity | constructor].
  - split; [discriminate |]. split; [reflexivity |]. split; [reflexivity |].
    split; [reflexivity | discriminate].
Defined.

(** X19.  With the table on the page the click handler returns without
    throwing; it logs "No songs found." when no paragraph qualifies and
    logs nothing otherwise. *)
Theorem X19_click_with_table (documentElement table : Node) :
  Dom.document_querySelector DomService.isOrderOfServiceTable documentElement = Some table ->
  exists errors,
    DomService.onStreamButtonClick documentElement = (Returned tt, errors) /\
    (errors = [] <->
     exists paragraph div span,
       In (paragraph, Some div) (Dom.paragraphsWithClosestDiv None table) /\
       Dom.querySelector (Dom.hasTag "span") div = Some span /\
       Dom.textContent paragraph <> "") /\
    (errors <> [] -> errors = ["No songs found."]).
Proof.
  intros Htable. unfold DomService.onStreamButtonClick.
  rewrite (getSongTitles_with_table documentElement table Htable).
  pose proof (pushTitles_elem (Dom.paragraphsWithClosestDiv None table)) as Helem.
  destruct (DomService.pushTitles (Dom.paragraphsWithClosestDiv None table))
    as [| title titles].
  - eexists. split; [reflexivity |]. split; [| reflexivity].
    split; [discriminate |].
    intros (paragraph & div & span & Hin & Hspan & Hne).
    assert (Hfalse : In (Dom.textContent paragraph) []).
    { apply Helem. exists paragraph, div, span. repeat split; assumption. }
    destruct Hfalse.
  - eexists. split; [reflexivity |]. split; [| congruence].
    split; [| reflexivity]. intros _.
    destruct (proj1 (Helem title) (or_introl eq_refl))
      as (paragraph & div & span & Hin & Hspan & Htitle & Hne).
    exists paragraph, div, span. subst title. repeat split; assumption.
Qed.

Lemma X19_witness :
  exists errors,
    DomService.onStreamButtonClick Examples.planPage = (Returned tt, errors) /\
    (errors <> [] -> errors = ["No songs found."]).
Proof.
  destruct (X19_click_with_table Examples.planPage
              (Element "div" [("data-rbd-droppable-id", "orderOfServiceTable")]
                 [Element "div" []
                    [Element "span" [] [TextNode "song"];
                     Element "p" [] [TextNode "Amazing Grace"]];
                  Element "div" [] [Element "p" [] [TextNode "Welcome"]]])
              eq_refl)
    as (errors & Hrun & _ & Hlog).
  exists errors. split; assumption.
Defined.

Lemma X1_witness :
  storage (snd (TokenService.saveAuthToken (H := Hosts.utc) Examples.hourToken
                  (Scenarios.signedOut Examples.newYear2025 NoCallback)))
    !! ClientIdService.CLIENT_ID_KEY =
  storage (Scenarios.signedOut Examples.newYear2025 NoCallback)
    !! ClientIdService.CLIENT_ID_KEY.
Proof.
  destruct (X1_saveAuthToken_then_read (H := Hosts.utc) Examples.hourToken
              (Scenarios.signedOut Examples.newYear2025 NoCallback))
    as (expiry & _ & _ & _ & _ & Hframe & _).
  apply Hframe; discriminate.
Defined.

(** ** The "New Stream" button *)

Section PrependAtParent.
Variable sel : Node -> bool.
Variable new : Node.

(** The selector looks at elements only, and only at their tag and
    attributes; the node to insert does not match it, nor does anything
    inside it. *)
Hypothesis sel_text : forall data, sel (TextNode data) = false.
Hypothesis sel_shallow :
  forall tagName attributes childNodes childNodes',
    sel (Element tagName attributes childNodes) =
    sel (Element tagName attributes childNodes').
Hypothesis new_element : exists tagName attributes childNodes,
    new = Element tagName attributes childNodes.
Hypothesis new_unmatched : List.find sel (Dom.subtreeElements new) = None.

Lemma find_app_first {A} (f : A -> bool) (l1 l2 : list A) :
  List.find f (l1 ++ l2) =
  match List.find f l1 with
  | Some x => Some x
  | None => List.find f l2
  end.
Proof.
  induction l1 as [| x l1 IH]; [reflexivity |].
  simpl. destruct (f x); [reflexivity | exact IH].
Qed.

Lemma descendants_element (tagName : string) (attributes : list (string * string))
    (childNodes : list Node) :
  Dom.descendants (Element tagName attributes childNodes) =
  flat_map Dom.subtreeElements childNodes.
Proof. reflexivity. Qed.

Lemma prependAtParent_shape (n n' : Node) :
  Dom.prependAtParent sel new n = Some n' ->
  exists tagName attributes childNodes childNodes',
    n = Element tagName attributes childNodes /\
    n' = Element tagName attributes childNodes'.
Proof.
  destruct n as [data | tagName attributes childNodes]; [discriminate |].
  cbn [Dom.prependAtParent].
  destruct (Dom.scanChildren (Dom.prependAtParent sel new) sel childNodes)
    as [[| childNodes'] |]; intros Heq; try discriminate; injection Heq as <-;
    do 4 eexists; split; reflexivity.
Qed.

(** What the search inside one node guarantees. *)
Definition prependsCorrectly (n : Node) : Prop :=
  match Dom.prependAtParent sel new n with
  | None => List.find sel (Dom.descendants n) = None
  | Some n' =>
      List.find sel (Dom.descendants n') = List.find sel (Dom.descendants n) /\
      List.find sel (Dom.descendants n) <> None /\
      In new (Dom.descendants n') /\
      List.length (Dom.descendants n') =
        (List.length (Dom.descendants n) + List.length (Dom.subtreeElements new))%nat
  end.

Lemma scanChildren_correct (childNodes : list Node) :
  Forall prependsCorrectly childNodes ->
  match Dom.scanChildren (Dom.prependAtParent sel new) sel childNodes with
  | None => List.find sel (flat_map Dom.subtreeElements childNodes) = None
  | Some Dom.AmongThese =>
      List.find sel (flat_map Dom.subtreeElements childNodes) <> None
  | Some (Dom.Within childNodes') =>
      List.find sel (flat_map Dom.subtreeElements childNodes') =
        List.find sel (flat_map Dom.subtreeElements childNodes) /\
      List.find sel (flat_map Dom.subtreeElements childNodes) <> None /\
      In new (flat_map Dom.subtreeElements childNodes') /\
      List.length (flat_map Dom.subtreeElements childNodes') =
        (List.length (flat_map Dom.subtreeElements childNodes) +
         List.length (Dom.subtreeElements new))%nat
  end.
Proof.
  induction 1 as [| c rest Hc Hrest IH]; [reflexivity |].
  cbn [Dom.scanChildren flat_map].
  destruct (sel c) eqn:Hsel.
  - destruct c as [data | t a cs]; [rewrite sel_text in Hsel; discriminate |].
    cbn [Dom.subtreeElements app List.find]. rewrite Hsel. discriminate.
  - unfold prependsCorrectly in Hc.
    destruct (Dom.prependAtParent sel new c) as [c' |] eqn:Hinside.
    + destruct (prependAtParent_shape c c' Hinside) as (t & a & cs & cs' & -> & ->).
      destruct Hc as (Hfind & Hsome & Hin & Hlen).
      cbn [Dom.subtreeElements flat_map app List.find].
      rewrite (sel_shallow t a cs' cs), Hsel, !find_app_first, Hfind.
      split; [reflexivity |]. split.
      * destruct (List.find sel (Dom.descendants (Element t a cs))); congruence.
      * split; [right; apply in_or_app; left; exact Hin |].
        cbn [List.length]. rewrite !length_app, Hlen. lia.
    + assert (Hhere : List.find sel (Dom.subtreeElements c) = None).
      { destruct c as [data | t a cs]; [reflexivity |].
        cbn [Dom.subtreeElements List.find]. rewrite Hsel. exact Hc. }
      rewrite find_app_first, Hhere.
      destruct (Dom.scanChildren (Dom.prependAtParent sel new) sel rest)
        as [[| rest'] |]; [exact IH | | exact IH].
      destruct IH as (Hfind & Hsome & Hin & Hlen).
      cbn [flat_map]. rewrite find_app_first, Hhere.
      split; [exact Hfind |]. split; [exact Hsome |].
      split; [apply in_or_app; right; exact Hin |].
      rewrite !length_app, Hlen. lia.
Qed.

Lemma prependAtParent_correct (n : Node) : prependsCorrectly n.
Proof.
  induction n as [data | tagName attributes childNodes IH] using Node_ind_children;
    [reflexivity |].
  pose proof (scanChildren_correct childNodes IH) as Hscan.
  unfold prependsCorrectly. cbn [Dom.prependAtParent].
  destruct (Dom.scanChildren (Dom.prependAtParent sel new) sel childNodes)
    as [[| childNodes'] |].
  - rewrite !descendants_element. cbn [flat_map].
    rewrite find_app_first, new_unmatched.
    split; [reflexivity |]. split; [exact Hscan |].
    destruct new_element as (t & a & cs & Hnew).
    split; [apply in_or_app; left; rewrite Hnew; left; reflexivity |].
    rewrite length_app. lia.
  - rewrite !descendants_element. exact Hscan.
  - rewrite descendants_element. exact Hscan.
Qed.
End PrependAtParent.

Lemma getAttribute_setAttribute (name value : string) (tagName : string)
    (attributes : list (string * string)) (childNodes childNodes' : list Node) :
  Dom.getAttribute name
    (Element tagName (Dom.setAttribute name value attributes) childNodes) = Some value.
Proof.
  cbn [Dom.getAttribute].
  induction attributes as [| [k v] rest IH]; cbn [Dom.setAttribute List.find fst].
  - rewrite String.eqb_refl. reflexivity.
  - destruct (String.eqb k name) eqn:Hk; cbn [List.find fst]; rewrite Hk;
      [reflexivity | exact IH].
Qed.

Lemma getAttribute_setAttribute_other (name name' value : string) (tagName : string)
    (attributes : list (string * string)) (childNodes childNodes' : list Node) :
  name' <> name ->
  Dom.getAttribute name'
    (Element tagName (Dom.setAttribute name value attributes) childNodes) =
  Dom.getAttribute name' (Element tagName attributes childNodes').
Proof.
  intros Hne. cbn [Dom.getAttribute]. f_equal.
  induction attributes as [| [k v] rest IH]; cbn [Dom.setAttribute List.find fst].
  - apply String.eqb_neq in Hne. rewrite String.eqb_sym, Hne. reflexivity.
  - destruct (String.eqb k name) eqn:Hk; cbn [List.find fst].
    + apply String.eqb_eq in Hk. subst k.
      apply String.eqb_neq in Hne. rewrite String.eqb_sym, Hne. reflexivity.
    + destruct (String.eqb k name'); [reflexivity | exact IH].
Qed.

Lemma isShareButton_text (data : string) : DomService.isShareButton (TextNode data) = false.
Proof. reflexivity. Qed.

Lemma isShareButton_shallow (tagName : string) (attributes : list (string * string))
    (childNodes childNodes' : list Node) :
  DomService.isShareButton (Element tagName attributes childNodes) =
  DomService.isShareButton (Element tagName attributes childNodes').
Proof. reflexivity. Qed.

Lemma newStreamButton_unmatched (button : Node) :
  List.find DomService.isShareButton (Dom.subtreeElements (DomService.newStreamButton button))
  = None.
Proof.
  destruct button as [data | tagName attributes childNodes]; [reflexivity |].
  cbn [DomService.newStreamButton Dom.subtreeElements List.find].
  unfold DomService.isShareButton at 1.
  rewrite (getAttribute_setAttribute "aria-label" "New Stream" tagName attributes _ []).
  rewrite andb_false_r. reflexivity.
Qed.

Lemma isShareButton_element (button : Node) :
  DomService.isShareButton button = true ->
  exists attributes childNodes, button = Element "button" attributes childNodes.
Proof.
  destruct button as [data | tagName attributes childNodes]; [discriminate |].
  unfold DomService.isShareButton, Dom.hasTag. intros Hshare.
  apply andb_true_iff in Hshare. destruct Hshare as [Htag _].
  apply String.eqb_eq in Htag. subst tagName. eauto.
Qed.

(** What [createStreamButton] does to a page whose first Share button is
    [button], below the root. *)
Lemma createStreamButton_installs (documentElement button : Node) :
  Dom.document_querySelector DomService.isShareButton documentElement = Some button ->
  DomService.isShareButton documentElement = false ->
  exists documentElement',
    DomService.createStreamButton documentElement =
      inr {| DomService.page := documentElement';
             DomService.clickTarget := DomService.newStreamButton button |} /\
    In (DomService.newStreamButton button) (Dom.descendants documentElement') /\
    List.length (Dom.descendants documentElement') =
      S (List.length (Dom.descendants documentElement)) /\
    Dom.document_querySelector DomService.isShareButton documentElement' = Some button /\
    DomService.isShareButton documentElement' = false.
Proof.
  intros Hfind Hroot. unfold DomService.createStreamButton. rewrite Hfind, Hroot.
  assert (Hshare : DomService.isShareButton button = true).
  { apply (List.find_some _ _ Hfind). }
  destruct (isShareButton_element button Hshare) as (attributes & childNodes & Hbutton).
  pose proof (prependAtParent_correct DomService.isShareButton
                (DomService.newStreamButton button)
                isShareButton_text isShareButton_shallow
                ltac:(rewrite Hbutton; cbn [DomService.newStreamButton]; eauto)
                (newStreamButton_unmatched button) documentElement) as Hcorrect.
  unfold prependsCorrectly in Hcorrect.
  assert (Hbelow : List.find DomService.isShareButton (Dom.descendants documentElement)
                   = Some button).
  { unfold Dom.document_querySelector in Hfind. cbn [List.find] in Hfind.
    rewrite Hroot in Hfind. exact Hfind. }
  destruct (Dom.prependAtParent DomService.isShareButton
              (DomService.newStreamButton button) documentElement)
    as [documentElement' |] eqn:Hprepend; [| congruence].
  destruct Hcorrect as (Hsame & _ & Hin & Hlen).
  destruct (prependAtParent_shape _ _ _ _ Hprepend) as (t & a & cs & cs' & Hdoc & Hdoc').
  assert (Hroot' : DomService.isShareButton documentElement' = false).
  { rewrite Hdoc', (isShareButton_shallow t a cs' cs), <- Hdoc. exact Hroot. }
  exists documentElement'. split; [reflexivity |]. split; [exact Hin |]. split.
  - rewrite Hlen.
    replace (List.length (Dom.subtreeElements (DomService.newStreamButton button)))
      with 1%nat by (rewrite Hbutton; reflexivity).
    lia.
  - split; [| exact Hroot'].
    unfold Dom.document_querySelector. cbn [List.find]. rewrite Hroot', Hsame.
    exact Hbelow.
Qed.

(** X20.  On a page without a Share button, [createStreamButton] (and so
    [DomService.init]) throws a TypeError, reading [cloneNode] of [null];
    the script body then rejects with it once the sign-in script has been
    injected and has loaded, and the page is left as it was. *)
Theorem X20_no_share_button (documentElement : Node) (st : State) :
  Dom.document_querySelector DomService.isShareButton documentElement = None ->
  DomService.init documentElement =
    inl (TypeError "Cannot read properties of null (reading 'cloneNode')") /\
  (fst (AuthService.init st) = Returned tt ->
   Main.main st documentElement =
     (Threw (TypeError "Cannot read properties of null (reading 'cloneNode')"),
      snd (AuthService.init st), documentElement)).
Proof.
  intros Habsent.
  assert (Hinit : DomService.init documentElement =
                  inl (TypeError "Cannot read properties of null (reading 'cloneNode')")).
  { unfold DomService.init, DomService.createStreamButton. rewrite Habsent. reflexivity. }
  split; [exact Hinit |].
  intros Hloaded. unfold Main.main.
  destruct (AuthService.init st) as [[[] | e |] st'] eqn:Hauth; try discriminate.
  rewrite Hinit. reflexivity.
Qed.

Lemma X20_witness :
  Main.main (Examples.fresh 0) Examples.planPage =
  (Threw (TypeError "Cannot read properties of null (reading 'cloneNode')"),
   snd (AuthService.init (Examples.fresh 0)), Examples.planPage).
Proof.
  apply (proj2 (X20_no_share_button Examples.planPage (Examples.fresh 0) eq_refl)).
  reflexivity.
Defined.

(** X21.  On a page whose first Share button lies below the root element,
    [createStreamButton] adds exactly one element to the page: a copy of
    that button which keeps its tag and its other attributes, has
    [aria-label] "New Stream" and the text "New Stream", and is the
    element that listens for clicks.  The Share button is still the first
    match of the selector afterwards, so a second call succeeds as well
    and adds a second such button. *)
Theorem X21_createStreamButton_adds_one_button (documentElement button : Node) :
  Dom.document_querySelector DomService.isShareButton documentElement = Some button ->
  DomService.isShareButton documentElement = false ->
  exists installed installed',
    DomService.createStreamButton documentElement = inr installed /\
    In (DomService.clickTarget installed) (Dom.descendants (DomService.page installed)) /\
    List.length (Dom.descendants (DomService.page installed)) =
      S (List.length (Dom.descendants documentElement)) /\
    Dom.hasTag "button" (DomService.clickTarget installed) = true /\
    Dom.getAttribute "aria-label" (DomService.clickTarget installed) = Some "New Stream" /\
    Dom.textContent (DomService.clickTarget installed) = "New Stream" /\
    (forall name,
       name <> "aria-label" ->
       Dom.getAttribute name (DomService.clickTarget installed) =
       Dom.getAttribute name button) /\
    Dom.document_querySelector DomService.isShareButton (DomService.page installed) =
      Some button /\
    DomService.createStreamButton (DomService.page installed) = inr installed' /\
    DomService.clickTarget installed' = DomService.clickTarget installed /\
    List.length (Dom.descendants (DomService.page installed')) =
      S (S (List.length (Dom.descendants documentElement))).
Proof.
  intros Hfind Hroot.
  destruct (createStreamButton_installs documentElement button Hfind Hroot)
    as (page1 & Hfirst & Hin & Hlen & Hfind1 & Hroot1).
  destruct (createStreamButton_installs page1 button Hfind1 Hroot1)
    as (page2 & Hsecond & _ & Hlen2 & _ & _).
  assert (Hshare : DomService.isShareButton button = true).
  { apply (List.find_some _ _ Hfind). }
  destruct (isShareButton_element button Hshare) as (attributes & childNodes & Hbutton).
  eexists. eexists. split; [exact Hfirst |]. cbn [DomService.page DomService.clickTarget].
  split; [exact Hin |]. split; [exact Hlen |].
  split; [rewrite Hbutton; reflexivity |]. split.
  { rewrite Hbutton. cbn [DomService.newStreamButton].
    apply (getAttribute_setAttribute "aria-label" "New Stream" "button" attributes _ []). }
  split; [rewrite Hbutton; reflexivity |]. split.
  { intros name Hname. rewrite Hbutton. cbn [DomService.newStreamButton].
    apply getAttribute_setAttribute_other. exact Hname. }
  split; [exact Hfind1 |]. split; [exact Hsecond |]. split; [reflexivity |].
  cbn [DomService.page]. rewrite Hlen2, Hlen. reflexivity.
Qed.

Lemma X21_witness :
  exists installed,
    DomService.createStreamButton Scenarios.toolbarPage = inr installed /\
    Dom.getAttribute "class" (DomService.clickTarget installed) =
      Dom.getAttribute "class" Scenarios.shareButton.
Proof.
  destruct (X21_createStreamButton_adds_one_button Scenarios.toolbarPage
              Scenarios.shareButton eq_refl eq_refl)
    as (installed & installed' & Hrun & _ & _ & _ & _ & _ & Hother & _).
  exists installed. split; [exact Hrun |]. apply Hother. discriminate.
Defined.

(** X22.  The script body creates the button only after the sign-in
    script has loaded: on a service that is not yet initialised, when the
    injected script never fires [onload] the body stays pending with the
    script injected and the page untouched; when it loads and the page
    has its Share button below the root, the body completes and leaves
    the page with the button installed. *)
Theorem X22_main_waits_for_the_sign_in_script (st : State) (documentElement : Node) :
  initialized st = false ->
  (script_loads st = false ->
   Main.main st documentElement =
     (Pending,
      with_head_scripts (head_scripts st ++ [AuthService.GSI_SCRIPT_URL])%list
        (with_initialized true st),
      documentElement)) /\
  (script_loads st = true ->
   forall button,
     Dom.document_querySelector DomService.isShareButton documentElement = Some button ->
     DomService.isShareButton documentElement = false ->
     exists installed,
       DomService.createStreamButton documentElement = inr installed /\
       Main.main st documentElement =
         (Returned tt,
          with_head_scripts (head_scripts st ++ [AuthService.GSI_SCRIPT_URL])%list
            (with_initialized true st),
          DomService.page installed)).
Proof.
  intros Hfresh. split.
  - intros Hload. unfold Main.main, AuthService.init, AuthService.injectGSIScript,
      bind, gets, modify.
    rewrite Hfresh. simpl. rewrite Hload. reflexivity.
  - intros Hload button Hfind Hroot.
    destruct (createStreamButton_installs documentElement button Hfind Hroot)
      as (page1 & Hrun & _).
    eexists. split; [exact Hrun |].
    unfold Main.main, DomService.init, AuthService.init, AuthService.injectGSIScript,
      bind, gets, modify.
    rewrite Hfresh. simpl. rewrite Hload, Hrun. reflexivity.
Qed.

Lemma X22_witness :
  Main.main
    {| storage := ∅; clock := 0; initialized := false; head_scripts := [];
       script_loads := false; prompts := []; popups := []; trace := [] |}
    Scenarios.toolbarPage =
  (Pending,
   {| storage := ∅; clock := 0; initialized := true;
      head_scripts := [AuthService.GSI_SCRIPT_URL];
      script_loads := false; prompts := []; popups := []; trace := [] |},
   Scenarios.toolbarPage).
Proof.
  apply (proj1 (X22_main_waits_for_the_sign_in_script
                  {| storage := ∅; clock := 0; initialized := false; head_scripts := [];
                     script_loads := false; prompts := []; popups := []; trace := [] |}
                  Scenarios.toolbarPage eq_refl)).
  reflexivity.
Defined.

(** ** A popup that never answers, and the messages of validation *)

Section SilentPopup.
Context `{Host}.

Lemma login_popup_silent (st : State) (cid : JSValue) (rest : list PopupOutcome) :
  JS.truthy (TokenService.isUserAuthenticated st) = false ->
  storage st !! ClientIdService.CLIENT_ID_KEY = Some cid ->
  JS.truthy cid = true ->
  popups st = NoCallback :: rest ->
  AuthService.login st =
    (Pending,
     with_popups rest
       (with_trace
          (trace st ++
           [EvLogin; EvRequestAccessToken cid "https://www.googleapis.com/auth/youtube"])%list
          st)).
Proof.
  intros Hauth Hcid Htruthy Hpopups.
  rewrite (login_unauthenticated st Hauth).
  unfold AuthService.authenticate, bind at 1.
  rewrite (createTokenClient_stored (with_trace (trace st ++ [EvLogin])%list st) cid
             Hcid Htruthy).
  unfold try_catch, bind, AuthClient.fetchAuthToken, bind, emit, modify. simpl.
  rewrite Hpopups. unfold with_popups, with_trace. simpl.
  rewrite <- app_assoc. reflexivity.
Qed.

(** X23.  The token client is given a callback for the token response
    only.  When the popup never calls it (closed or blocked), the promise
    of [fetchAuthToken] never settles: a request (with a legal
    Authorization value) answered with 401/403 then stays pending for
    ever, with the popup requested but no timer, no retry and nothing
    logged, and the storage as it was. *)
Theorem X23_request_hangs_when_the_popup_never_calls_back
    (res : Response) (net : list FetchOutcome) (endpoint : string)
    (options : RequestInit) (st : State) (cid : JSValue) (rest : list PopupOutcome) :
  legalBearer st = true ->
  YouTubeApiService.isUnauthorized (status res) = true ->
  JS.truthy (TokenService.isUserAuthenticated st) = false ->
  storage st !! ClientIdService.CLIENT_ID_KEY = Some cid ->
  JS.truthy cid = true ->
  popups st = NoCallback :: rest ->
  exists st',
    YouTubeApiService.executeRequest (FetchResolves res :: net) endpoint options st =
      (Pending, st') /\
    storage st' = storage st /\
    trace st' =
      (trace st ++
       [EvFetch (YouTubeApiService.buildUrl endpoint) (requestSent st options);
        EvLogin;
        EvRequestAccessToken cid "https://www.googleapis.com/auth/youtube"])%list.
Proof.
  intros Hlegal Hu Hauth Hcid Htruthy Hpopups.
  rewrite (executeRequest_unauthorized_step res _ endpoint options st Hlegal Hu).
  rewrite (login_popup_silent (afterFetch st endpoint options) cid rest
             Hauth Hcid Htruthy Hpopups).
  eexists. split; [reflexivity |]. split; [reflexivity |].
  unfold afterFetch. cbn [trace with_popups with_trace]. rewrite <- app_assoc. reflexivity.
Qed.

(** X24.  [validate] reports the first check that fails, in the order
    access token, expiration time, token type, wrapped once as "Invalid
    data: ..."; a missing response object is reported unwrapped. *)
Theorem X24_validate_reports_the_first_failing_check (d : TokenData) (st : State) :
  AuthTokenValidator.validate None st = (Threw (Error "No data provided."), st) /\
  (JS.truthy (AuthTokenValidator.isValidAccessToken (access_token d)) = false ->
   AuthTokenValidator.validate (Some d) st =
     (Threw (Error "Invalid data: Error: Invalid access token."), st)) /\
  (JS.truthy (AuthTokenValidator.isValidAccessToken (access_token d)) = true ->
   JS.truthy (AuthTokenValidator.isValidExpiresIn (expires_in d)) = false ->
   AuthTokenValidator.validate (Some d) st =
     (Threw (Error "Invalid data: Error: Invalid expiration time."), st)) /\
  (JS.truthy (AuthTokenValidator.isValidAccessToken (access_token d)) = true ->
   JS.truthy (AuthTokenValidator.isValidExpiresIn (expires_in d)) = true ->
   JS.truthy (AuthTokenValidator.isValidTokenType (token_type d)) = false ->
   AuthTokenValidator.validate (Some d) st =
     (Threw (Error "Invalid data: Error: Invalid token type."), st)).
Proof.
  unfold AuthTokenValidator.validate, try_catch, bind,
    AuthTokenValidator.validateAccessToken, AuthTokenValidator.validateExpiresIn,
    AuthTokenValidator.validateTokenType, JS.not, throw, ret.
  split; [reflexivity |]. split; [| split].
  - intros ->. reflexivity.
  - intros -> ->. reflexivity.
  - intros -> -> ->. reflexivity.
Qed.
End SilentPopup.

Lemma X23_witness :
  exists st',
    YouTubeApiService.executeRequest (H := Hosts.utc)
      [Examples.respond 401; Scenarios.okWith Scenarios.channelList]
      YouTubeStreamService.DUMMY_ENDPOINT emptyOptions
      (Scenarios.signedOut Examples.newYear2025 NoCallback) = (Pending, st') /\
    storage st' = storage (Scenarios.signedOut Examples.newYear2025 NoCallback).
Proof.
  destruct (X23_request_hangs_when_the_popup_never_calls_back (H := Hosts.utc)
              {| status := 401; json := Some (JObject []) |}
              [Scenarios.okWith Scenarios.channelList]
              YouTubeStreamService.DUMMY_ENDPOINT emptyOptions
              (Scenarios.signedOut Examples.newYear2025 NoCallback)
              Scenarios.clientId [])
    as (st' & Hrun & Hstorage & _).
  - reflexivity.
  - reflexivity.
  - reflexivity.
  - reflexivity.
  - reflexivity.
  - reflexivity.
  - exists st'. split; assumption.
Defined.

Lemma X24_witness :
  AuthTokenValidator.validate (H := Hosts.utc) (Some Scenarios.noTokenType)
    (Examples.fresh 0) =
  (Threw (Error "Invalid data: Error: Invalid token type."), Examples.fresh 0).
Proof.
  apply (proj2 (proj2 (proj2 (X24_validate_reports_the_first_failing_check
                                (H := Hosts.utc) Scenarios.noTokenType (Examples.fresh 0)))));
    reflexivity.
Defined.
